(** * Investment_Analysis: classification, import and aggregation

    A shallow embedding of the Python sources

      - [csv_financial_tracker.py]   ([FinancialTracker])
      - [import_csv_transactions.py] ([import_with_batching])
      - [investment_visualizer.py]   ([identify_transaction_type],
                                      [create_investment_visualizations])

    Conventions of the embedding.

    - Python [str] values are Rocq [string]s (sequences of 8-bit
      characters); [lower] and [strip] act on the ASCII range.
    - A CSV record produced by [csv.DictReader] is a [gmap string string];
      [d.get(k, default)] is [get].
    - An amount is the decimal of its cell, an exact rational ([Q]);
      Python's built-in [float(...)] on strings is a parameter
      [float : string -> option Q] ([None] is [ValueError]).  The tests of
      an amount against zero are exact.  Sums of amounts are doubles in
      the program: the monthly and the cumulative balance are modelled
      over a type of doubles with an addition and a group sum of which
      nothing is assumed; the group sums of the tables of the dashboard
      and of the pivot tables are written with the exact sum
      [Pandas.Qsum], and what is proved of them is which rows a sum
      ranges over and, for rows of one sign, its sign.
    - A worksheet is the list of its data rows.  The write calls of the two
      batch loops ([append_rows], [batch_update]), the final
      [update_dashboard] of an import, the read of the id column
      ([col_values]) and the read of the Categories worksheet take their
      outcome from an explicit argument; [append_row] is taken to return.
    - [time.sleep], the write calls and the error messages of the batch
      loops are recorded as events of a trace.
    - A data frame is the list of its rows; the pandas operations are
      modelled by what they compute ([Pandas]). *)

From Stdlib Require Import String Ascii List ZArith NArith QArith Lia ZifyNat Bool.
From Stdlib Require Import Permutation Sorted OrdersEx DecimalString DecimalNat DecimalN.
From Stdlib Require PrimFloat FloatOps SpecFloat Uint63.
From stdpp Require Import gmap strings.

Import ListNotations.

Local Open Scope string_scope.
Local Open Scope list_scope.

(** ** Python string primitives *)

Module PyStr.

(** [c.lower()] on one character. *)
Definition lower_ascii (c : ascii) : ascii :=
  let n := nat_of_ascii c in
  if (65 <=? n)%nat && (n <=? 90)%nat then ascii_of_nat (n + 32) else c.

(** [s.lower()]. *)
Fixpoint lower (s : string) : string :=
  match s with
  | EmptyString => EmptyString
  | String c r => String (lower_ascii c) (lower r)
  end.

(** Whitespace in the sense of [str.strip()], ASCII range. *)
Definition is_space (c : ascii) : bool :=
  let n := nat_of_ascii c in
  ((9 <=? n)%nat && (n <=? 13)%nat) || ((28 <=? n)%nat && (n <=? 32)%nat).

Fixpoint lstrip (s : string) : string :=
  match s with
  | EmptyString => EmptyString
  | String c r => if is_space c then lstrip r else s
  end.

Fixpoint rstrip (s : string) : string :=
  match s with
  | EmptyString => EmptyString
  | String c r =>
      match rstrip r with
      | EmptyString => if is_space c then EmptyString else String c EmptyString
      | r' => String c r'
      end
  end.

(** [s.strip()]. *)
Definition strip (s : string) : string := rstrip (lstrip s).

(** [s.split(sep)] for a one-character separator: never empty. *)
Fixpoint split (sep : ascii) (s : string) : list string :=
  match s with
  | EmptyString => [EmptyString]
  | String c r =>
      if Ascii.eqb c sep then EmptyString :: split sep r
      else match split sep r with
           | [] => [String c EmptyString]
           | w :: ws => String c w :: ws
           end
  end.

(** [sep.join(ws)]. *)
Fixpoint join (sep : string) (ws : list string) : string :=
  match ws with
  | [] => EmptyString
  | [w] => w
  | w :: ws' => (w ++ sep ++ join sep ws')%string
  end.

(** [s.replace(c, '')] for a one-character [c]. *)
Fixpoint remove_char (c : ascii) (s : string) : string :=
  match s with
  | EmptyString => EmptyString
  | String d r => if Ascii.eqb d c then remove_char c r else String d (remove_char c r)
  end.

(** [needle in hay]. *)
Fixpoint contains (needle hay : string) : bool :=
  String.prefix needle hay
  || match hay with
     | EmptyString => false
     | String _ r => contains needle r
     end.

(** Truthiness of a string: [bool(s)]. *)
Definition truthy (s : string) : bool :=
  match s with EmptyString => false | _ => true end.

(** [str(n)] for a non-negative integer. *)
Definition str_nat (n : nat) : string := NilEmpty.string_of_uint (Nat.to_uint n).
Definition str_N (n : N) : string := NilEmpty.string_of_uint (N.to_uint n).

End PyStr.

(** [d.get(k, default)] on a record read by [csv.DictReader]. *)
Definition get (d : gmap string string) (k : string) (dflt : string) : string :=
  default dflt (d !! k).

(** [x in xs] for a list of strings. *)
Definition py_in (x : string) (xs : list string) : bool :=
  existsb (String.eqb x) xs.

(** ** Shared data: sheet rows and the effects of a run *)

(** One data row of the Transactions worksheet, columns
    [Date, Description, Amount, Category, Account, Transaction ID,
     Pending, Merchant Name]. *)
Record SheetRow : Type := mkRow {
  r_date : string;
  r_description : string;
  r_amount : Q;
  r_category : string;
  r_account : string;
  r_id : string;
  r_pending : string;
  r_merchant : string
}.

(** [worksheet.col_values(6)[1:]]: the id column below the header. *)
Definition col_values_6 (ws : list SheetRow) : list string := map r_id ws.

(** [try: existing_transaction_ids = ....col_values(6)[1:]]
    [except: existing_transaction_ids = []].  [col_values_ok] tells whether
    the call returns. *)
Definition existing_ids (col_values_ok : bool) (ws : list SheetRow) : list string :=
  if col_values_ok then col_values_6 ws else [].

(** What a run does to the outside world, in order. *)
Inductive event (W : Type) : Type :=
| EWrite (group : nat) (payload : list W)   (* one write call that succeeded *)
| EWriteFailed (group : nat)                (* one write call that raised *)
| EPrintError (group : nat)                 (* "Error in batch ..." *)
| ESleep (group : nat) (seconds : Q).       (* time.sleep in iteration [group] *)
Arguments EWrite {W} group payload.
Arguments EWriteFailed {W} group.
Arguments EPrintError {W} group.
Arguments ESleep {W} group seconds.

(** How a function body ends. *)
Inductive ending : Type :=
| Returned
| Raised.

(** [[l[i:i+size] for i in range(0, len(l), size)]] for [size > 0]
    ([range] raises [ValueError] for a zero step; the callers below guard it). *)
Definition py_range_step (stop step : nat) : list nat :=
  map (fun k => k * step) (seq 0 ((stop + step - 1) / step)).

Definition py_slice {A : Type} (l : list A) (i j : nat) : list A :=
  firstn (j - i) (skipn i l).

Definition batches_of {A : Type} (size : nat) (l : list A) : list (list A) :=
  map (fun i => py_slice l i (i + size)) (py_range_step (length l) size).

(** ** csv_financial_tracker.py *)

Module Tracker.

(** [self.categories]; a Python dict keeps insertion order. *)
Definition categories : list (string * list string) :=
  [ ("Buy", ["Purchase"; "Accumulate"; "Long position"; "Strategic acquisition"; "Initial investment"]);
    ("Sell", ["Sell"; "Liquidate"; "Close position"; "Profit-taking"; "Strategic divestment"]);
    ("Dividend", ["Dividend"; "payout"; "income"]);
    ("Fee", ["Management fee"; "Administrative expense"; "Trading commission"; "Research"; "audit"; "Performance fee"]);
    ("Capital", ["Initial fund capital"; "deployment"]);
    ("Other", []) ].

(** The Categories worksheet as [create_financial_spreadsheet] fills it:
    a header row, then one row [[category, ", ".join(keywords)]] per entry. *)
Definition default_categories_sheet : list (list string) :=
  ["Category"; "Keywords"]
  :: map (fun e => [fst e; PyStr.join ", " (snd e)]) categories.

(** [[k.strip().lower() for k in row[1].split(',')]]. *)
Definition keywords_of_cell (cell : string) : list string :=
  map (fun k => PyStr.lower (PyStr.strip k)) (PyStr.split "," cell).

(** The inner [for keyword in keywords] loop of the sheet branch:
    [keyword and (keyword in description or keyword in merchant_name)]. *)
Definition sheet_keyword_hit (description merchant_name keyword : string) : bool :=
  PyStr.truthy keyword
  && (PyStr.contains keyword description || PyStr.contains keyword merchant_name).

(** The [for row in category_data] loop; [None] when it falls through. *)
Fixpoint scan_sheet (category_data : list (list string))
  (description merchant_name : string) : option string :=
  match category_data with
  | [] => None
  | row :: rest =>
      match row with
      | category :: cell :: _ =>
          if existsb (sheet_keyword_hit description merchant_name) (keywords_of_cell cell)
          then Some category
          else scan_sheet rest description merchant_name
      | _ => scan_sheet rest description merchant_name   (* len(row) < 2: continue *)
      end
  end.

(** The loop of the [except] branch over [self.categories]. *)
Definition dict_keyword_hit (description merchant_name keyword : string) : bool :=
  PyStr.contains (PyStr.lower keyword) description
  || PyStr.contains (PyStr.lower keyword) merchant_name.

Fixpoint scan_dict (cats : list (string * list string))
  (description merchant_name : string) : option string :=
  match cats with
  | [] => None
  | (category, keywords) :: rest =>
      if existsb (dict_keyword_hit description merchant_name) keywords
      then Some category
      else scan_dict rest description merchant_name
  end.

(** The three tests after the loops. *)
Definition mentions_income (description : string) : bool :=
  PyStr.contains "income" (PyStr.lower description)
  || PyStr.contains "deposit" (PyStr.lower description)
  || PyStr.contains "payroll" (PyStr.lower description).

(** [categorize_transaction].  [sheet] is what
    [self.categories_worksheet.get_all_values()] returns, [None] when the
    call raises and the [except] branch runs. *)
Definition categorize_transaction (sheet : option (list (list string)))
  (description merchant_name : string) : string :=
  let description := PyStr.lower description in
  let merchant_name := PyStr.lower merchant_name in
  let found :=
    match sheet with
    | Some values => scan_sheet (skipn 1 values) description merchant_name
    | None => scan_dict categories description merchant_name
    end in
  match found with
  | Some category => category
  | None => if mentions_income description then "Income" else "Other"
  end.

(** *** [import_csv_transactions] *)

Section ImportCsv.

(** Python's [float] on a string; [None] is [ValueError]. *)
Variable float : string -> option Q.
(** [datetime.strptime(s, date_format).strftime("%Y-%m-%d")];
    [None] is [ValueError]. *)
Variable strptime : string -> option string.
(** [int(datetime.now().timestamp())] while the record at a given position
    of the CSV file is processed. *)
Variable now : nat -> N.

(** The two attempts at the amount.  [transaction.get('Amount', 0)] is the
    integer [0] when the column is missing, and [float(0)] is [0.0]. *)
Definition parse_amount (transaction : gmap string string) : option Q :=
  let first_try :=
    match transaction !! "Amount" with
    | None => Some 0%Q
    | Some s => float s
    end in
  match first_try with
  | Some amount => Some amount
  | None =>
      let amount_str :=
        PyStr.remove_char "," (PyStr.remove_char "$" (get transaction "Amount" "0")) in
      float amount_str
  end.

(** [transaction_id if transaction_id else f"csv_{new_rows}_{...}"]. *)
Definition row_id (transaction_id : string) (new_rows : nat) (k : nat) : string :=
  if PyStr.truthy transaction_id then transaction_id
  else ("csv_" ++ PyStr.str_nat new_rows ++ "_" ++ PyStr.str_N (now k))%string.

(** The [for transaction in transactions] loop.  [k] is the position of the
    record in the file, [ws] the worksheet, [new_rows] the counter.  The
    second component is [None] when [float] raised out of the loop. *)
Fixpoint import_loop (sheet : option (list (list string)))
  (existing_transaction_ids : list string)
  (transactions : list (gmap string string)) (k : nat)
  (ws : list SheetRow) (new_rows : nat) : list SheetRow * option nat :=
  match transactions with
  | [] => (ws, Some new_rows)
  | transaction :: rest =>
      let transaction_id := get transaction "TransactionID" "" in
      if py_in transaction_id existing_transaction_ids
      then import_loop sheet existing_transaction_ids rest (S k) ws new_rows
      else
        let date_str := get transaction "Date" "" in
        let formatted_date := default date_str (strptime date_str) in
        let description := get transaction "Description" "" in
        match parse_amount transaction with
        | None => (ws, None)
        | Some amount =>
            let account := get transaction "Account" "Unknown" in
            let merchant := get transaction "Merchant" "" in
            let pending := get transaction "Pending" "No" in
            let category := categorize_transaction sheet description merchant in
            let row := mkRow formatted_date description amount category account
                         (row_id transaction_id new_rows k) pending merchant in
            import_loop sheet existing_transaction_ids rest (S k)
              (ws ++ [row]) (S new_rows)
        end
  end.

(** What the call leaves behind. *)
Record import_result : Type := mkImportResult {
  worksheet_after : list SheetRow;
  return_value : nat;
  error_printed : bool        (* the outer [except Exception] ran *)
}.

(** [import_csv_transactions].  [col_values_ok] tells whether the id
    column can be read, [dashboard_ok] whether the final
    [self.update_dashboard()] returns normally. *)
Definition import_csv_transactions (sheet : option (list (list string)))
  (col_values_ok dashboard_ok : bool) (ws : list SheetRow)
  (transactions : list (gmap string string)) : import_result :=
  let existing_transaction_ids := existing_ids col_values_ok ws in
  match import_loop sheet existing_transaction_ids transactions 0 ws 0 with
  | (ws', Some new_rows) =>
      if (0 <? new_rows)%nat && negb dashboard_ok
      then mkImportResult ws' 0 true
      else mkImportResult ws' new_rows false
  | (ws', None) => mkImportResult ws' 0 true
  end.

End ImportCsv.

(** *** The write loop of [update_dashboard] ([batch_updates=True]) *)

(** The [for i, batch in enumerate(update_batches)] loop.  [batch_ok i]
    tells whether [batch_update] returns for group [i]; when it raises,
    nothing in [update_dashboard] catches it. *)
Fixpoint dashboard_loop {U : Type} (batch_ok : nat -> bool) (delay_seconds : Q)
  (total : nat) (i : nat) (update_batches : list (list U)) : list (event U) * ending :=
  match update_batches with
  | [] => ([], Returned)
  | batch :: rest =>
      if batch_ok i then
        let pause :=
          if (i <? total - 1)%nat && negb (Qle_bool delay_seconds 0)
          then [ESleep i delay_seconds] else [] in
        let '(trace, e) := dashboard_loop batch_ok delay_seconds total (S i) rest in
        (EWrite i batch :: pause ++ trace, e)
      else ([EWriteFailed i], Raised)
  end.

Definition dashboard_batch_size : nat := 10.

Definition update_dashboard_writes {U : Type} (batch_ok : nat -> bool)
  (delay_seconds : Q) (all_updates : list U) : list (event U) * ending :=
  let update_batches := batches_of dashboard_batch_size all_updates in
  dashboard_loop batch_ok delay_seconds (length update_batches) 0 update_batches.

End Tracker.

(** ** import_csv_transactions.py *)

Module Importer.

Section Batching.

Variable float : string -> option Q.
Variable strptime : string -> option string.
(** [int(datetime.now().timestamp())] while record [j] of batch [i] is
    prepared. *)
Variable now : nat -> nat -> N.

(** [transaction.get('TransactionID', f"csv_{i}_{...}")]: the default is
    used only when the key is missing. *)
Definition batch_row_id (transaction : gmap string string) (i j : nat) : string :=
  default ("csv_" ++ PyStr.str_nat i ++ "_" ++ PyStr.str_N (now i j))%string
          (transaction !! "TransactionID").

(** The [for transaction in batch] loop that fills [rows_to_add]; the
    amount is parsed by the same two statements as in
    [FinancialTracker.import_csv_transactions].  [None]: [float] raised. *)
Fixpoint prepare_rows (sheet : option (list (list string))) (i j : nat)
  (batch : list (gmap string string)) : option (list SheetRow) :=
  match batch with
  | [] => Some []
  | transaction :: rest =>
      let date_str := get transaction "Date" "" in
      let formatted_date := default date_str (strptime date_str) in
      let description := get transaction "Description" "" in
      match Tracker.parse_amount float transaction with
      | None => None
      | Some amount =>
          let account := get transaction "Account" "Unknown" in
          let merchant := get transaction "Merchant" "" in
          let pending := get transaction "Pending" "No" in
          let category := Tracker.categorize_transaction sheet description merchant in
          let transaction_id := batch_row_id transaction i j in
          let row := mkRow formatted_date description amount category account
                       transaction_id pending merchant in
          match prepare_rows sheet i (S j) rest with
          | None => None
          | Some rows => Some (row :: rows)
          end
      end
  end.

(** State of a run of [import_with_batching]. *)
Record run : Type := mkRun {
  worksheet_after : list SheetRow;
  total_imported : nat;
  trace : list (event SheetRow);
  ended : ending
}.

(** [if i < len(batches) - 1: time.sleep(delay)], inside the [try]:
    [time.sleep] raises [ValueError] for a negative delay, which the
    [except] of the group reports like a failed write. *)
Definition pause_after (delay : Q) (total i : nat) : list (event SheetRow) :=
  if (i <? total - 1)%nat
  then if Qle_bool 0 delay then [ESleep i delay] else [EPrintError i]
  else [].

(** The [for i, batch in enumerate(batches)] loop.  [append_ok i] tells
    whether [append_rows] returns for group [i]; a failure is caught by the
    [try] around the write, printed, and the loop goes on. *)
Fixpoint batch_loop (sheet : option (list (list string)))
  (append_ok : nat -> bool) (delay : Q) (total : nat) (i : nat)
  (batches : list (list (gmap string string)))
  (ws : list SheetRow) (imported : nat) : run :=
  match batches with
  | [] => mkRun ws imported [] Returned
  | batch :: rest =>
      match prepare_rows sheet i 0 batch with
      | None => mkRun ws imported [] Raised
      | Some rows_to_add =>
          match rows_to_add with
          | [] =>
              let pause := pause_after delay total i in
              let r := batch_loop sheet append_ok delay total (S i) rest ws imported in
              mkRun (worksheet_after r) (total_imported r) (pause ++ trace r) (ended r)
          | _ :: _ =>
              if append_ok i then
                let pause := pause_after delay total i in
                let r := batch_loop sheet append_ok delay total (S i) rest
                           (ws ++ rows_to_add) (imported + length rows_to_add) in
                mkRun (worksheet_after r) (total_imported r)
                      (EWrite i rows_to_add :: pause ++ trace r) (ended r)
              else
                let r := batch_loop sheet append_ok delay total (S i) rest ws imported in
                mkRun (worksheet_after r) (total_imported r)
                      (EWriteFailed i :: EPrintError i :: trace r) (ended r)
          end
      end
  end.

(** The deduplication filter:
    [[t for t in transactions if t.get('TransactionID', '') not in existing]]. *)
Definition new_transactions (existing_transaction_ids : list string)
  (transactions : list (gmap string string)) : list (gmap string string) :=
  List.filter (fun t => negb (py_in (get t "TransactionID" "") existing_transaction_ids))
         transactions.

(** [import_with_batching] from the point where the CSV file has been read
    into [transactions]; [ws] is the Transactions worksheet,
    [col_values_ok] tells whether its id column can be read. *)
Definition import_with_batching (sheet : option (list (list string)))
  (col_values_ok : bool) (append_ok : nat -> bool) (batch_size : nat) (delay : Q)
  (ws : list SheetRow) (transactions : list (gmap string string)) : run :=
  let existing_transaction_ids := existing_ids col_values_ok ws in
  let new := new_transactions existing_transaction_ids transactions in
  match new with
  | [] => mkRun ws 0 [] Returned
  | _ :: _ =>
      match batch_size with
      | O => mkRun ws 0 [] Raised          (* range() arg 3 must not be zero *)
      | S _ =>
          let batches := batches_of batch_size new in
          batch_loop sheet append_ok delay (length batches) 0 batches ws 0
      end
  end.

End Batching.

End Importer.

(** ** The pandas operations the aggregation uses *)

Module Pandas.

(** Sum of a column, [Series.sum()]. *)
Definition Qsum (l : list Q) : Q := fold_right Qplus 0%Q l.

(** Group keys of [groupby] / [pivot_table]: distinct and ascending. *)
Fixpoint insert_key (k : string) (keys : list string) : list string :=
  match keys with
  | [] => [k]
  | x :: rest =>
      match String_as_OT.compare k x with
      | Lt => k :: keys
      | Eq => keys
      | Gt => x :: insert_key k rest
      end
  end.

Definition sorted_unique (keys : list string) : list string :=
  fold_right insert_key [] keys.

(** Keys of the rows that have one ([NaN] keys are dropped by [groupby]). *)
Definition present_keys {R : Type} (key : R -> option string) (df : list R) : list string :=
  omap key df.

Definition has_key {R : Type} (key : R -> option string) (k : string) (r : R) : bool :=
  match key r with
  | Some k' => String.eqb k k'
  | None => false
  end.

(** [df.groupby(key)[val].sum()]. *)
Definition groupby_sum {R : Type} (key : R -> option string) (val : R -> Q)
  (df : list R) : list (string * Q) :=
  map (fun k => (k, Qsum (map val (List.filter (has_key key k) df))))
      (sorted_unique (present_keys key df)).

(** Sums of doubles.  The Amount column holds binary64 numbers and pandas
    adds them with rounding: [F] stands for the doubles, [add] for the
    sum of two of them, [sum] for what [sum()] makes of the doubles of one
    group, taken in the order of the rows.  Nothing is assumed of them. *)
Section Doubles.

Context {F : Type}.
Variable add : F -> F -> F.
Variable sum : list F -> F.

(** [df.groupby(key)[val].sum()] on a column of doubles. *)
Definition groupby_sum_doubles {R : Type} (key : R -> option string) (val : R -> F)
  (df : list R) : list (string * F) :=
  map (fun k => (k, sum (map val (List.filter (has_key key k) df))))
      (sorted_unique (present_keys key df)).

(** [Series.cumsum()]: the first entry is the first value, every other
    entry the entry before it plus its value. *)
Fixpoint cumsum_from (acc : F) (s : list (string * F)) : list (string * F) :=
  match s with
  | [] => []
  | (k, v) :: rest => (k, add acc v) :: cumsum_from (add acc v) rest
  end.

Definition cumsum (s : list (string * F)) : list (string * F) :=
  match s with
  | [] => []
  | (k, v) :: rest => (k, v) :: cumsum_from v rest
  end.

End Doubles.

(** [df.pivot_table(index=..., columns=..., values=..., aggfunc='sum')]:
    rows with a missing key are dropped, the index and the columns are the
    keys of the remaining rows, a combination without rows is [NaN]
    ([None]). *)
Definition both_keys {R : Type} (index columns : R -> option string) (r : R) : bool :=
  match index r, columns r with
  | Some _, Some _ => true
  | _, _ => false
  end.

Definition group_sum {R : Type} (index columns : R -> option string) (val : R -> Q)
  (df : list R) (i c : string) : option Q :=
  match List.filter (fun r => has_key index i r && has_key columns c r) df with
  | [] => None
  | rows => Some (Qsum (map val rows))
  end.

Definition pivot_table_sum {R : Type} (index columns : R -> option string)
  (val : R -> Q) (df : list R) : list (string * list (string * option Q)) :=
  let kept := List.filter (both_keys index columns) df in
  let idx := sorted_unique (present_keys index kept) in
  let cols := sorted_unique (present_keys columns kept) in
  map (fun i => (i, map (fun c => (c, group_sum index columns val kept i c)) cols)) idx.

(** [fill_value=v] of [pivot_table], and [DataFrame.fillna(v)]. *)
Definition fillna (v : Q) (m : list (string * list (string * option Q)))
  : list (string * list (string * Q)) :=
  map (fun row => (fst row, map (fun cell => (fst cell, default v (snd cell))) (snd row))) m.

(** Label lookup in a series and in a frame. *)
Fixpoint loc {V : Type} (k : string) (s : list (string * V)) : option V :=
  match s with
  | [] => None
  | (k', v) :: rest => if String.eqb k k' then Some v else loc k rest
  end.

Definition cell (i c : string) (m : list (string * list (string * Q))) : option Q :=
  match loc i m with
  | Some row => loc c row
  | None => None
  end.

End Pandas.

(** ** The data frame of the aggregation *)

(** A calendar date, the value of [pd.to_datetime] on a cell. *)
Record date : Type := mkDate { year : nat; month : nat; day : nat }.

Definition digit (n : nat) : ascii := ascii_of_nat (48 + n mod 10).

(** [strftime('%Y-%m')]: four digits of the year, two of the month. *)
Definition strftime_ym (d : date) : string :=
  String (digit (year d / 1000))
    (String (digit (year d / 100))
      (String (digit (year d / 10))
        (String (digit (year d))
          (String "-"
            (String (digit (month d / 10))
              (String (digit (month d)) EmptyString)))))).

(** One row of [df] after the type conversions; [f_date = None] is [NaT]
    (an empty date cell). *)
Record FrameRow : Type := mkFrameRow {
  f_date : option date;
  f_description : string;
  f_amount : Q;
  f_category : string;
  f_account : string
}.

(** [df['Month'] = df['Date'].dt.strftime('%Y-%m')]. *)
Definition Month (r : FrameRow) : option string := option_map strftime_ym (f_date r).

Definition Category (r : FrameRow) : option string := Some (f_category r).

(** [monthly_by_category] of [FinancialTracker.update_dashboard]. *)
Definition monthly_by_category (df : list FrameRow) : list (string * list (string * Q)) :=
  Pandas.fillna 0%Q (Pandas.pivot_table_sum Month Category f_amount df).

(** ** investment_visualizer.py *)

Module Visualizer.

Definition Qltb (a b : Q) : bool := negb (Qle_bool b a).

(** [any(word in desc for word in words)]. *)
Definition any_in (words : list string) (desc : string) : bool :=
  existsb (fun word => PyStr.contains word desc) words.

(** [identify_transaction_type(row)]. *)
Definition identify_transaction_type (Description : string) (Amount : Q) : string :=
  let desc := PyStr.lower Description in
  let amount := Amount in
  if PyStr.contains "initial fund capital" desc then "Initial Capital"
  else if Qltb amount 0
          && any_in ["purchase"; "accumulate"; "long position"; "acquisition"; "investment in"] desc
  then "Buy"
  else if Qltb 0 amount
          && any_in ["sell"; "liquidate"; "close position"; "divestment"; "profit-taking"] desc
  then "Sell"
  else if PyStr.contains "dividend" desc then "Dividend"
  else if Qltb amount 0
          && any_in ["fee"; "expense"; "commission"; "research"; "audit"] desc
  then "Fee"
  else "Other".

Definition TransactionType (r : FrameRow) : option string :=
  Some (identify_transaction_type (f_description r) (f_amount r)).

(** [monthly_activity] before the sign adjustment. *)
Definition monthly_activity (df : list FrameRow) : list (string * list (string * Q)) :=
  Pandas.fillna 0%Q (Pandas.pivot_table_sum Month TransactionType f_amount df).

(** [monthly_balance] and [cumulative_balance]; [df_sorted] is
    [df.sort_values('Date')].  [f_amount] is the decimal of the Amount cell
    and [to_numeric] what [pd.to_numeric] makes of it, a double. *)
Section Balance.

Context {F : Type}.
Variable to_numeric : Q -> F.
Variable add : F -> F -> F.
Variable sum : list F -> F.

Definition Amount (r : FrameRow) : F := to_numeric (f_amount r).

Definition monthly_balance (df_sorted : list FrameRow) : list (string * F) :=
  Pandas.groupby_sum_doubles sum Month Amount df_sorted.

Definition cumulative_balance (df_sorted : list FrameRow) : list (string * F) :=
  Pandas.cumsum add (monthly_balance df_sorted).

End Balance.

End Visualizer.

(** ** A concrete [float] for worked examples *)

(** Python's [float] on plain decimal literals: optional surrounding
    whitespace, an optional sign, digits with an optional fractional part.
    Python also accepts exponents, [inf], [nan] and [_] between digits;
    this parser answers [None] there, and no example below uses them. *)
Module FloatDecimal.

Definition digit_val (c : ascii) : option Z :=
  let n := nat_of_ascii c in
  if (48 <=? n)%nat && (n <=? 57)%nat then Some (Z.of_nat (n - 48)) else None.

(** Leading digits of [s]: their value after [acc], how many, the rest. *)
Fixpoint read_digits (s : string) (acc : Z) (count : nat) : Z * nat * string :=
  match s with
  | EmptyString => (acc, count, s)
  | String c r =>
      match digit_val c with
      | Some d => read_digits r (10 * acc + d)%Z (S count)
      | None => (acc, count, s)
      end
  end.

Fixpoint pow10 (n : nat) : positive :=
  match n with
  | O => 1%positive
  | S m => (10 * pow10 m)%positive
  end.

Definition float (s : string) : option Q :=
  let s := PyStr.strip s in
  let '(negative, s1) :=
    match s with
    | String "-" r => (true, r)
    | String "+" r => (false, r)
    | _ => (false, s)
    end in
  let '(ip, ni, s2) := read_digits s1 0%Z 0 in
  let '(num, nf, s3) :=
    match s2 with
    | String "." r => read_digits r ip 0
    | _ => (ip, 0, s2)
    end in
  match s3 with
  | EmptyString =>
      if (0 <? ni + nf)%nat
      then Some (Qmake (if negative then - num else num)%Z (pow10 nf))
      else None
  | _ => None
  end.

End FloatDecimal.

(** ** Vocabulary of the specification *)

(** [needle] occurs in [hay] as a contiguous substring. *)
Definition occurs_in (needle hay : string) : Prop :=
  exists pre post, hay = (pre ++ needle ++ post)%string.

(** A keyword occurs in the description or in the merchant name. *)
Definition keyword_occurs (description merchant keyword : string) : Prop :=
  occurs_in keyword description \/ occurs_in keyword merchant.

(** The description mentions income, deposit or payroll. *)
Definition income_words (description : string) : Prop :=
  occurs_in "income" description \/ occurs_in "deposit" description
  \/ occurs_in "payroll" description.

(** A row of the Categories sheet as a rule entry: its category, and
    whether one of its keywords matches.  The keywords of the row are the
    non-empty items of its keyword cell (the cell of a category without
    keywords is empty, and splitting it gives one empty item). *)
Definition sheet_entry_category (row : list string) : string := hd "" row.

Definition sheet_entry_matches (description merchant : string) (row : list string) : Prop :=
  exists category cell rest keyword,
    row = category :: cell :: rest
    /\ In keyword (Tracker.keywords_of_cell cell)
    /\ keyword <> ""
    /\ keyword_occurs description merchant keyword.

(** An entry of the built-in table. *)
Definition dict_entry_matches (description merchant : string)
  (entry : string * list string) : Prop :=
  exists keyword, In keyword (snd entry)
    /\ keyword_occurs description merchant (PyStr.lower keyword).

(** The classification rule of the specification, for a table of entries
    of type [E]: the first matching entry decides; without one the income
    words decide between Income and Other. *)
Definition first_match_wins {E : Type} (matches : string -> string -> E -> Prop)
  (category : E -> string) (table : list E)
  (description merchant : string) (result : string) : Prop :=
  let d := PyStr.lower description in
  let m := PyStr.lower merchant in
  (forall pre entry post,
      table = pre ++ entry :: post ->
      Forall (fun e => ~ matches d m e) pre ->
      matches d m entry ->
      result = category entry)
  /\ (Forall (fun e => ~ matches d m e) table ->
      (income_words d -> result = "Income")
      /\ (~ income_words d -> result = "Other")).

(** The closed enumeration of categories. *)
Definition category_enum : list string :=
  ["Buy"; "Sell"; "Dividend"; "Fee"; "Capital"; "Income"; "Other"].

(** The labels of the sign-aware classifier. *)
Definition transaction_type_labels : list string :=
  ["Initial Capital"; "Buy"; "Sell"; "Dividend"; "Fee"; "Other"].

(** The pauses of a run: after which group, and for how long. *)
Definition pauses {W : Type} (trace : list (event W)) : list (nat * Q) :=
  omap (fun e => match e with ESleep i d => Some (i, d) | _ => None end) trace.

(** The write calls of a run: for which group, and whether they returned. *)
Definition attempts {W : Type} (trace : list (event W)) : list (nat * bool) :=
  omap (fun e => match e with
                 | EWrite i _ => Some (i, true)
                 | EWriteFailed i => Some (i, false)
                 | _ => None
                 end) trace.

(** The payloads that reached the sink, in order. *)
Definition written {W : Type} (trace : list (event W)) : list (list W) :=
  omap (fun e => match e with EWrite _ g => Some g | _ => None end) trace.

(** The failures that were reported. *)
Definition reported {W : Type} (trace : list (event W)) : list nat :=
  omap (fun e => match e with EPrintError i => Some i | _ => None end) trace.

(** Every amount of the batch can be parsed, directly or after removing
    ["$"] and [","]. *)
Definition amounts_parse (float : string -> option Q)
  (transactions : list (gmap string string)) : Prop :=
  Forall (fun t => is_Some (Tracker.parse_amount float t)) transactions.

(** Groups that can be prepared: not empty, all amounts parse. *)
Definition preparable (float : string -> option Q)
  (batches : list (list (gmap string string))) : Prop :=
  Forall (fun b => b <> [] /\ amounts_parse float b) batches.



(** The id under which the deduplication filter looks a record up. *)
Definition lookup_id (t : gmap string string) : string := get t "TransactionID" "".

(** The record carries a TransactionID that is not empty. *)
Definition has_real_id (t : gmap string string) : Prop := lookup_id t <> "".

(** The record has a TransactionID field, empty or not (the CSV file has
    the column). *)
Definition has_id_field (t : gmap string string) : Prop :=
  is_Some (t !! "TransactionID").

(** ** Sample data for worked examples *)

Module Sample.

(** A complete CSV record with id [tx_k]. *)
Definition record (k : nat) : gmap string string :=
  <["Date" := "2025-01-15"]>
  (<["Description" := ("Purchase of Apple (AAPL), lot " ++ PyStr.str_nat k)%string]>
  (<["Amount" := "-1200.00"]>
  (<["Account" := "Brokerage"]>
  (<["Merchant" := "Apple"]>
  (<["TransactionID" := ("tx_" ++ PyStr.str_nat k)%string]>
  (<["Pending" := "No"]> ∅)))))).

(** The same record from a file without a TransactionID column. *)
Definition record_without_id (k : nat) : gmap string string :=
  delete "TransactionID" (record k).

(** The same record with an empty TransactionID field. *)
Definition record_with_empty_id (k : nat) : gmap string string :=
  <["TransactionID" := ""]> (record k).


(** Dates are taken as they are. *)
Definition strptime (s : string) : option string := Some s.

(** A clock that does not advance during the run. *)
Definition clock (t : N) : nat -> N := fun _ => t.
Definition clock2 (t : N) : nat -> nat -> N := fun _ _ => t.

(** A sink whose write call fails for group [f] only. *)
Definition fails_at (f : nat) : nat -> bool := fun k => negb (k =? f)%nat.

Definition always_ok : nat -> bool := fun _ => true.

End Sample.

(** The characters ["0"] to ["9"]. *)
Definition is_digit (c : ascii) : bool :=
  (48 <=? nat_of_ascii c)%nat && (nat_of_ascii c <=? 57)%nat.

Fixpoint all_digits (s : string) : bool :=
  match s with
  | EmptyString => true
  | String c r => is_digit c && all_digits r
  end.

(** Months as strings: lexicographic order. *)
Definition month_lt (a b : string) : Prop := String_as_OT.lt a b.

Definition month_le (a b : string) : bool :=
  match String_as_OT.compare a b with
  | Gt => false
  | _ => true
  end.

(** Months as calendar months: chronological order. *)
Definition chrono_lt (d1 d2 : date) : Prop :=
  (year d1 < year d2)%nat \/ (year d1 = year d2 /\ (month d1 < month d2)%nat).

(** Dates in the range of a pandas [Timestamp]. *)
Definition timestamp_year (d : date) : Prop :=
  (1677 <= year d <= 2262)%nat /\ (1 <= month d <= 12)%nat.

(** The sum of the amounts of all rows whose month is at most [m]. *)
Definition total_upto (df : list FrameRow) (m : string) : Q :=
  Pandas.Qsum (map f_amount
    (List.filter (fun r => match Month r with
                           | Some k => month_le k m
                           | None => false
                           end) df)).


(** Whether the key of a row is one of [ks]. *)
Definition key_among {R : Type} (key : R -> option string) (ks : list string)
  (r : R) : bool :=
  match key r with
  | Some k => py_in k ks
  | None => false
  end.

(** Sample rows of the data frame. *)
Module SampleFrame.

Definition row (y m d : nat) (description : string) (amount : Q) (category : string)
  : FrameRow :=
  mkFrameRow (Some (mkDate y m d)) description amount category "Growth Fund".

Definition january_buy : FrameRow :=
  row 2025 1 15 "Purchase of Apple (AAPL)" (-1200 # 1) "Buy".
Definition january_dividend : FrameRow :=
  row 2025 1 28 "Dividend from Apple (AAPL)" (12 # 1) "Dividend".
Definition february_fee : FrameRow :=
  row 2025 2 3 "Management fee" (-25 # 1) "Fee".
Definition december_capital : FrameRow :=
  row 2024 12 1 "Initial fund capital" (10000 # 1) "Capital".


Definition df : list FrameRow :=
  [february_fee; january_buy; december_capital; january_dividend].

Definition df_sorted : list FrameRow :=
  [december_capital; january_buy; january_dividend; february_fee].

End SampleFrame.

(** ** Binary64 numbers for worked examples *)

(** The doubles of the kernel, with the operations the examples need. *)
Module Double.

(** The number a double stands for; infinities and NaN stand for none. *)
Definition value (x : PrimFloat.float) : option Q :=
  match FloatOps.Prim2SF x with
  | SpecFloat.S754_zero _ => Some 0%Q
  | SpecFloat.S754_finite s m e =>
      let n := if s then Z.neg m else Z.pos m in
      Some (match e with
            | Z0 => inject_Z n
            | Zpos p => inject_Z (n * 2 ^ Zpos p)
            | Zneg p => Qmake n (2 ^ p)
            end)
  | _ => None
  end.

Definition value_or_zero (x : PrimFloat.float) : Q := default 0%Q (value x).

(** The double that holds the integer [z], for [|z| < 2^53]. *)
Definition of_Z (z : Z) : PrimFloat.float :=
  match z with
  | Z0 => PrimFloat.zero
  | Zpos _ => PrimFloat.of_uint63 (Uint63.of_Z z)
  | Zneg p => PrimFloat.opp (PrimFloat.of_uint63 (Uint63.of_Z (Zpos p)))
  end.

(** The double nearest to the decimal [n / d], for [|n|] and [d] below
    [2^53]: the quotient of the doubles that hold [n] and [d], which
    binary64 division rounds correctly. *)
Definition to_numeric (q : Q) : PrimFloat.float :=
  PrimFloat.div (of_Z (Qnum q)) (of_Z (Zpos (Qden q))).

(** The doubles of a group added from left to right.  The groups of the
    examples have at most two rows, and of two doubles every way to sum
    them gives this. *)
Definition sum (l : list PrimFloat.float) : PrimFloat.float :=
  fold_left PrimFloat.add l PrimFloat.zero.

End Double.

(** Amounts that are not binary fractions. *)
Module SampleTenths.

Definition january_tenth : FrameRow :=
  SampleFrame.row 2025 1 10 "Dividend from Apple (AAPL)" (1 # 10) "Dividend".
Definition january_fifth : FrameRow :=
  SampleFrame.row 2025 1 20 "Dividend from Microsoft (MSFT)" (2 # 10) "Dividend".
Definition february_fee : FrameRow :=
  SampleFrame.row 2025 2 5 "Management fee" (- 3 # 10) "Fee".

Definition df : list FrameRow := [january_tenth; january_fifth; february_fee].

End SampleTenths.

(** * Further parts of the program *)

From Stdlib Require Import Qabs.

(** ** Stock symbols *)

(** [re.search(r'\(([A-Z\.]+)\)', description)], group 1.  The class
    [[A-Z\.]] does not contain [")"], so the greedy run never has to give
    characters back: at a given start the pattern matches exactly when an
    opening parenthesis is followed by a non-empty longest run of class
    characters and a closing parenthesis. *)
Module StockSymbol.

Definition is_symbol_char (c : ascii) : bool :=
  let n := nat_of_ascii c in
  ((65 <=? n)%nat && (n <=? 90)%nat) || (n =? 46)%nat.

(** The longest run of class characters at the head of [s], and the rest. *)
Fixpoint span_symbol (s : string) : string * string :=
  match s with
  | EmptyString => (EmptyString, EmptyString)
  | String c r =>
      if is_symbol_char c
      then let '(run, rest) := span_symbol r in (String c run, rest)
      else (EmptyString, s)
  end.

(** The pattern matched at the start of [s]. *)
Definition match_here (s : string) : option string :=
  match s with
  | String "(" r =>
      match span_symbol r with
      | (String c run, String ")" _) => Some (String c run)
      | _ => None
      end
  | _ => None
  end.

(** [extract_stock_symbol]: the leftmost match, [None] without one. *)
Fixpoint extract_stock_symbol (description : string) : option string :=
  match match_here description with
  | Some symbol => Some symbol
  | None =>
      match description with
      | EmptyString => None
      | String _ r => extract_stock_symbol r
      end
  end.

Fixpoint all_symbol_chars (s : string) : bool :=
  match s with
  | EmptyString => true
  | String c r => is_symbol_char c && all_symbol_chars r
  end.

(** [s] is a parenthesized symbol followed by anything. *)
Definition symbol_at_start (symbol s : string) : Prop :=
  symbol <> "" /\ all_symbol_chars symbol = true
  /\ exists post, s = (String "(" symbol ++ String ")" post)%string.

End StockSymbol.

(** A keyword that survives the way through the Categories worksheet: no
    comma inside, no white space around it, not empty. *)
Definition comma_free (k : string) : Prop := PyStr.contains "," k = false.

Definition clean_keyword (k : string) : Prop :=
  comma_free k /\ PyStr.strip k = k /\ k <> "".

(** The row [create_financial_spreadsheet] writes for an entry. *)
Definition categories_row (entry : string * list string) : list string :=
  [fst entry; PyStr.join ", " (snd entry)].

(** ** The tables and the cell updates of [update_dashboard] *)

(** One entry of a grid or of a cell. *)
Inductive item : Type :=
| Text (s : string)
| Number (q : Q)
| Money (q : Q).        (* the text [f"${q:,.2f}"] *)

(** The value of an update: one cell, or a grid of rows that starts at the
    cell. *)
Inductive cell_value : Type :=
| Scalar (i : item)
| Grid (rows : list (list item)).

(** The cell [f'{column}{row}']. *)
Record cell_ref : Type := Cell { cell_column : string; cell_row : nat }.

Definition cell_name (c : cell_ref) : string :=
  (cell_column c ++ PyStr.str_nat (cell_row c))%string.

Module Dashboard.

(** [df['Stock'] = df['Description'].apply(extract_stock_symbol)]. *)
Definition Stock (r : FrameRow) : option string :=
  StockSymbol.extract_stock_symbol (f_description r).

Definition Account (r : FrameRow) : option string := Some (f_account r).

(** [df[df['Category'] == c]['Amount'].sum()]. *)
Definition category_total (c : string) (df : list FrameRow) : Q :=
  Pandas.Qsum (map f_amount (List.filter (fun r => String.eqb (f_category r) c) df)).

Definition total_buy := category_total "Buy".
Definition total_sell := category_total "Sell".
Definition total_dividend := category_total "Dividend".
Definition total_fee := category_total "Fee".
Definition total_capital := category_total "Capital".

Definition portfolio_value (df : list FrameRow) : Q :=
  (total_capital df + total_buy df + total_sell df + total_dividend df + total_fee df)%Q.

(** The columns of [monthly_by_category]. *)
Definition monthly_columns (df : list FrameRow) : list string :=
  Pandas.sorted_unique
    (Pandas.present_keys Category (List.filter (Pandas.both_keys Month Category) df)).

Section Tables.

(** [Series.sort_values()] and [Series.sort_values(ascending=False)]: some
    rearrangement of the series in the order of its values. *)
Variable sort_values : list (string * Q) -> list (string * Q).
Variable sort_values_desc : list (string * Q) -> list (string * Q).

Definition fund_allocation (df : list FrameRow) : list (string * Q) :=
  sort_values (Pandas.groupby_sum Account f_amount df).

Definition stock_holdings (df : list FrameRow) : list (string * Q) :=
  let stock_transactions :=
    List.filter (fun r => match Stock r with Some _ => true | None => false end) df in
  sort_values (Pandas.groupby_sum Stock f_amount stock_transactions).

(** [[[stock, abs(amount)] for stock, amount in ... if amount < 0]]. *)
Definition stock_rows (df : list FrameRow) : list (string * Q) :=
  map (fun e => (fst e, Qabs (snd e)))
      (List.filter (fun e => Visualizer.Qltb (snd e) 0) (stock_holdings df)).

Definition dividend_by_stock (df : list FrameRow) : list (string * Q) :=
  let dividend_data :=
    List.filter (fun r => String.eqb (f_category r) "Dividend") df in
  sort_values_desc (Pandas.groupby_sum Stock f_amount dividend_data).

(** [enumerate(series.items(), start=first)] turned into the two updates
    per entry, name in column A and amount in column B. *)
Fixpoint name_amount_updates (first : nat) (s : list (string * Q))
  : list (cell_ref * cell_value) :=
  match s with
  | [] => []
  | (name, amount) :: rest =>
      (Cell "A" first, Scalar (Text name))
      :: (Cell "B" first, Scalar (Money amount))
      :: name_amount_updates (S first) rest
  end.

Definition two_column_grid (s : list (string * Q)) : list (list item) :=
  map (fun e => [Text (fst e); Number (snd e)]) s.

(** [if rows: all_updates.append((cell, rows))]. *)
Definition grid_update (c : cell_ref) (rows : list (list item))
  : list (cell_ref * cell_value) :=
  match rows with
  | [] => []
  | _ => [(c, Grid rows)]
  end.

(** [all_updates], from the title to the dividend table. *)
Definition all_updates_cells (df : list FrameRow) : list (cell_ref * cell_value) :=
  let funds := fund_allocation df in
  let stocks := stock_holdings df in
  let row_offset := (length funds + 14)%nat in
  let monthly := monthly_by_category df in
  let headers := Text "Month" :: map Text (monthly_columns df) in
  let monthly_rows :=
    map (fun row => Text (fst row) :: map (fun c => Number (snd c)) (snd row)) monthly in
  let stock_offset := (length monthly_rows + 8)%nat in
  let stock_grid := two_column_grid (stock_rows df) in
  let fund_offset := (stock_offset + length stock_grid + 4)%nat in
  let fund_rows := two_column_grid funds in
  let div_offset := (fund_offset + length fund_rows + 4)%nat in
  [ (Cell "A" 1, Scalar (Text "Investment Dashboard"));
    (Cell "A" 3, Scalar (Text "Portfolio Summary"));
    (Cell "A" 4, Scalar (Text "Total Capital Deployed:"));
    (Cell "B" 4, Scalar (Money (total_capital df)));
    (Cell "A" 5, Scalar (Text "Total Stock Purchases:"));
    (Cell "B" 5, Scalar (Money (Qabs (total_buy df))));
    (Cell "A" 6, Scalar (Text "Total Stock Sales:"));
    (Cell "B" 6, Scalar (Money (total_sell df)));
    (Cell "A" 7, Scalar (Text "Total Dividend Income:"));
    (Cell "B" 7, Scalar (Money (total_dividend df)));
    (Cell "A" 8, Scalar (Text "Total Fees:"));
    (Cell "B" 8, Scalar (Money (Qabs (total_fee df))));
    (Cell "A" 9, Scalar (Text "Current Portfolio Value:"));
    (Cell "B" 9, Scalar (Money (portfolio_value df)));
    (Cell "A" 11, Scalar (Text "Fund Allocation")) ]
  ++ name_amount_updates 12 funds
  ++ [ (Cell "A" row_offset, Scalar (Text "Stock Holdings")) ]
  ++ name_amount_updates (row_offset + 1) stocks
  ++ [ (Cell "D" 3, Scalar (Text "Chart Data"));
       (Cell "D" 4, Scalar (Text "Monthly Activity by Category"));
       (Cell "D" 5, Grid [headers]) ]
  ++ grid_update (Cell "D" 6) monthly_rows
  ++ [ (Cell "D" stock_offset, Scalar (Text "Stock Allocation"));
       (Cell "D" (stock_offset + 1), Grid [[Text "Stock"; Text "Amount"]]) ]
  ++ grid_update (Cell "D" (stock_offset + 2)) stock_grid
  ++ [ (Cell "D" fund_offset, Scalar (Text "Fund Performance"));
       (Cell "D" (fund_offset + 1), Grid [[Text "Fund"; Text "Value"]]) ]
  ++ grid_update (Cell "D" (fund_offset + 2)) fund_rows
  ++ (if existsb (fun r => String.eqb (f_category r) "Dividend") df
      then
        [ (Cell "D" div_offset, Scalar (Text "Dividend Income by Stock"));
          (Cell "D" (div_offset + 1), Grid [[Text "Stock"; Text "Dividend"]]) ]
        ++ grid_update (Cell "D" (div_offset + 2))
             (two_column_grid (dividend_by_stock df))
      else []).

Definition all_updates (df : list FrameRow) : list (string * cell_value) :=
  map (fun u => (cell_name (fst u), snd u)) (all_updates_cells df).

(** [update_dashboard(batch_updates=True)] on the frame of the worksheet:
    nothing is written when there is no transaction. *)
Definition update_dashboard (batch_ok : nat -> bool) (delay_seconds : Q)
  (df : list FrameRow) : list (event (string * cell_value)) * ending :=
  match df with
  | [] => ([], Returned)
  | _ => Tracker.update_dashboard_writes batch_ok delay_seconds (all_updates df)
  end.

End Tables.

(** The rows an update covers in its column. *)
Definition height (v : cell_value) : nat :=
  match v with
  | Scalar _ => 1
  | Grid rows => length rows
  end.

End Dashboard.


(** A [sort_values] for worked examples: insertion by value, ascending. *)
Module SampleSort.

Fixpoint insert (e : string * Q) (s : list (string * Q)) : list (string * Q) :=
  match s with
  | [] => [e]
  | x :: rest => if Qle_bool (snd e) (snd x) then e :: s else x :: insert e rest
  end.

Definition sort_values (s : list (string * Q)) : list (string * Q) :=
  fold_right insert [] s.

Definition sort_values_desc (s : list (string * Q)) : list (string * Q) :=
  rev (sort_values s).

End SampleSort.

(** ** Layout of the dashboard *)

(** In every column the updates come top to bottom: a later update of the
    list starts below the last row of every earlier update of its
    column. *)
Definition stacked (updates : list (cell_ref * cell_value)) : Prop :=
  forall i j u1 u2,
    (i < j)%nat ->
    updates !! i = Some u1 -> updates !! j = Some u2 ->
    cell_column (fst u1) = cell_column (fst u2) ->
    (cell_row (fst u1) + Dashboard.height (snd u1) <= cell_row (fst u2))%nat.

(** The first free row of column [col] after the updates, starting from
    [lo]; [None] when an update of the column starts above the rows that
    are taken. *)
Fixpoint next_free (col : string) (lo : nat) (updates : list (cell_ref * cell_value))
  : option nat :=
  match updates with
  | [] => Some lo
  | (c, v) :: rest =>
      if String.eqb (cell_column c) col
      then if (lo <=? cell_row c)%nat
           then next_free col (cell_row c + Dashboard.height v) rest
           else None
      else next_free col lo rest
  end.

(** The updates of column [col] fit between row [lo] and row [hi]. *)
Definition fits (col : string) (lo hi : nat) (updates : list (cell_ref * cell_value))
  : Prop :=
  exists h, next_free col lo updates = Some h /\ (h <= hi)%nat.

(** ** The worksheets of [create_financial_spreadsheet] *)

(** A spreadsheet: its worksheets by title, each the list of its rows.
    The model starts where [self.sheet] has been opened or created. *)
Module Spreadsheet.

Definition transactions_headers : list string :=
  ["Date"; "Description"; "Amount"; "Category";
   "Account"; "Transaction ID"; "Pending"; "Merchant Name"].

(** [worksheet.append_row(row)]. *)
Definition append_row (rows : list (list string)) (row : list string)
  : list (list string) := rows ++ [row].

(** The Categories worksheet after [add_worksheet] and the [append_row]
    calls: the header, then one row per entry of [self.categories]. *)
Definition new_categories_worksheet : list (list string) :=
  fold_left (fun rows entry =>
               append_row rows [fst entry; PyStr.join ", " (snd entry)])
            Tracker.categories
            (append_row [] ["Category"; "Keywords"]).

(** [try: self.sheet.worksheet(title) except WorksheetNotFound: ...]. *)
Definition ensure_worksheet (title : string) (fresh : list (list string))
  (sheet : gmap string (list (list string))) : gmap string (list (list string)) :=
  match sheet !! title with
  | Some _ => sheet
  | None => <[title := fresh]> sheet
  end.

(** The three [try] blocks, in the order of the source. *)
Definition create_worksheets (sheet : gmap string (list (list string)))
  : gmap string (list (list string)) :=
  ensure_worksheet "Dashboard" []
    (ensure_worksheet "Categories" new_categories_worksheet
       (ensure_worksheet "Transactions" (append_row [] transactions_headers) sheet)).

End Spreadsheet.

(** ** Charts of [create_investment_visualizations] *)

Module Charts.

(** The columns of [monthly_activity]. *)
Definition activity_columns (df : list FrameRow) : list string :=
  Pandas.sorted_unique
    (Pandas.present_keys Visualizer.TransactionType
       (List.filter (Pandas.both_keys Month Visualizer.TransactionType) df)).

(** [frame[c] = frame[c].abs() * -1]. *)
Definition negate_abs (c : string) (m : list (string * list (string * Q)))
  : list (string * list (string * Q)) :=
  map (fun row =>
         (fst row,
          map (fun cell => if String.eqb (fst cell) c
                           then (fst cell, (Qabs (snd cell) * -1)%Q)
                           else cell)
              (snd row)))
      m.

(** [if c in frame.columns: frame[c] = frame[c].abs() * -1]. *)
Definition adjust_sign (c : string) (columns : list string)
  (m : list (string * list (string * Q))) : list (string * list (string * Q)) :=
  if py_in c columns then negate_abs c m else m.

(** [monthly_activity] as it is plotted. *)
Definition adjusted_activity (df : list FrameRow) : list (string * list (string * Q)) :=
  adjust_sign "Fee" (activity_columns df)
    (adjust_sign "Buy" (activity_columns df) (Visualizer.monthly_activity df)).

(** [df[df['TransactionType'] == t]]. *)
Definition of_type (t : string) (df : list FrameRow) : list FrameRow :=
  List.filter
    (fun r => String.eqb
                (Visualizer.identify_transaction_type (f_description r) (f_amount r)) t)
    df.

(** [Series.abs()]. *)
Definition abs_series (s : list (string * Q)) : list (string * Q) :=
  map (fun e => (fst e, Qabs (snd e))) s.

(** [series[label] = v]: the value of the label is replaced, a label the
    series does not have is added at the end. *)
Fixpoint set_label (label : string) (v : Q) (s : list (string * Q))
  : list (string * Q) :=
  match s with
  | [] => [(label, v)]
  | (k, x) :: rest =>
      if String.eqb label k then (k, v) :: rest else (k, x) :: set_label label v rest
  end.

Section Pies.

(** [Series.sum()] over the amounts of a group or of a part of a series:
    the doubles are added one after the other and every addition rounds.
    Nothing is assumed of it. *)
Variable sum : list Q -> Q.
Variable nlargest : nat -> list (string * Q) -> list (string * Q).
Variable sort_values_desc : list (string * Q) -> list (string * Q).

(** The fund pie of the portfolio overview. *)
Definition fund_allocation (df : list FrameRow) : list (string * Q) :=
  abs_series
    (Pandas.groupby_sum_doubles sum Dashboard.Account f_amount (of_type "Buy" df)).

(** The stock pie of the portfolio overview. *)
Definition stock_allocation (df : list FrameRow) : list (string * Q) :=
  abs_series
    (Pandas.groupby_sum_doubles sum Dashboard.Stock f_amount (of_type "Buy" df)).

Definition top_stocks (df : list FrameRow) : list (string * Q) :=
  let top_stocks := nlargest 10 (stock_allocation df) in
  if (10 <? length (stock_allocation df))%nat
  then set_label "Other" (sum (map snd (skipn 10 (stock_allocation df)))) top_stocks
  else top_stocks.

(** The pie of the dividend sources; [None] when no row is a Dividend and
    the chart is not drawn. *)
Definition dividend_by_stock (df : list FrameRow) : list (string * Q) :=
  sort_values_desc
    (Pandas.groupby_sum_doubles sum Dashboard.Stock f_amount (of_type "Dividend" df)).

Definition top_dividend_stocks (df : list FrameRow) : option (list (string * Q)) :=
  if py_in "Dividend"
       (map (fun r => Visualizer.identify_transaction_type (f_description r) (f_amount r))
            df)
  then
    let top_dividend_stocks := firstn 8 (dividend_by_stock df) in
    Some (if (8 <? length (dividend_by_stock df))%nat
          then set_label "Other" (sum (map snd (skipn 8 (dividend_by_stock df))))
                 top_dividend_stocks
          else top_dividend_stocks)
  else None.

End Pies.

End Charts.

(** The rows of type Buy with the key [k]: the rows one group of
    [buy_data.groupby(key)] is formed of. *)
Definition purchases_of (key : FrameRow -> option string) (k : string)
  (df : list FrameRow) : list FrameRow :=
  List.filter
    (fun r => String.eqb
                (Visualizer.identify_transaction_type (f_description r) (f_amount r))
                "Buy"
              && Pandas.has_key key k r)
    df.

(** Two series, and two frames, with the same labels and equal numbers. *)
Definition same_series (a b : list (string * Q)) : Prop :=
  Forall2 (fun x y => fst x = fst y /\ (snd x == snd y)%Q) a b.

Definition same_frame (m n : list (string * list (string * Q))) : Prop :=
  Forall2 (fun r s => fst r = fst s /\ same_series (snd r) (snd s)) m n.

(** Every number of column [c] is at most zero. *)
Definition column_nonpositive (c : string) (m : list (string * list (string * Q)))
  : Prop :=
  forall row cell, In row m -> In cell (snd row) -> fst cell = c -> (snd cell <= 0)%Q.

(** What [Series.nlargest(n)] guarantees: [n] entries of the series, or all
    of them when it has fewer, none smaller than an entry left out. *)
Definition nlargest_spec (nlargest : nat -> list (string * Q) -> list (string * Q))
  : Prop :=
  forall n s, exists rest,
    Permutation (nlargest n s ++ rest) s
    /\ length (nlargest n s) = Nat.min n (length s)
    /\ forall t r, In t (nlargest n s) -> In r rest -> (snd r <= snd t)%Q.

(** An [nlargest] for worked examples. *)
Definition sample_nlargest (n : nat) (s : list (string * Q)) : list (string * Q) :=
  firstn n (SampleSort.sort_values_desc s).

(** * Properties *)

(** ** Strings *)

Section StringFacts.

Lemma append_cons (c : ascii) (s t : string) :
  (String c s ++ t)%string = String c (s ++ t)%string.
Proof. reflexivity. Qed.

Lemma append_nil (t : string) : (EmptyString ++ t)%string = t.
Proof. reflexivity. Qed.

Lemma prefix_occurs (needle hay : string) :
  String.prefix needle hay = true <-> exists post, hay = (needle ++ post)%string.
Proof.
  revert hay. induction needle as [|c needle IH]; intros hay.
  - split; [intros _; now exists hay | intros _; now destruct hay].
  - destruct hay as [|c' hay]; simpl.
    + split; [discriminate | intros [post H]; rewrite append_cons in H; discriminate].
    + destruct (ascii_dec c c') as [->|Hne].
      * rewrite IH. split; intros [post H]; exists post; rewrite append_cons in *; congruence.
      * split; [discriminate | intros [post H]; rewrite append_cons in H; congruence].
Qed.

Lemma contains_occurs (needle hay : string) :
  PyStr.contains needle hay = true <-> occurs_in needle hay.
Proof.
  unfold occurs_in. induction hay as [|c hay IH].
  - cbn [PyStr.contains]. rewrite orb_false_r, prefix_occurs. split.
    + intros [post H]. now exists EmptyString, post.
    + intros [pre [post H]]. destruct pre; [now exists post | rewrite append_cons in H; discriminate].
  - cbn [PyStr.contains]. rewrite orb_true_iff, prefix_occurs, IH. split.
    + intros [[post H] | [pre [post H]]].
      * now exists EmptyString, post.
      * exists (String c pre), post. rewrite append_cons. now rewrite H.
    + intros [pre [post H]]. destruct pre as [|c' pre].
      * left. now exists post.
      * right. rewrite append_cons in H. inversion H. now exists pre, post.
Qed.

Lemma contains_false (needle hay : string) :
  PyStr.contains needle hay = false <-> ~ occurs_in needle hay.
Proof.
  rewrite <- contains_occurs. destruct (PyStr.contains needle hay); split; congruence.
Qed.

Lemma truthy_nonempty (s : string) : PyStr.truthy s = true <-> s <> "".
Proof. destruct s; simpl; split; congruence. Qed.

End StringFacts.
(** ** The keyword classifier *)

Section Classifier.

Lemma sheet_hit_iff (d m cell : string) :
  existsb (Tracker.sheet_keyword_hit d m) (Tracker.keywords_of_cell cell) = true
  <-> exists keyword, In keyword (Tracker.keywords_of_cell cell)
        /\ keyword <> "" /\ keyword_occurs d m keyword.
Proof.
  rewrite existsb_exists. unfold Tracker.sheet_keyword_hit, keyword_occurs.
  split; intros [k [Hin H]]; exists k; split; trivial.
  - apply andb_true_iff in H as [Ht Hc]. apply orb_true_iff in Hc.
    rewrite truthy_nonempty in Ht. rewrite !contains_occurs in Hc. auto.
  - destruct H as [Hne Hocc]. apply andb_true_iff. split.
    + now apply truthy_nonempty.
    + apply orb_true_iff. now rewrite !contains_occurs.
Qed.

Lemma sheet_entry_matches_dec (d m : string) (row : list string) :
  sheet_entry_matches d m row
  <-> match row with
      | _ :: cell :: _ =>
          existsb (Tracker.sheet_keyword_hit d m) (Tracker.keywords_of_cell cell) = true
      | _ => False
      end.
Proof.
  unfold sheet_entry_matches. destruct row as [|c [|cell rest]].
  - split; [intros (? & ? & ? & ? & H & _); discriminate | tauto].
  - split; [intros (? & ? & ? & ? & H & _); discriminate | tauto].
  - rewrite sheet_hit_iff. split.
    + intros (c' & cell' & rest' & k & Heq & Hin & Hne & Hocc).
      inversion Heq; subst. now exists k.
    + intros (k & Hin & Hne & Hocc). now exists c, cell, rest, k.
Qed.

Lemma scan_sheet_none (table : list (list string)) (d m : string) :
  Forall (fun row => ~ sheet_entry_matches d m row) table ->
  Tracker.scan_sheet table d m = None.
Proof.
  induction 1 as [|row table Hrow _ IH]; [reflexivity|].
  rewrite sheet_entry_matches_dec in Hrow. simpl.
  destruct row as [|c [|cell rest]]; trivial.
  destruct (existsb _ _); [now exfalso | exact IH].
Qed.

Lemma scan_sheet_first (pre post : list (list string)) (row : list string) (d m : string) :
  Forall (fun r => ~ sheet_entry_matches d m r) pre ->
  sheet_entry_matches d m row ->
  Tracker.scan_sheet (pre ++ row :: post) d m = Some (sheet_entry_category row).
Proof.
  intros Hpre Hrow. induction Hpre as [|r pre Hr _ IH].
  - rewrite sheet_entry_matches_dec in Hrow. simpl.
    destruct row as [|c [|cell rest]]; try contradiction.
    now rewrite Hrow.
  - rewrite sheet_entry_matches_dec in Hr. simpl.
    destruct r as [|c [|cell rest]]; trivial.
    destruct (existsb _ _); [now exfalso | exact IH].
Qed.

Lemma dict_hit_iff (d m : string) (entry : string * list string) :
  existsb (Tracker.dict_keyword_hit d m) (snd entry) = true
  <-> dict_entry_matches d m entry.
Proof.
  unfold dict_entry_matches. rewrite existsb_exists.
  unfold Tracker.dict_keyword_hit, keyword_occurs.
  split; intros [k [Hin H]]; exists k; split; trivial.
  - apply orb_true_iff in H. now rewrite !contains_occurs in H.
  - apply orb_true_iff. now rewrite !contains_occurs.
Qed.

Lemma scan_dict_none (table : list (string * list string)) (d m : string) :
  Forall (fun e => ~ dict_entry_matches d m e) table ->
  Tracker.scan_dict table d m = None.
Proof.
  induction 1 as [|[c kws] table He _ IH]; [reflexivity|].
  rewrite <- dict_hit_iff in He. simpl in *.
  destruct (existsb _ _); [now exfalso | exact IH].
Qed.

Lemma scan_dict_first (pre post : list (string * list string))
  (entry : string * list string) (d m : string) :
  Forall (fun e => ~ dict_entry_matches d m e) pre ->
  dict_entry_matches d m entry ->
  Tracker.scan_dict (pre ++ entry :: post) d m = Some (fst entry).
Proof.
  intros Hpre He. induction Hpre as [|[c kws] pre Hr _ IH].
  - rewrite <- dict_hit_iff in He. destruct entry as [c kws]. simpl in *.
    now rewrite He.
  - rewrite <- dict_hit_iff in Hr. simpl in *.
    destruct (existsb _ _); [now exfalso | exact IH].
Qed.

Lemma mentions_income_iff (d : string) :
  Tracker.mentions_income d = true <-> income_words (PyStr.lower d).
Proof.
  unfold Tracker.mentions_income, income_words.
  rewrite !orb_true_iff, !contains_occurs. tauto.
Qed.

Lemma lower_ascii_idem (c : ascii) :
  PyStr.lower_ascii (PyStr.lower_ascii c) = PyStr.lower_ascii c.
Proof.
  destruct c as [[] [] [] [] [] [] [] []]; reflexivity.
Qed.

Lemma lower_idem (s : string) : PyStr.lower (PyStr.lower s) = PyStr.lower s.
Proof.
  induction s as [|c s IH]; simpl; [reflexivity|].
  now rewrite lower_ascii_idem, IH.
Qed.

End Classifier.
Section ClassifierClaims.

Lemma income_fallback (description : string) :
  let d := PyStr.lower description in
  (income_words d -> (if Tracker.mentions_income d then "Income" else "Other") = "Income")
  /\ (~ income_words d -> (if Tracker.mentions_income d then "Income" else "Other") = "Other").
Proof.
  intros d. pose proof (mentions_income_iff d) as Hi.
  unfold d in Hi at 2. rewrite lower_idem in Hi. fold d in Hi.
  destruct (Tracker.mentions_income d); split; intros H; trivial.
  - exfalso. apply H, Hi. reflexivity.
  - apply Hi in H. discriminate.
Qed.

(** C2: over the rows of the Categories sheet in their order, the category
    of the first row having a keyword that occurs in the lower-cased
    description or merchant name is returned; when no row has one, the
    result is Income if the description mentions income, deposit or
    payroll, and Other if not.  The keywords of a row are the non-empty
    items of its keyword cell: the row of Other, whose cell is empty, has
    none.  The same holds for the built-in table when the sheet cannot be
    read. *)
Theorem categorize_first_match_wins (values : list (list string))
  (description merchant : string) :
  first_match_wins sheet_entry_matches sheet_entry_category (skipn 1 values)
    description merchant
    (Tracker.categorize_transaction (Some values) description merchant)
  /\ first_match_wins dict_entry_matches fst Tracker.categories
    description merchant
    (Tracker.categorize_transaction None description merchant).
Proof.
  unfold first_match_wins, Tracker.categorize_transaction. split; split.
  - intros pre entry post -> Hpre He.
    now rewrite (scan_sheet_first pre post entry _ _ Hpre He).
  - intros Hnone. rewrite (scan_sheet_none _ _ _ Hnone).
    now apply income_fallback.
  - intros pre entry post Heq Hpre He. rewrite Heq.
    now rewrite (scan_dict_first pre post entry _ _ Hpre He).
  - intros Hnone. rewrite (scan_dict_none _ _ _ Hnone).
    now apply income_fallback.
Qed.

(** A description that matches the Sell row and the Dividend row of the
    default sheet is a Sell. *)
Lemma categorize_first_match_wins_witness :
  Tracker.categorize_transaction (Some Tracker.default_categories_sheet)
    "Sell before dividend (MSFT)" "Broker" = "Sell".
Proof.
  destruct (categorize_first_match_wins Tracker.default_categories_sheet
              "Sell before dividend (MSFT)" "Broker") as [[H _] _].
  apply (H [nth 1 Tracker.default_categories_sheet []]
           (nth 2 Tracker.default_categories_sheet [])
           (skipn 3 Tracker.default_categories_sheet)).
  - reflexivity.
  - constructor; [|constructor].
    intros Hm. apply sheet_entry_matches_dec in Hm. vm_compute in Hm. discriminate.
  - apply sheet_entry_matches_dec. vm_compute. reflexivity.
Defined.

End ClassifierClaims.
Section CategoryRange.

Lemma scan_sheet_some (table : list (list string)) (d m c : string) :
  Tracker.scan_sheet table d m = Some c ->
  In c (map sheet_entry_category table).
Proof.
  induction table as [|row table IH]; simpl; [discriminate|].
  destruct row as [|c0 [|cell rest]]; try (intros H; right; now apply IH).
  destruct (existsb _ _).
  - intros [= <-]. now left.
  - intros H. right. now apply IH.
Qed.

Lemma scan_dict_some (table : list (string * list string)) (d m c : string) :
  Tracker.scan_dict table d m = Some c -> In c (map fst table).
Proof.
  induction table as [|[c0 kws] table IH]; simpl; [discriminate|].
  destruct (existsb _ _).
  - intros [= <-]. now left.
  - intros H. right. now apply IH.
Qed.

(** C7, as amended: the assigned category is the first cell of a row of
    the Categories sheet, or Income, or Other.  It is one of the seven
    enumeration values when the sheet is the default one and when the
    built-in table is used because the sheet cannot be read. *)
Theorem category_from_sheet_or_fallback (description merchant : string) :
  (forall values,
      In (Tracker.categorize_transaction (Some values) description merchant)
         (map sheet_entry_category (skipn 1 values) ++ ["Income"; "Other"]))
  /\ In (Tracker.categorize_transaction (Some Tracker.default_categories_sheet)
           description merchant) category_enum
  /\ In (Tracker.categorize_transaction None description merchant) category_enum.
Proof.
  assert (Hsheet : forall values,
      In (Tracker.categorize_transaction (Some values) description merchant)
         (map sheet_entry_category (skipn 1 values) ++ ["Income"; "Other"])).
  { intros values. unfold Tracker.categorize_transaction.
    destruct (Tracker.scan_sheet _ _ _) as [c|] eqn:Hs.
    - apply in_or_app. left. eapply scan_sheet_some, Hs.
    - apply in_or_app. right.
      destruct (Tracker.mentions_income _); simpl; auto. }
  split; [exact Hsheet|]. split.
  - specialize (Hsheet Tracker.default_categories_sheet).
    unfold category_enum. simpl in Hsheet |- *. tauto.
  - unfold Tracker.categorize_transaction.
    destruct (Tracker.scan_dict _ _ _) as [c|] eqn:Hs.
    + apply scan_dict_some in Hs. unfold category_enum. simpl in Hs |- *. tauto.
    + destruct (Tracker.mentions_income _); unfold category_enum; simpl; auto 10.
Qed.

(** C7 as stated fails: with a Categories sheet that names another
    category, that name is what the classifier assigns. *)
Lemma category_outside_enum :
  ~ In (Tracker.categorize_transaction
          (Some [["Category"; "Keywords"]; ["Groceries"; "market, grocer"]])
          "Corner Market" "")
       category_enum.
Proof.
  vm_compute. intros H.
  repeat (destruct H as [H|H]; [discriminate H|]). exact H.
Qed.

End CategoryRange.

(** ** The sign-aware classifier *)

Section TransactionType.

(** C10: [identify_transaction_type] returns one of Initial Capital, Buy,
    Sell, Dividend, Fee, Other, and each of them for some row; a
    description that contains "initial fund capital" after lower-casing
    gives Initial Capital whatever the amount; Initial Capital is not one
    of the seven categories; Income and Capital are never returned. *)
Theorem identify_transaction_type_range (Description : string) (Amount : Q) :
  In (Visualizer.identify_transaction_type Description Amount) transaction_type_labels
  /\ (occurs_in "initial fund capital" (PyStr.lower Description) ->
      Visualizer.identify_transaction_type Description Amount = "Initial Capital")
  /\ ~ In "Initial Capital" category_enum
  /\ Visualizer.identify_transaction_type Description Amount <> "Income"
  /\ Visualizer.identify_transaction_type Description Amount <> "Capital"
  /\ (forall label, In label transaction_type_labels ->
      exists D A, Visualizer.identify_transaction_type D A = label).
Proof.
  assert (Hin : In (Visualizer.identify_transaction_type Description Amount)
                   transaction_type_labels).
  { unfold Visualizer.identify_transaction_type, transaction_type_labels.
    repeat match goal with
           | |- context [if ?b then _ else _] => destruct b
           end; simpl; auto 10. }
  split; [exact Hin|]. split; [|split; [|split; [|split]]].
  - intros Hocc. apply contains_occurs in Hocc.
    unfold Visualizer.identify_transaction_type. now rewrite Hocc.
  - unfold category_enum. simpl. intros H.
    repeat (destruct H as [H|H]; [discriminate H|]). exact H.
  - intros Heq. rewrite Heq in Hin. unfold transaction_type_labels in Hin.
    simpl in Hin. repeat (destruct Hin as [Hin|Hin]; [discriminate Hin|]). exact Hin.
  - intros Heq. rewrite Heq in Hin. unfold transaction_type_labels in Hin.
    simpl in Hin. repeat (destruct Hin as [Hin|Hin]; [discriminate Hin|]). exact Hin.
  - intros label Hl. unfold transaction_type_labels in Hl. simpl in Hl.
    destruct Hl as [<-|[<-|[<-|[<-|[<-|[<-|[]]]]]]].
    + exists "Initial fund capital deployment", (1000000 # 1)%Q. reflexivity.
    + exists "Purchase of Apple (AAPL)", (-1200 # 1)%Q. reflexivity.
    + exists "Sell Apple (AAPL)", (1500 # 1)%Q. reflexivity.
    + exists "Dividend from Apple (AAPL)", (12 # 1)%Q. reflexivity.
    + exists "Management fee", (-25 # 1)%Q. reflexivity.
    + exists "Purchase refund", (30 # 1)%Q. reflexivity.
Qed.

(** A negative amount does not keep the capital row from its label. *)
Lemma identify_transaction_type_range_witness :
  Visualizer.identify_transaction_type "Purchase: Initial Fund Capital" (-5 # 1)%Q
  = "Initial Capital".
Proof.
  apply (identify_transaction_type_range "Purchase: Initial Fund Capital" (-5 # 1)%Q).
  apply contains_occurs. vm_compute. reflexivity.
Defined.

End TransactionType.
(** ** Batches *)

Section Batches.

Context {A : Type}.

Lemma range_count_spec (n size : nat) :
  (0 < size)%nat ->
  let c := ((n + size - 1) / size)%nat in
  (n <= c * size)%nat /\ (forall i, (i < c)%nat <-> (i * size < n)%nat).
Proof.
  intros Hs c.
  pose proof (Nat.div_mod_eq (n + size - 1) size) as Hdm.
  pose proof (Nat.mod_upper_bound (n + size - 1) size ltac:(lia)) as Hub.
  fold c in Hdm.
  assert (Hle : (n <= c * size)%nat) by nia.
  split; [exact Hle|].
  intros i. split; intros Hi; nia.
Qed.

Lemma batches_of_map (size : nat) (l : list A) :
  batches_of size l
  = map (fun k => take size (drop (k * size) l))
        (seq 0 ((length l + size - 1) / size)).
Proof.
  unfold batches_of, py_range_step, py_slice. rewrite map_map.
  apply map_ext. intros k. now replace (k * size + size - k * size)%nat with size by lia.
Qed.

Lemma batches_of_length (size : nat) (l : list A) :
  length (batches_of size l) = ((length l + size - 1) / size)%nat.
Proof. now rewrite batches_of_map, length_map, length_seq. Qed.

Lemma batches_of_lookup (size : nat) (l : list A) (i : nat) (g : list A) :
  batches_of size l !! i = Some g ->
  (i < length (batches_of size l))%nat /\ g = take size (drop (i * size) l).
Proof.
  intros H. split; [now apply lookup_lt_Some in H|].
  rewrite batches_of_map in H. apply list_lookup_fmap_Some in H as (k & -> & Hk).
  apply lookup_seq in Hk as [-> _]. reflexivity.
Qed.

Lemma concat_take_chunks (size : nat) (l : list A) (k : nat) :
  concat (map (fun i => take size (drop (i * size) l)) (seq 0 k)) = take (k * size) l.
Proof.
  induction k as [|k IH]; [reflexivity|].
  rewrite seq_S, map_app, concat_app, IH. simpl. rewrite app_nil_r.
  rewrite take_take_drop. f_equal. lia.
Qed.

Lemma batches_of_concat (size : nat) (l : list A) :
  (0 < size)%nat -> concat (batches_of size l) = l.
Proof.
  intros Hs. rewrite batches_of_map, concat_take_chunks.
  apply take_ge. now apply range_count_spec.
Qed.

Lemma batches_of_group_length (size : nat) (l : list A) (i : nat) (g : list A) :
  (0 < size)%nat ->
  batches_of size l !! i = Some g ->
  (0 < length g <= size)%nat
  /\ ((S i < length (batches_of size l))%nat -> length g = size).
Proof.
  intros Hs H. apply batches_of_lookup in H as [Hi ->].
  rewrite batches_of_length in *.
  pose proof (range_count_spec (length l) size Hs) as [Hc Hlt].
  rewrite length_take, length_drop.
  apply Hlt in Hi. split; [lia|].
  intros HS. apply Hlt in HS. lia.
Qed.

End Batches.

(** ** The write loops *)

Section TraceProjections.

Context {W : Type}.
Implicit Types (t u : list (event W)).

Lemma attempts_app t u : attempts (t ++ u) = attempts t ++ attempts u.
Proof. apply omap_app. Qed.
Lemma pauses_app t u : pauses (t ++ u) = pauses t ++ pauses u.
Proof. apply omap_app. Qed.
Lemma reported_app t u : reported (t ++ u) = reported t ++ reported u.
Proof. apply omap_app. Qed.
Lemma written_app t u : written (t ++ u) = written t ++ written u.
Proof. apply omap_app. Qed.

End TraceProjections.

Section TraceSteps.

Context {W : Type}.
Implicit Types (t : list (event W)) (g : list W) (i : nat) (d : Q).

Lemma attempts_write i g t : attempts (EWrite i g :: t) = (i, true) :: attempts t.
Proof. reflexivity. Qed.
Lemma attempts_failed i t : attempts (EWriteFailed i :: t) = (i, false) :: attempts t.
Proof. reflexivity. Qed.
Lemma attempts_print i t : attempts (EPrintError i :: t) = attempts t.
Proof. reflexivity. Qed.
Lemma attempts_sleep i d t : attempts (ESleep i d :: t) = attempts t.
Proof. reflexivity. Qed.
Lemma attempts_nil : attempts (@nil (event W)) = [].
Proof. reflexivity. Qed.

Lemma pauses_write i g t : pauses (EWrite i g :: t) = pauses t.
Proof. reflexivity. Qed.
Lemma pauses_failed i t : pauses (EWriteFailed i :: t) = pauses t.
Proof. reflexivity. Qed.
Lemma pauses_print i t : pauses (EPrintError i :: t) = pauses t.
Proof. reflexivity. Qed.
Lemma pauses_sleep i d t : pauses (ESleep i d :: t) = (i, d) :: pauses t.
Proof. reflexivity. Qed.
Lemma pauses_nil : pauses (@nil (event W)) = [].
Proof. reflexivity. Qed.

Lemma reported_write i g t : reported (EWrite i g :: t) = reported t.
Proof. reflexivity. Qed.
Lemma reported_failed i t : reported (EWriteFailed i :: t) = reported t.
Proof. reflexivity. Qed.
Lemma reported_print i t : reported (EPrintError i :: t) = i :: reported t.
Proof. reflexivity. Qed.
Lemma reported_sleep i d t : reported (ESleep i d :: t) = reported t.
Proof. reflexivity. Qed.
Lemma reported_nil : reported (@nil (event W)) = [].
Proof. reflexivity. Qed.

Lemma written_write i g t : written (EWrite i g :: t) = g :: written t.
Proof. reflexivity. Qed.
Lemma written_failed i t : written (EWriteFailed i :: t) = written t.
Proof. reflexivity. Qed.
Lemma written_print i t : written (EPrintError i :: t) = written t.
Proof. reflexivity. Qed.
Lemma written_sleep i d t : written (ESleep i d :: t) = written t.
Proof. reflexivity. Qed.
Lemma written_nil : written (@nil (event W)) = [].
Proof. reflexivity. Qed.

End TraceSteps.

Create Rewrite HintDb trace.
#[export] Hint Rewrite @attempts_app @pauses_app @reported_app @written_app : trace.
#[export] Hint Rewrite @attempts_write @attempts_failed @attempts_print @attempts_sleep @attempts_nil @pauses_write @pauses_failed @pauses_print @pauses_sleep @pauses_nil @reported_write @reported_failed @reported_print @reported_sleep @reported_nil @written_write @written_failed @written_print @written_sleep @written_nil : trace.

Section ImporterLoop.

Variable float : string -> option Q.
Variable strptime : string -> option string.
Variable now : nat -> nat -> N.
Variable sheet : option (list (list string)).

Lemma prepare_rows_some (i j : nat) (batch : list (gmap string string)) :
  amounts_parse float batch ->
  exists rows,
    Importer.prepare_rows float strptime now sheet i j batch = Some rows
    /\ length rows = length batch
    /\ map r_id rows
       = imap (fun k t => Importer.batch_row_id now t i (j + k)) batch.
Proof.
  intros Hp. revert j. induction Hp as [|t batch [a Ha] _ IH]; intros j.
  - exists []. repeat split.
  - destruct (IH (S j)) as (rows & Hrows & Hlen & Hids).
    simpl. rewrite Ha, Hrows. eexists. split; [reflexivity|]. split.
    + simpl. now rewrite Hlen.
    + simpl. rewrite Hids, Nat.add_0_r. f_equal.
      apply imap_ext. intros k x _. simpl. f_equal. lia.
Qed.

Lemma pause_after_trace (delay : Q) (total i : nat) :
  attempts (Importer.pause_after delay total i) = []
  /\ written (Importer.pause_after delay total i) = []
  /\ pauses (Importer.pause_after delay total i)
     = (if (i <? total - 1)%nat && Qle_bool 0 delay then [(i, delay)] else [])
  /\ reported (Importer.pause_after delay total i)
     = (if (i <? total - 1)%nat && negb (Qle_bool 0 delay) then [i] else []).
Proof.
  unfold Importer.pause_after.
  destruct (i <? total - 1)%nat, (Qle_bool 0 delay); repeat split.
Qed.

Lemma batch_loop_trace (append_ok : nat -> bool) (delay : Q) (total : nat)
  (batches : list (list (gmap string string))) (i : nat)
  (ws : list SheetRow) (imported : nat) :
  preparable float batches ->
  let r := Importer.batch_loop float strptime now sheet append_ok delay total i
             batches ws imported in
  Importer.ended r = Returned
  /\ attempts (Importer.trace r) = map (fun k => (k, append_ok k)) (seq i (length batches))
  /\ pauses (Importer.trace r)
     = map (fun k => (k, delay))
           (List.filter (fun k => append_ok k && ((k <? total - 1)%nat && Qle_bool 0 delay))
                        (seq i (length batches)))
  /\ reported (Importer.trace r)
     = List.filter (fun k => negb (append_ok k)
                             || ((k <? total - 1)%nat && negb (Qle_bool 0 delay)))
                   (seq i (length batches)).
Proof.
  intros Hp. revert i ws imported.
  induction Hp as [|b batches [Hne Hb] _ IH]; intros i ws imported.
  - repeat split.
  - destruct (prepare_rows_some i 0 b Hb) as (rows & Hrows & Hlen & _).
    cbn [Importer.batch_loop]. rewrite Hrows.
    destruct rows as [|row rows]; [destruct b; [congruence | discriminate]|].
    cbn [length seq map List.filter].
    destruct (pause_after_trace delay total i) as (Hpa & _ & Hpp & Hpr).
    destruct (append_ok i) eqn:Hok.
    + specialize (IH (S i) (ws ++ row :: rows) (imported + length (row :: rows))%nat).
      cbv zeta in IH. cbn [length] in IH. destruct IH as (He & Ha & Hps & Hr).
      cbn [Importer.trace Importer.ended]. split; [exact He|].
      autorewrite with trace. rewrite Ha, Hps, Hr, Hpa, Hpp, Hpr. cbn [negb orb andb].
      destruct ((i <? total - 1)%nat), (Qle_bool 0 delay); repeat split.
    + specialize (IH (S i) ws imported).
      cbv zeta in IH. destruct IH as (He & Ha & Hps & Hr).
      cbn [Importer.trace Importer.ended]. split; [exact He|].
      autorewrite with trace. rewrite Ha, Hps, Hr. repeat split.
Qed.

End ImporterLoop.
Section DashboardLoop.

Context {U : Type}.

Lemma dashboard_loop_ok (batch_ok : nat -> bool) (delay : Q) (total : nat)
  (batches : list (list U)) (i : nat) :
  (forall k, batch_ok k = true) ->
  (0 < delay)%Q ->
  let r := Tracker.dashboard_loop batch_ok delay total i batches in
  snd r = Returned
  /\ written (fst r) = batches
  /\ attempts (fst r) = map (fun k => (k, true)) (seq i (length batches))
  /\ pauses (fst r)
     = map (fun k => (k, delay))
           (List.filter (fun k => (k <? total - 1)%nat) (seq i (length batches))).
Proof.
  intros Hok Hd. revert i. induction batches as [|b batches IH]; intros i.
  - repeat split.
  - cbn [Tracker.dashboard_loop]. rewrite Hok.
    specialize (IH (S i)). cbv zeta in IH.
    destruct (Tracker.dashboard_loop batch_ok delay total (S i) batches) as [t e].
    cbn [fst snd] in *. destruct IH as (He & Hw & Ha & Hp).
    assert (Hq : Qle_bool delay 0 = false).
    { destruct (Qle_bool delay 0) eqn:E; trivial.
      apply Qle_bool_iff in E. exfalso. eapply Qlt_not_le; eassumption. }
    rewrite Hq. cbn [negb length seq map List.filter]. rewrite andb_true_r.
    split; [exact He|].
    destruct (i <? total - 1)%nat; autorewrite with trace;
      rewrite Hw, Ha, Hp; repeat split.
Qed.

Lemma dashboard_loop_stops (batch_ok : nat -> bool) (delay : Q) (total : nat)
  (batches : list (list U)) (i f : nat) :
  (i <= f < i + length batches)%nat ->
  batch_ok f = false ->
  (forall k, (i <= k < f)%nat -> batch_ok k = true) ->
  let r := Tracker.dashboard_loop batch_ok delay total i batches in
  snd r = Raised
  /\ attempts (fst r) = map (fun k => (k, true)) (seq i (f - i)) ++ [(f, false)]
  /\ written (fst r) = take (f - i) batches
  /\ reported (fst r) = [].
Proof.
  revert i. induction batches as [|b batches IH]; intros i Hf Hfail Hbefore.
  - simpl in Hf. lia.
  - cbn [Tracker.dashboard_loop]. destruct (Nat.eq_dec i f) as [->|Hne].
    + rewrite Hfail, Nat.sub_diag. repeat split.
    + rewrite (Hbefore i) by lia.
      specialize (IH (S i)). cbv zeta in IH.
      destruct (Tracker.dashboard_loop batch_ok delay total (S i) batches) as [t e].
      cbn [fst snd length] in *.
      destruct IH as (He & Ha & Hw & Hr); [lia | exact Hfail | intros; apply Hbefore; lia |].
      replace (f - i)%nat with (S (f - S i)) by lia.
      split; [exact He|].
      destruct ((i <? total - 1)%nat && negb (Qle_bool delay 0));
        autorewrite with trace; rewrite Ha, Hw, Hr; repeat split.
Qed.

End DashboardLoop.
Section SchedulerClaims.

Lemma filter_before_last (ok : nat -> bool) (total : nat) :
  List.filter (fun k => ok k && (k <? total - 1)%nat) (seq 0 total)
  = List.filter ok (seq 0 (total - 1)).
Proof.
  destruct total as [|n]; [reflexivity|].
  replace (S n - 1)%nat with n by lia.
  rewrite seq_S, List.filter_app. cbn [List.filter Nat.add].
  rewrite Nat.ltb_irrefl, andb_false_r, app_nil_r.
  apply List.filter_ext_in. intros k Hk. apply in_seq in Hk.
  replace (k <? n)%nat with true; [apply andb_true_r|].
  symmetry. apply Nat.ltb_lt. lia.
Qed.

Lemma batches_preparable (float : string -> option Q) (size : nat)
  (l : list (gmap string string)) :
  (0 < size)%nat -> amounts_parse float l -> preparable float (batches_of size l).
Proof.
  intros Hs Hp. apply Forall_lookup. intros i g Hg. split.
  - apply (batches_of_group_length size l i g Hs) in Hg as [[Hpos _] _].
    intros ->. simpl in Hpos. lia.
  - apply batches_of_lookup in Hg as [_ ->].
    unfold amounts_parse in *. now apply Forall_take, Forall_drop.
Qed.

Lemma batches_23_10 {A : Type} (l : list A) :
  length l = 23%nat -> map length (batches_of 10 l) = [10; 10; 3]%nat.
Proof.
  intros H. rewrite batches_of_map, H. cbn [Nat.add Nat.sub Nat.div Nat.divmod fst seq map].
  rewrite !length_take, !length_drop, H. reflexivity.
Qed.

Lemma filter_ok_before_last (ok : nat -> bool) (total : nat) :
  List.filter (fun k => ok k && ((k <? total - 1)%nat && true)) (seq 0 total)
  = List.filter ok (seq 0 (total - 1)).
Proof.
  rewrite <- filter_before_last. apply List.filter_ext.
  intros k. now rewrite andb_true_r.
Qed.

Lemma filter_none {A : Type} (p : A -> bool) (l : list A) :
  (forall x, p x = false) -> List.filter p l = [].
Proof.
  intros H. induction l as [|x l IH]; [reflexivity|]. cbn [List.filter].
  now rewrite H.
Qed.

Lemma filter_all {A : Type} (p : A -> bool) (l : list A) :
  (forall x, p x = true) -> List.filter p l = l.
Proof.
  intros H. induction l as [|x l IH]; [reflexivity|]. cbn [List.filter].
  now rewrite H, IH.
Qed.

(** C6: for a positive batch size the list is cut into consecutive groups
    that concatenate to it, each non-empty and of the batch size except a
    possibly smaller last one (23 writes, size 10: groups of 10, 10 and 3).
    [import_with_batching] makes one write call per group, in order.  With
    a delay that is not negative it pauses after every group but the last
    as long as the write calls return; after a group whose write call
    raised it does not pause.  With a negative delay it never pauses:
    [time.sleep] raises and each group but the last is reported as an
    error.  [update_dashboard], in groups of 10, pauses after every group
    but the last when the delay is positive and the write calls return. *)
Theorem batch_scheduler_groups_and_pauses :
  (forall (A : Type) (size : nat) (l : list A),
      (0 < size)%nat ->
      concat (batches_of size l) = l
      /\ forall i g, batches_of size l !! i = Some g ->
           (0 < length g <= size)%nat
           /\ ((S i < length (batches_of size l))%nat -> length g = size))
  /\ (forall (A : Type) (l : list A),
      length l = 23%nat -> map length (batches_of 10 l) = [10; 10; 3]%nat)
  /\ (forall float strptime now sheet col_values_ok append_ok size delay ws transactions,
      (0 < size)%nat ->
      amounts_parse float
        (Importer.new_transactions (existing_ids col_values_ok ws) transactions) ->
      let r := Importer.import_with_batching float strptime now sheet col_values_ok
                 append_ok size delay ws transactions in
      let total := length (batches_of size
                     (Importer.new_transactions (existing_ids col_values_ok ws)
                        transactions)) in
      attempts (Importer.trace r) = map (fun k => (k, append_ok k)) (seq 0 total)
      /\ ((0 <= delay)%Q ->
          pauses (Importer.trace r)
          = map (fun k => (k, delay)) (List.filter append_ok (seq 0 (total - 1)))
          /\ ((forall k, append_ok k = true) ->
              pauses (Importer.trace r) = map (fun k => (k, delay)) (seq 0 (total - 1)))
          /\ (forall f, append_ok f = false ->
                        ~ In f (map fst (pauses (Importer.trace r)))))
      /\ ((delay < 0)%Q ->
          pauses (Importer.trace r) = []
          /\ forall k, (k < total - 1)%nat -> In k (reported (Importer.trace r))))
  /\ (forall (U : Type) batch_ok delay (all_updates : list U),
      (forall k, batch_ok k = true) ->
      (0 < delay)%Q ->
      let r := Tracker.update_dashboard_writes batch_ok delay all_updates in
      let total := length (batches_of 10 all_updates) in
      written (fst r) = batches_of 10 all_updates
      /\ pauses (fst r) = map (fun k => (k, delay)) (seq 0 (total - 1))).
Proof.
  split; [|split; [|split]].
  - intros A size l Hs. split; [now apply batches_of_concat|].
    intros i g Hg. now apply batches_of_group_length.
  - intros A l. apply batches_23_10.
  - intros float strptime now sheet col_values_ok append_ok size delay ws transactions
      Hs Hp r total.
    assert (Htrace :
      attempts (Importer.trace r) = map (fun k => (k, append_ok k)) (seq 0 total)
      /\ pauses (Importer.trace r)
         = map (fun k => (k, delay))
             (List.filter (fun k => append_ok k
                                    && ((k <? total - 1)%nat && Qle_bool 0 delay))
                          (seq 0 total))
      /\ reported (Importer.trace r)
         = List.filter (fun k => negb (append_ok k)
                                 || ((k <? total - 1)%nat && negb (Qle_bool 0 delay)))
                       (seq 0 total)).
    { subst r total. unfold Importer.import_with_batching.
      destruct (Importer.new_transactions _ _) as [|t new] eqn:Hnew.
      { rewrite batches_of_length. cbn [length].
        replace ((0 + size - 1) / size)%nat with 0%nat
          by (symmetry; apply Nat.div_small; lia).
        repeat split. }
      destruct size as [|n]; [lia|].
      pose proof (batch_loop_trace float strptime now sheet append_ok delay
                    (length (batches_of (S n) (t :: new))) (batches_of (S n) (t :: new))
                    0 ws 0 (batches_preparable float (S n) (t :: new) Hs Hp))
        as (_ & Ha & Hps & Hr).
      repeat split; assumption. }
    clearbody r total. destruct Htrace as (Ha & Hps & Hr).
    split; [exact Ha|]. split.
    + intros Hd. apply Qle_bool_iff in Hd. rewrite Hd in Hps.
      rewrite filter_ok_before_last in Hps. split; [exact Hps|]. split.
      * intros Hok. rewrite Hps. f_equal. now apply filter_all.
      * intros f Hf Hin. rewrite Hps, map_map in Hin. cbn [fst] in Hin.
        rewrite map_id in Hin. apply List.filter_In in Hin as [_ Hin]. congruence.
    + intros Hd.
      assert (Hneg : Qle_bool 0 delay = false).
      { destruct (Qle_bool 0 delay) eqn:E; [|reflexivity].
        apply Qle_bool_iff in E. exfalso. eapply Qlt_not_le; eassumption. }
      rewrite Hneg in Hps, Hr. split.
      * rewrite Hps, filter_none; [reflexivity|].
        intros k. now rewrite !andb_false_r.
      * intros k Hk. rewrite Hr. apply List.filter_In. split.
        -- apply in_seq. lia.
        -- apply orb_true_iff. right. rewrite andb_true_r. apply Nat.ltb_lt. exact Hk.
  - intros U batch_ok delay all_updates Hok Hd r total. subst r total.
    unfold Tracker.update_dashboard_writes, Tracker.dashboard_batch_size.
    pose proof (dashboard_loop_ok batch_ok delay (length (batches_of 10 all_updates))
                  (batches_of 10 all_updates) 0 Hok Hd) as (_ & Hw & _ & Hps).
    split; [exact Hw|]. rewrite Hps. f_equal.
    change (fun k => (k <? length (batches_of 10 all_updates) - 1)%nat)
      with (fun k => (fun _ : nat => true) k
                     && (k <? length (batches_of 10 all_updates) - 1)%nat).
    rewrite filter_before_last.
    generalize (seq 0 (length (batches_of 10 all_updates) - 1)).
    intros l. induction l as [|x l IH]; simpl; congruence.
Qed.

End SchedulerClaims.
Section SchedulerExamples.

Lemma sample_records_parse (n : nat) :
  amounts_parse FloatDecimal.float (map Sample.record (seq 0 n)).
Proof.
  apply List.Forall_forall. intros t Ht. apply in_map_iff in Ht as (k & <- & _).
  exists (-120000 # 100)%Q. reflexivity.
Qed.

Lemma amounts_parse_new (float : string -> option Q) (existing : list string)
  (transactions : list (gmap string string)) :
  amounts_parse float transactions ->
  amounts_parse float (Importer.new_transactions existing transactions).
Proof.
  unfold amounts_parse, Importer.new_transactions. rewrite !List.Forall_forall.
  intros H t Ht. apply List.filter_In in Ht as [Ht _]. now apply H.
Qed.

(** 23 records in groups of 10, a delay of half a second, the first write
    call fails: three write calls and one pause only, after the second
    group. *)
Lemma batch_scheduler_groups_and_pauses_witness :
  let r := Importer.import_with_batching FloatDecimal.float Sample.strptime
             (Sample.clock2 1700000000) (Some Tracker.default_categories_sheet)
             true (Sample.fails_at 0) 10 (1 # 2)%Q [] (map Sample.record (seq 0 23)) in
  map length (batches_of 10 (map Sample.record (seq 0 23))) = [10; 10; 3]%nat
  /\ attempts (Importer.trace r) = [(0, false); (1, true); (2, true)]%nat
  /\ pauses (Importer.trace r) = [(1%nat, (1 # 2)%Q)]
  /\ ~ In 0%nat (map fst (pauses (Importer.trace r))).
Proof.
  destruct batch_scheduler_groups_and_pauses as (_ & H23 & Himp & _).
  split; [apply H23; reflexivity|].
  destruct (Himp FloatDecimal.float Sample.strptime (Sample.clock2 1700000000)
              (Some Tracker.default_categories_sheet) true (Sample.fails_at 0)
              10%nat (1 # 2)%Q [] (map Sample.record (seq 0 23)))
    as (Ha & Hp & _); [lia | apply amounts_parse_new, sample_records_parse |].
  destruct Hp as (Hp & _ & Hskip); [discriminate|].
  split; [rewrite Ha; reflexivity|]. split; [rewrite Hp; reflexivity|].
  apply Hskip. reflexivity.
Defined.

(** C4 on [update_dashboard]: when [batch_update] raises for a group, the
    groups before it have been written, nothing is reported, no later
    group is attempted and the exception leaves the write loop. *)
Theorem dashboard_failure_aborts (U : Type) (batch_ok : nat -> bool) (delay : Q)
  (all_updates : list U) (f : nat) :
  (f < length (batches_of 10 all_updates))%nat ->
  batch_ok f = false ->
  (forall k, (k < f)%nat -> batch_ok k = true) ->
  let r := Tracker.update_dashboard_writes batch_ok delay all_updates in
  snd r = Raised
  /\ attempts (fst r) = map (fun k => (k, true)) (seq 0 f) ++ [(f, false)]
  /\ written (fst r) = take f (batches_of 10 all_updates)
  /\ reported (fst r) = [].
Proof.
  intros Hf Hfail Hbefore r. subst r.
  unfold Tracker.update_dashboard_writes, Tracker.dashboard_batch_size.
  pose proof (dashboard_loop_stops batch_ok delay (length (batches_of 10 all_updates))
                (batches_of 10 all_updates) 0 f) as H.
  rewrite Nat.sub_0_r in H. apply H; [lia | exact Hfail |].
  intros k Hk. apply Hbefore. lia.
Qed.

(** 23 dashboard updates, the first [batch_update] raises: the second and
    the third group never reach the sheet. *)
Lemma dashboard_failure_aborts_witness :
  let r := Tracker.update_dashboard_writes (Sample.fails_at 0) (1 # 2)%Q (seq 0 23) in
  snd r = Raised
  /\ attempts (fst r) = [(0%nat, false)]
  /\ written (fst r) = []
  /\ reported (fst r) = [].
Proof.
  apply (dashboard_failure_aborts nat (Sample.fails_at 0) (1 # 2)%Q (seq 0 23) 0).
  - vm_compute. lia.
  - reflexivity.
  - intros k Hk. lia.
Defined.

(** [import_with_batching], by contrast, reports a failed group and goes
    on: every group gets its write call and the function returns. *)
Lemma import_with_batching_survives_failures
  (float : string -> option Q) (strptime : string -> option string)
  (now : nat -> nat -> N) (sheet : option (list (list string)))
  (col_values_ok : bool) (append_ok : nat -> bool) (size : nat) (delay : Q)
  (ws : list SheetRow) (transactions : list (gmap string string)) :
  (0 < size)%nat ->
  amounts_parse float
    (Importer.new_transactions (existing_ids col_values_ok ws) transactions) ->
  let r := Importer.import_with_batching float strptime now sheet col_values_ok
             append_ok size delay ws transactions in
  let total := length (batches_of size
                 (Importer.new_transactions (existing_ids col_values_ok ws)
                    transactions)) in
  Importer.ended r = Returned
  /\ attempts (Importer.trace r) = map (fun k => (k, append_ok k)) (seq 0 total)
  /\ forall k, (k < total)%nat -> append_ok k = false ->
                 In k (reported (Importer.trace r)).
Proof.
  intros Hs Hp r total. subst r total. unfold Importer.import_with_batching.
  destruct (Importer.new_transactions _ _) as [|t new] eqn:Hnew.
  { rewrite batches_of_length. cbn [length].
    replace ((0 + size - 1) / size)%nat with 0%nat
      by (symmetry; apply Nat.div_small; lia).
    repeat split. intros k Hk. lia. }
  destruct size as [|n]; [lia|].
  pose proof (batch_loop_trace float strptime now sheet append_ok delay
                (length (batches_of (S n) (t :: new))) (batches_of (S n) (t :: new))
                0 ws 0 (batches_preparable float (S n) (t :: new) Hs Hp))
    as (He & Ha & _ & Hr).
  split; [exact He|]. split; [exact Ha|].
  intros k Hk Hfail. rewrite Hr. apply List.filter_In. split.
  - apply in_seq. lia.
  - now rewrite Hfail.
Qed.

End SchedulerExamples.
(** ** [FinancialTracker.import_csv_transactions] *)

Section TrackerImport.

Variable float : string -> option Q.
Variable strptime : string -> option string.
Variable now : nat -> N.
Variable sheet : option (list (list string)).

Local Abbreviation import_loop := (Tracker.import_loop float strptime now sheet).


(** With parseable amounts the loop appends one row per record that
    passes the filter, in order, numbered by [new_rows]. *)
Lemma import_loop_rows (existing : list string)
  (transactions : list (gmap string string)) (k : nat) (ws : list SheetRow) (n : nat) :
  amounts_parse float transactions ->
  exists rows,
    import_loop existing transactions k ws n = (ws ++ rows, Some (n + length rows)%nat)
    /\ length rows = length (Importer.new_transactions existing transactions)
    /\ forall i t,
         Importer.new_transactions existing transactions !! i = Some t ->
         exists row kk,
           rows !! i = Some row
           /\ r_id row = Tracker.row_id now (lookup_id t) (n + i) kk.
Proof.
  intros Hp. revert k ws n. induction Hp as [|t txs [a Ha] _ IH]; intros k ws n.
  - exists []. simpl. rewrite app_nil_r, Nat.add_0_r.
    split; [reflexivity|]. split; [reflexivity|]. intros i t Hi. discriminate.
  - cbn [Tracker.import_loop Importer.new_transactions List.filter].
    fold (Importer.new_transactions existing txs).
    destruct (py_in (get t "TransactionID" "") existing) eqn:Hdup; cbn [negb].
    + apply IH.
    + rewrite Ha.
      match goal with
      | |- context [import_loop existing txs (S k) (ws ++ [?r]) (S n)] =>
          destruct (IH (S k) (ws ++ [r]) (S n)) as (rows & Hloop & Hlen & Hids);
          exists (r :: rows)
      end.
      split; [|split].
      * rewrite Hloop, <- app_assoc. cbn [app length]. do 2 f_equal. lia.
      * cbn [length]. now rewrite Hlen.
      * intros [|i] t' Hi.
        -- injection Hi as <-. eexists _, k. split; [reflexivity|].
           cbn [r_id]. now rewrite Nat.add_0_r.
        -- destruct (Hids i t' Hi) as (row & kk & Hrow & Hid).
           exists row, kk. split; [exact Hrow|]. rewrite Hid. f_equal. lia.
Qed.

End TrackerImport.
Section MalformedAmount.

Variable float : string -> option Q.
Variable strptime : string -> option string.
Variable sheet : option (list (list string)).








End MalformedAmount.

Section MalformedAmountExamples.



End MalformedAmountExamples.
(** ** Deduplication *)

Section Dedup.

Variable float : string -> option Q.
Variable strptime : string -> option string.
Variable sheet : option (list (list string)).

Lemma py_in_In (x : string) (xs : list string) : py_in x xs = true <-> In x xs.
Proof.
  unfold py_in. rewrite existsb_exists. split.
  - intros (y & Hy & Heq). apply String.eqb_eq in Heq. now subst.
  - intros H. exists x. split; [exact H | apply String.eqb_refl].
Qed.

Lemma new_transactions_In (existing : list string)
  (transactions : list (gmap string string)) (t : gmap string string) :
  In t (Importer.new_transactions existing transactions)
  <-> In t transactions /\ ~ In (lookup_id t) existing.
Proof.
  unfold Importer.new_transactions. rewrite List.filter_In, negb_true_iff.
  rewrite <- py_in_In. unfold lookup_id.
  destruct (py_in _ existing); intuition congruence.
Qed.

Lemma row_id_real (now : nat -> N) (id : string) (n k : nat) :
  id <> "" -> Tracker.row_id now id n k = id.
Proof. intros H. unfold Tracker.row_id. destruct id; [congruence | reflexivity]. Qed.

Lemma real_id_lookup (t : gmap string string) :
  has_real_id t -> t !! "TransactionID" = Some (lookup_id t).
Proof.
  unfold has_real_id, lookup_id, get.
  destruct (t !! "TransactionID"); simpl; congruence.
Qed.

Lemma import_loop_all_known (now : nat -> N) (existing : list string)
  (transactions : list (gmap string string)) (k : nat) (ws : list SheetRow) (n : nat) :
  Forall (fun t => In (lookup_id t) existing) transactions ->
  Tracker.import_loop float strptime now sheet existing transactions k ws n
  = (ws, Some n).
Proof.
  intros H. revert k. induction H as [|t txs Ht _ IH]; intros k; [reflexivity|].
  cbn [Tracker.import_loop]. apply py_in_In in Ht. unfold lookup_id in Ht.
  now rewrite Ht.
Qed.

Lemma existing_ids_In (col_values_ok : bool) (ws : list SheetRow) (x : string) :
  In x (existing_ids col_values_ok ws) -> In x (col_values_6 ws).
Proof. destruct col_values_ok; [trivial | contradiction]. Qed.

Lemma id_field_lookup (t : gmap string string) :
  has_id_field t -> t !! "TransactionID" = Some (lookup_id t).
Proof.
  unfold has_id_field, lookup_id, get. intros [x ->]. reflexivity.
Qed.

(** After an import in which every amount parses, every real id of the
    batch is in the id column. *)
Lemma tracker_import_registers_ids (now : nat -> N) (col_values_ok dashboard_ok : bool)
  (ws : list SheetRow) (transactions : list (gmap string string)) :
  amounts_parse float transactions ->
  Forall has_real_id transactions ->
  Forall (fun t => In (lookup_id t)
            (col_values_6 (Tracker.worksheet_after
               (Tracker.import_csv_transactions float strptime now sheet
                  col_values_ok dashboard_ok ws transactions))))
         transactions.
Proof.
  intros Hp Hreal. unfold Tracker.import_csv_transactions.
  set (existing := existing_ids col_values_ok ws).
  destruct (import_loop_rows float strptime now sheet existing
              transactions 0 ws 0 Hp) as (rows & Hloop & Hlen & Hids).
  rewrite Hloop.
  assert (Hws : forall t, In t transactions ->
                  In (lookup_id t) (col_values_6 (ws ++ rows))).
  { intros t Ht. unfold col_values_6. rewrite map_app. apply in_or_app.
    destruct (py_in (lookup_id t) existing) eqn:Hdup.
    - left. apply py_in_In in Hdup. now apply existing_ids_In in Hdup.
    - right.
      assert (Hnew : In t (Importer.new_transactions existing transactions)).
      { apply new_transactions_In. split; [exact Ht|].
        rewrite <- py_in_In. congruence. }
      apply list_elem_of_In, list_elem_of_lookup in Hnew as [i Hi].
      destruct (Hids i t Hi) as (row & kk & Hrow & Hid).
      rewrite row_id_real in Hid.
      + rewrite <- Hid. apply in_map. apply list_elem_of_In.
        eapply list_elem_of_lookup_2, Hrow.
      + rewrite List.Forall_forall in Hreal. now apply Hreal. }
  apply List.Forall_forall. intros t Ht.
  destruct ((0 <? 0 + length rows)%nat && negb dashboard_ok); cbn; now apply Hws.
Qed.

Lemma batch_loop_registers_ids (now : nat -> nat -> N) (append_ok : nat -> bool)
  (delay : Q) (total : nat) (batches : list (list (gmap string string))) (i : nat)
  (ws : list SheetRow) (imported : nat) :
  preparable float batches ->
  (forall k, append_ok k = true) ->
  let r := Importer.batch_loop float strptime now sheet append_ok delay total i
             batches ws imported in
  forall x,
    In x (col_values_6 ws)
    \/ (exists b t, In b batches /\ In t b /\ t !! "TransactionID" = Some x) ->
    In x (col_values_6 (Importer.worksheet_after r)).
Proof.
  intros Hp Hok. revert i ws imported.
  induction Hp as [|b batches [Hne Hb] _ IH]; intros i ws imported r x Hx; subst r.
  - destruct Hx as [Hx | (b & t & [] & _)]. exact Hx.
  - destruct (prepare_rows_some float strptime now sheet i 0 b Hb)
      as (rows & Hrows & Hlen & Hids).
    cbn [Importer.batch_loop]. rewrite Hrows.
    destruct rows as [|row rows]; [destruct b; [congruence | discriminate]|].
    rewrite Hok. cbn [Importer.worksheet_after]. apply IH.
    destruct Hx as [Hx | (b' & t & [<- | Hb'] & Ht & Hid)].
    + left. unfold col_values_6. rewrite map_app. apply in_or_app. now left.
    + left. unfold col_values_6. rewrite map_app. apply in_or_app. right.
      rewrite Hids. apply list_elem_of_In, list_elem_of_lookup in Ht as [j Hj].
      apply list_elem_of_In, list_elem_of_lookup. exists j.
      rewrite list_lookup_imap, Hj. cbn. unfold Importer.batch_row_id.
      now rewrite Hid.
    + right. now exists b', t.
Qed.

End Dedup.
Section DedupClaims.

(** C3, as amended: the filter keeps exactly the records whose
    TransactionID (the empty string when absent) is not in the id column.
    Importing a batch again against the worksheet the first import left
    adds no row, when every amount parsed, the write calls of the first
    import returned and the id column can be read again: with
    [FinancialTracker.import_csv_transactions] if every record carries a
    TransactionID that is not empty, with [import_with_batching] if every
    record has a TransactionID field, empty or not. *)
Theorem reimport_with_real_ids_adds_nothing
  (float : string -> option Q) (strptime : string -> option string)
  (sheet : option (list (list string)))
  (ws : list SheetRow) (transactions : list (gmap string string)) :
  (forall existing t,
      In t (Importer.new_transactions existing transactions)
      <-> In t transactions /\ ~ In (lookup_id t) existing)
  /\ (amounts_parse float transactions ->
      Forall has_real_id transactions ->
      forall now1 now2 col_values_ok1 dashboard_ok1 dashboard_ok2,
      let r1 := Tracker.import_csv_transactions float strptime now1 sheet
                  col_values_ok1 dashboard_ok1 ws transactions in
      let r2 := Tracker.import_csv_transactions float strptime now2 sheet
                  true dashboard_ok2 (Tracker.worksheet_after r1) transactions in
      Tracker.worksheet_after r2 = Tracker.worksheet_after r1
      /\ Tracker.return_value r2 = 0%nat)
  /\ (amounts_parse float transactions ->
      Forall has_id_field transactions ->
      forall now1 now2 col_values_ok1 append_ok1 append_ok2 size1 size2 delay1 delay2,
      (0 < size1)%nat ->
      (forall k, append_ok1 k = true) ->
      let r1 := Importer.import_with_batching float strptime now1 sheet
                  col_values_ok1 append_ok1 size1 delay1 ws transactions in
      let r2 := Importer.import_with_batching float strptime now2 sheet
                  true append_ok2 size2 delay2 (Importer.worksheet_after r1)
                  transactions in
      Importer.new_transactions (col_values_6 (Importer.worksheet_after r1))
        transactions = []
      /\ Importer.worksheet_after r2 = Importer.worksheet_after r1
      /\ Importer.total_imported r2 = 0%nat
      /\ Importer.trace r2 = []).
Proof.
  split; [|split].
  - intros existing t. apply new_transactions_In.
  - intros Hp Hreal now1 now2 c1 d1 d2 r1 r2.
    pose proof (tracker_import_registers_ids float strptime sheet now1 c1 d1 ws
                  transactions Hp Hreal) as Hreg.
    fold r1 in Hreg. clearbody r1. subst r2. unfold Tracker.import_csv_transactions.
    cbn [existing_ids].
    rewrite (import_loop_all_known float strptime sheet now2 _ _ 0 _ 0 Hreg).
    split; reflexivity.
  - intros Hp Hfield now1 now2 c1 ok1 ok2 size1 size2 delay1 delay2 Hs Hok r1 r2.
    assert (Hnone : Importer.new_transactions
                      (col_values_6 (Importer.worksheet_after r1)) transactions = []).
    { assert (Hall : forall t, In t transactions ->
                       In (lookup_id t) (col_values_6 (Importer.worksheet_after r1))).
      { intros t Ht. subst r1. unfold Importer.import_with_batching.
        set (existing := existing_ids c1 ws).
        destruct (Importer.new_transactions existing transactions)
          as [|t0 new] eqn:Hnew.
        - cbn [Importer.worksheet_after].
          destruct (py_in (lookup_id t) existing) eqn:Hdup;
            [apply py_in_In in Hdup; now apply existing_ids_In in Hdup|].
          assert (Hin : In t (Importer.new_transactions existing transactions)).
          { apply new_transactions_In. split; [exact Ht|].
            rewrite <- py_in_In. congruence. }
          rewrite Hnew in Hin. destruct Hin.
        - destruct size1 as [|n]; [lia|].
          apply batch_loop_registers_ids; [ | exact Hok | ].
          + apply batches_preparable; [lia|]. rewrite <- Hnew.
            now apply amounts_parse_new.
          + destruct (py_in (lookup_id t) existing) eqn:Hdup;
              [left; apply py_in_In in Hdup; now apply existing_ids_In in Hdup|].
            right.
            assert (Hin : In t (t0 :: new)).
            { rewrite <- Hnew. apply new_transactions_In. split; [exact Ht|].
              rewrite <- py_in_In. congruence. }
            rewrite <- (batches_of_concat (S n) (t0 :: new) ltac:(lia)) in Hin.
            apply in_concat in Hin as (g & Hg & Hin).
            exists g, t. repeat split; trivial.
            apply id_field_lookup. rewrite List.Forall_forall in Hfield.
            now apply Hfield. }
      destruct (Importer.new_transactions _ transactions) as [|t new] eqn:Hnew;
        [reflexivity|].
      assert (Hin : In t (t :: new)) by now left.
      rewrite <- Hnew in Hin. apply new_transactions_In in Hin as [Hin Hnot].
      exfalso. apply Hnot, Hall, Hin. }
    split; [exact Hnone|]. clearbody r1. subst r2.
    unfold Importer.import_with_batching. cbn [existing_ids].
    rewrite Hnone. repeat split.
Qed.

End DedupClaims.
Section DedupExamples.

Lemma sample_records_real (n : nat) :
  Forall has_real_id (map Sample.record (seq 0 n)).
Proof.
  apply List.Forall_forall. intros t Ht. apply in_map_iff in Ht as (k & <- & _).
  unfold has_real_id. intros H. vm_compute in H. discriminate.
Qed.

(** Three records with ids, imported twice: the second import leaves the
    three rows of the first. *)
Lemma reimport_with_real_ids_adds_nothing_witness :
  let batch := map Sample.record (seq 0 3) in
  let r1 := Tracker.import_csv_transactions FloatDecimal.float Sample.strptime
              (Sample.clock 1700000000) (Some Tracker.default_categories_sheet)
              true true [] batch in
  let r2 := Tracker.import_csv_transactions FloatDecimal.float Sample.strptime
              (Sample.clock 1700000060) (Some Tracker.default_categories_sheet)
              true true (Tracker.worksheet_after r1) batch in
  map r_id (Tracker.worksheet_after r2) = ["tx_0"; "tx_1"; "tx_2"]
  /\ Tracker.return_value r2 = 0%nat.
Proof.
  intros batch r1 r2.
  destruct (reimport_with_real_ids_adds_nothing FloatDecimal.float Sample.strptime
              (Some Tracker.default_categories_sheet) [] batch)
    as (_ & Htracker & _).
  destruct (Htracker (sample_records_parse 3) (sample_records_real 3)
              (Sample.clock 1700000000) (Sample.clock 1700000060) true true true)
    as [Hws Hret].
  split; [|exact Hret]. subst r2 r1. rewrite Hws. reflexivity.
Defined.

(** C3 as stated fails for a record without a TransactionID field: its row
    is stored under the synthesized id and looked up under the empty one,
    so the second import adds it again, in both import functions.  With an
    empty field [FinancialTracker.import_csv_transactions] does the same,
    while [import_with_batching] stores the empty id and finds it again. *)
Lemma reimport_without_id_adds_rows :
  let sheet := Some Tracker.default_categories_sheet in
  let tracker_twice batch :=
    let r1 := Tracker.import_csv_transactions FloatDecimal.float Sample.strptime
                (Sample.clock 1700000000) sheet true true [] batch in
    let r2 := Tracker.import_csv_transactions FloatDecimal.float Sample.strptime
                (Sample.clock 1700000060) sheet true true
                (Tracker.worksheet_after r1) batch in
    (map r_id (Tracker.worksheet_after r1), map r_id (Tracker.worksheet_after r2)) in
  let batching_twice batch :=
    let r1 := Importer.import_with_batching FloatDecimal.float Sample.strptime
                (Sample.clock2 1700000000) sheet true Sample.always_ok 10 (1 # 1)%Q
                [] batch in
    let r2 := Importer.import_with_batching FloatDecimal.float Sample.strptime
                (Sample.clock2 1700000060) sheet true Sample.always_ok 10 (1 # 1)%Q
                (Importer.worksheet_after r1) batch in
    (map r_id (Importer.worksheet_after r1), map r_id (Importer.worksheet_after r2)) in
  tracker_twice [Sample.record_without_id 0]
    = (["csv_0_1700000000"], ["csv_0_1700000000"; "csv_0_1700000060"])
  /\ tracker_twice [Sample.record_with_empty_id 0]
    = (["csv_0_1700000000"], ["csv_0_1700000000"; "csv_0_1700000060"])
  /\ batching_twice [Sample.record_without_id 0]
    = (["csv_0_1700000000"], ["csv_0_1700000000"; "csv_0_1700000060"])
  /\ batching_twice [Sample.record_with_empty_id 0] = ([""], [""]).
Proof. repeat split; vm_compute; reflexivity. Qed.

End DedupExamples.
(** ** Synthesized transaction ids *)

Section SynthesizedIds.

Lemma string_of_uint_digits (d : Decimal.uint) :
  all_digits (NilEmpty.string_of_uint d) = true.
Proof. induction d; simpl; trivial. Qed.

Lemma str_nat_inj (a b : nat) : PyStr.str_nat a = PyStr.str_nat b -> a = b.
Proof.
  unfold PyStr.str_nat. intros H.
  apply (f_equal NilEmpty.uint_of_string) in H. rewrite !NilEmpty.usu in H.
  injection H as H. apply (f_equal Nat.of_uint) in H.
  now rewrite !DecimalNat.Unsigned.of_to in H.
Qed.

Lemma digits_before_underscore (a b r s : string) :
  all_digits a = true -> all_digits b = true ->
  (a ++ String "_" r)%string = (b ++ String "_" s)%string -> a = b.
Proof.
  revert b. induction a as [|c a IH]; intros [|c' b] Ha Hb H;
    rewrite ?append_nil, ?append_cons in H.
  - reflexivity.
  - injection H as <- _. simpl in Hb. discriminate.
  - injection H as -> _. simpl in Ha. discriminate.
  - injection H as <- H. simpl in Ha, Hb.
    apply andb_true_iff in Ha as [_ Ha]. apply andb_true_iff in Hb as [_ Hb].
    f_equal. now apply IH.
Qed.

Lemma synthesized_id_inj (now : nat -> N) (n n' k k' : nat) :
  Tracker.row_id now "" n k = Tracker.row_id now "" n' k' -> n = n'.
Proof.
  unfold Tracker.row_id. cbn [PyStr.truthy]. rewrite !append_cons, !append_nil.
  intros H. injection H as H. apply str_nat_inj.
  apply (digits_before_underscore _ _ _ _
           (string_of_uint_digits _) (string_of_uint_digits _) H).
Qed.

(** In [FinancialTracker.import_csv_transactions] the rows of two
    different records without a usable TransactionID get different ids:
    the counter [new_rows] differs. *)
Lemma tracker_synthesized_ids_distinct
  (float : string -> option Q) (strptime : string -> option string)
  (now : nat -> N) (sheet : option (list (list string)))
  (col_values_ok dashboard_ok : bool)
  (ws : list SheetRow) (transactions : list (gmap string string)) :
  amounts_parse float transactions ->
  let r := Tracker.import_csv_transactions float strptime now sheet col_values_ok
             dashboard_ok ws transactions in
  let new := Importer.new_transactions (existing_ids col_values_ok ws) transactions in
  exists rows,
    Tracker.worksheet_after r = ws ++ rows
    /\ length rows = length new
    /\ forall i j ti tj ri rj,
         i <> j ->
         new !! i = Some ti -> new !! j = Some tj ->
         lookup_id ti = "" -> lookup_id tj = "" ->
         rows !! i = Some ri -> rows !! j = Some rj ->
         r_id ri <> r_id rj.
Proof.
  intros Hp r new. subst r new. unfold Tracker.import_csv_transactions.
  destruct (import_loop_rows float strptime now sheet (existing_ids col_values_ok ws)
              transactions 0 ws 0 Hp) as (rows & Hloop & Hlen & Hids).
  rewrite Hloop. exists rows. split; [|split; [exact Hlen|]].
  { destruct ((0 <? 0 + length rows)%nat && negb dashboard_ok); reflexivity. }
  intros i j ti tj ri rj Hij Hi Hj Hei Hej Hri Hrj Heq.
  destruct (Hids i ti Hi) as (ri' & ki & Hri' & Hidi).
  destruct (Hids j tj Hj) as (rj' & kj & Hrj' & Hidj).
  rewrite Hri in Hri'. rewrite Hrj in Hrj'.
  injection Hri' as <-. injection Hrj' as <-.
  rewrite Hidi, Hidj, Hei, Hej in Heq.
  apply synthesized_id_inj in Heq. lia.
Qed.

Lemma batch_row_id_absent (now : nat -> nat -> N) (t1 t2 : gmap string string)
  (i j1 j2 : nat) :
  t1 !! "TransactionID" = None -> t2 !! "TransactionID" = None ->
  now i j1 = now i j2 ->
  Importer.batch_row_id now t1 i j1 = Importer.batch_row_id now t2 i j2.
Proof. unfold Importer.batch_row_id. now intros -> -> ->. Qed.

Lemma batch_row_id_empty (now : nat -> nat -> N) (t : gmap string string) (i j : nat) :
  t !! "TransactionID" = Some "" -> Importer.batch_row_id now t i j = "".
Proof. unfold Importer.batch_row_id. now intros ->. Qed.

(** C5 on [import_with_batching]: two different records of one batch from
    a file without a TransactionID column get the same id within one clock
    second; with an empty TransactionID field the id stays empty. *)
Theorem batching_synthesized_ids_collide :
  let sheet := Some Tracker.default_categories_sheet in
  let ids col_values_ok batch :=
    map r_id (Importer.worksheet_after
      (Importer.import_with_batching FloatDecimal.float Sample.strptime
         (Sample.clock2 1700000000) sheet col_values_ok Sample.always_ok 10 (1 # 1)%Q
         [] batch)) in
  Sample.record_without_id 0 <> Sample.record_without_id 1
  /\ (forall col_values_ok,
        ids col_values_ok [Sample.record_without_id 0; Sample.record_without_id 1]
        = ["csv_0_1700000000"; "csv_0_1700000000"])
  /\ (forall col_values_ok,
        ids col_values_ok [Sample.record_with_empty_id 0; Sample.record_with_empty_id 1]
        = [""; ""]).
Proof.
  split; [|split; intros []; vm_compute; reflexivity].
  intros H. apply (f_equal (fun t => t !! "Description")) in H.
  vm_compute in H. discriminate.
Qed.

End SynthesizedIds.
(** ** Group keys *)

Section GroupKeys.

Local Abbreviation lt := String_as_OT.lt.

Lemma compare_eq (a b : string) : String_as_OT.compare a b = Eq -> a = b.
Proof. destruct (String_as_OT.compare_spec a b); congruence. Qed.

Lemma compare_refl (a : string) : String_as_OT.compare a a = Eq.
Proof.
  destruct (String_as_OT.compare_spec a a) as [_|H|H]; trivial;
    exfalso; eapply (StrictOrder_Irreflexive (R := lt)); exact H.
Qed.

Lemma compare_gt (a b : string) : String_as_OT.compare a b = Gt -> lt b a.
Proof. destruct (String_as_OT.compare_spec a b); congruence. Qed.

Lemma lt_not_gt (a b : string) : lt a b -> String_as_OT.compare b a = Gt.
Proof.
  intros H. destruct (String_as_OT.compare_spec b a) as [->|H'|H']; trivial; exfalso.
  - eapply (StrictOrder_Irreflexive (R := lt)); exact H.
  - eapply (StrictOrder_Irreflexive (R := lt)).
    eapply (StrictOrder_Transitive (R := lt)); eassumption.
Qed.

Lemma insert_key_In (k x : string) (keys : list string) :
  In k (Pandas.insert_key x keys) <-> k = x \/ In k keys.
Proof.
  induction keys as [|y keys IH]; simpl; [intuition|].
  destruct (String_as_OT.compare x y) eqn:E; simpl.
  - apply compare_eq in E. subst. intuition.
  - intuition.
  - rewrite IH. intuition.
Qed.

Lemma sorted_unique_In (k : string) (keys : list string) :
  In k (Pandas.sorted_unique keys) <-> In k keys.
Proof.
  unfold Pandas.sorted_unique. induction keys as [|x keys IH]; simpl; [tauto|].
  rewrite insert_key_In, IH. intuition.
Qed.

Lemma insert_key_sorted (x : string) (keys : list string) :
  StronglySorted lt keys -> StronglySorted lt (Pandas.insert_key x keys).
Proof.
  induction 1 as [|y keys Hs IH Hy]; simpl.
  - repeat constructor.
  - destruct (String_as_OT.compare x y) eqn:E.
    + now constructor.
    + constructor; [now constructor|]. constructor; [exact E|].
      eapply Forall_impl; [exact Hy|]. intros z Hz.
      eapply (StrictOrder_Transitive (R := lt)); eassumption.
    + constructor; [exact IH|]. apply List.Forall_forall. intros z Hz.
      apply insert_key_In in Hz as [->|Hz].
      * now apply compare_gt.
      * rewrite List.Forall_forall in Hy. now apply Hy.
Qed.

Lemma sorted_unique_sorted (keys : list string) :
  StronglySorted lt (Pandas.sorted_unique keys).
Proof.
  unfold Pandas.sorted_unique. induction keys as [|x keys IH]; simpl.
  - constructor.
  - now apply insert_key_sorted.
Qed.

Lemma sorted_split (pre post : list string) (m : string) :
  StronglySorted lt (pre ++ m :: post) ->
  (forall x, In x pre -> lt x m) /\ (forall x, In x post -> lt m x).
Proof.
  induction pre as [|y pre IH]; simpl; intros H.
  - apply StronglySorted_inv in H as [_ H]. rewrite List.Forall_forall in H.
    split; [contradiction | exact H].
  - apply StronglySorted_inv in H as [Hs Hy]. destruct (IH Hs) as [Hpre Hpost].
    split; [|exact Hpost]. intros x [<-|Hx]; [|now apply Hpre].
    rewrite List.Forall_forall in Hy. apply Hy. apply in_or_app. right. now left.
Qed.

Lemma sorted_NoDup (keys : list string) : StronglySorted lt keys -> List.NoDup keys.
Proof.
  induction 1 as [|y keys Hs IH Hy]; constructor; trivial.
  intros Hin. rewrite List.Forall_forall in Hy. apply Hy in Hin.
  eapply (StrictOrder_Irreflexive (R := lt)); exact Hin.
Qed.

End GroupKeys.
(** ** Sums over groups *)

Section GroupSums.

Context {R : Type}.
Variable key : R -> option string.
Variable val : R -> Q.

Local Open Scope Q_scope.

(** The sum of [val] over the rows that satisfy [p]. *)
Local Abbreviation sum_where p df := (Pandas.Qsum (map val (List.filter p df))).

Lemma Qsum_app (l l' : list Q) :
  Pandas.Qsum (l ++ l') == Pandas.Qsum l + Pandas.Qsum l'.
Proof.
  induction l as [|x l IH]; simpl.
  - ring.
  - rewrite IH. ring.
Qed.

Lemma sum_where_cons (p : R -> bool) (r : R) (df : list R) :
  sum_where p (r :: df) == (if p r then val r else 0) + sum_where p df.
Proof. simpl. destruct (p r); simpl; ring. Qed.

Lemma sum_where_perm (p : R -> bool) (df df' : list R) :
  Permutation df df' -> sum_where p df == sum_where p df'.
Proof.
  induction 1 as [|r df df' _ IH|r r' df|df df' df'' _ IH1 _ IH2].
  - reflexivity.
  - rewrite !sum_where_cons, IH. reflexivity.
  - rewrite !sum_where_cons. ring.
  - now rewrite IH1.
Qed.

Lemma sum_where_ext (p q : R -> bool) (df : list R) :
  (forall r, In r df -> p r = q r) -> sum_where p df == sum_where q df.
Proof.
  intros H. rewrite (List.filter_ext_in p q df H). reflexivity.
Qed.

(** Summing the groups of distinct keys is summing the rows that have one
    of these keys. *)
Lemma sum_of_groups (ks : list string) (df : list R) :
  List.NoDup ks ->
  Pandas.Qsum (map (fun k => sum_where (Pandas.has_key key k) df) ks)
  == sum_where (key_among key ks) df.
Proof.
  intros Hnd. induction Hnd as [|k ks Hk _ IH]; simpl.
  - induction df as [|r df IHdf]; [reflexivity|].
    rewrite sum_where_cons, <- IHdf. unfold key_among.
    destruct (key r); cbn [py_in existsb map Pandas.Qsum fold_right]; ring.
  - rewrite IH. clear IH.
    induction df as [|r df IHdf]; [cbn [List.filter map Pandas.Qsum fold_right]; ring|].
    rewrite !sum_where_cons, <- IHdf.
    assert (Hcase : (if key_among key (k :: ks) r then val r else 0)
                    == (if Pandas.has_key key k r then val r else 0)
                       + (if key_among key ks r then val r else 0)).
    { unfold key_among, Pandas.has_key, py_in. destruct (key r) as [k'|]; [|ring].
      cbn [existsb]. rewrite (String.eqb_sym k' k).
      destruct (String.eqb k k') eqn:E; cbn [orb].
      - apply String.eqb_eq in E. subst k'.
        destruct (existsb (String.eqb k) ks) eqn:E'; [|ring].
        exfalso. apply Hk. apply existsb_exists in E' as (y & Hy & Hyk).
        apply String.eqb_eq in Hyk. now subst.
      - ring. }
    rewrite Hcase. ring.
Qed.

End GroupSums.
(** ** Running sums *)

Section RunningSums.

Local Open Scope Q_scope.

Lemma Qsum_nil : Pandas.Qsum [] = 0.
Proof. reflexivity. Qed.

Lemma Qsum_cons (x : Q) (l : list Q) : Pandas.Qsum (x :: l) = x + Pandas.Qsum l.
Proof. reflexivity. Qed.


Lemma present_keys_In {R : Type} (key : R -> option string) (df : list R) (k : string) :
  In k (Pandas.present_keys key df) <-> exists r, In r df /\ key r = Some k.
Proof.
  unfold Pandas.present_keys. rewrite <- list_elem_of_In, list_elem_of_omap.
  split; intros (r & Hr & Hk); exists r; split; trivial; now apply list_elem_of_In.
Qed.

Lemma month_le_refl (m : string) : month_le m m = true.
Proof. unfold month_le. now rewrite compare_refl. Qed.

Lemma month_le_lt (a b : string) : String_as_OT.lt a b -> month_le a b = true.
Proof. unfold month_le, String_as_OT.lt. now intros ->. Qed.

Lemma month_le_gt (a b : string) : String_as_OT.lt b a -> month_le a b = false.
Proof. unfold month_le. intros H. now rewrite (lt_not_gt _ _ H). Qed.

(** In exact arithmetic the groups of the keys up to [m] add up to the sum
    over the rows whose key is at most [m]. *)
Lemma groups_upto {R : Type} (key : R -> option string) (val : R -> Q)
  (df : list R) (pre post : list string) (m : string) :
  Pandas.sorted_unique (Pandas.present_keys key df) = pre ++ m :: post ->
  Pandas.Qsum (map (fun k => Pandas.Qsum (map val (List.filter (Pandas.has_key key k) df)))
                   (pre ++ [m]))
  == Pandas.Qsum (map val
       (List.filter (fun r => match key r with
                              | Some k => month_le k m
                              | None => false
                              end) df)).
Proof.
  intros Hkeys.
  pose proof (sorted_unique_sorted (Pandas.present_keys key df)) as Hsorted.
  rewrite Hkeys in Hsorted.
  destruct (sorted_split pre post m Hsorted) as [Hpre Hpost].
  pose proof (sorted_NoDup _ Hsorted) as Hnd.
  rewrite sum_of_groups.
  2:{ apply NoDup_app_remove_r with (l' := post).
      rewrite <- app_assoc. exact Hnd. }
  apply sum_where_ext. intros r Hr. unfold key_among.
  destruct (key r) as [k|] eqn:Hk; [|reflexivity].
  assert (Hin : In k (pre ++ m :: post)).
  { rewrite <- Hkeys. apply sorted_unique_In, present_keys_In. now exists r. }
  apply in_app_or in Hin as [Hin | [<- | Hin]].
  - rewrite (month_le_lt _ _ (Hpre _ Hin)). apply py_in_In, in_or_app. now left.
  - rewrite month_le_refl. apply py_in_In, in_or_app. right. now left.
  - rewrite (month_le_gt _ _ (Hpost _ Hin)).
    destruct (py_in k (pre ++ [m])) eqn:E; [|reflexivity].
    exfalso. apply py_in_In, in_app_or in E as [E | [<- | []]].
    + eapply (StrictOrder_Irreflexive (R := String_as_OT.lt)).
      eapply (StrictOrder_Transitive (R := String_as_OT.lt));
        [apply (Hpre _ E) | apply (Hpost _ Hin)].
    + eapply (StrictOrder_Irreflexive (R := String_as_OT.lt)), (Hpost _ Hin).
Qed.

End RunningSums.

Section RunningSumsOfDoubles.

Context {F : Type}.
Variable add : F -> F -> F.

Lemma cumsum_from_keys (acc : F) (s : list (string * F)) :
  map fst (Pandas.cumsum_from add acc s) = map fst s.
Proof.
  revert acc. induction s as [|[k v] s IH]; intros acc; simpl; [reflexivity|].
  now rewrite IH.
Qed.

Lemma cumsum_keys (s : list (string * F)) : map fst (Pandas.cumsum add s) = map fst s.
Proof.
  destruct s as [|[k v] s]; [reflexivity|]. cbn [Pandas.cumsum map fst].
  now rewrite cumsum_from_keys.
Qed.

Lemma cumsum_from_first (acc : F) (s : list (string * F)) :
  Pandas.cumsum_from add acc s !! 0%nat
  = option_map (fun e => (fst e, add acc (snd e))) (s !! 0%nat).
Proof. destruct s as [|[k v] s]; reflexivity. Qed.

Lemma cumsum_from_next (acc : F) (s : list (string * F)) (i : nat) :
  Pandas.cumsum_from add acc s !! S i
  = match Pandas.cumsum_from add acc s !! i, s !! S i with
    | Some (_, w), Some (k, x) => Some (k, add w x)
    | _, _ => None
    end.
Proof.
  revert acc s. induction i as [|i IH]; intros acc s.
  - destruct s as [|[k v] [|[k' v'] s]]; reflexivity.
  - destruct s as [|[k v] s]; [reflexivity|].
    cbn [Pandas.cumsum_from]. rewrite !lookup_cons. apply IH.
Qed.

(** Every entry of [cumsum] but the first is the entry before it plus the
    value at its position; the first is the first value. *)
Lemma cumsum_first (s : list (string * F)) : Pandas.cumsum add s !! 0%nat = s !! 0%nat.
Proof. destruct s as [|[k v] s]; reflexivity. Qed.

Lemma cumsum_next (s : list (string * F)) (i : nat) :
  Pandas.cumsum add s !! S i
  = match Pandas.cumsum add s !! i, s !! S i with
    | Some (_, w), Some (k, x) => Some (k, add w x)
    | _, _ => None
    end.
Proof.
  destruct s as [|[k v] s]; [reflexivity|]. cbn [Pandas.cumsum].
  destruct i as [|i].
  - rewrite !lookup_cons. rewrite cumsum_from_first.
    destruct (s !! 0%nat) as [[k' x]|]; reflexivity.
  - rewrite (lookup_cons _ _ (S (S i))), (lookup_cons _ _ (S i)).
    rewrite (lookup_cons _ s (S (S i))). cbn [Nat.pred].
    rewrite cumsum_from_next. reflexivity.
Qed.

Lemma groupby_sum_doubles_keys {R : Type} (sum : list F -> F)
  (key : R -> option string) (val : R -> F) (df : list R) :
  map fst (Pandas.groupby_sum_doubles sum key val df)
  = Pandas.sorted_unique (Pandas.present_keys key df).
Proof.
  unfold Pandas.groupby_sum_doubles. rewrite map_map. cbn [fst]. apply map_id.
Qed.

Lemma groupby_sum_doubles_lookup {R : Type} (sum : list F -> F)
  (key : R -> option string) (val : R -> F) (df : list R) (i : nat) (k : string)
  (x : F) :
  Pandas.groupby_sum_doubles sum key val df !! i = Some (k, x)
  <-> Pandas.sorted_unique (Pandas.present_keys key df) !! i = Some k
      /\ x = sum (map val (List.filter (Pandas.has_key key k) df)).
Proof.
  unfold Pandas.groupby_sum_doubles. rewrite list_lookup_fmap.
  destruct (Pandas.sorted_unique _ !! i) as [k'|]; cbn.
  - split; [intros [= <- <-]; now split | intros [[= ->] ->]; reflexivity].
  - split; [discriminate | intros [H _]; discriminate].
Qed.

End RunningSumsOfDoubles.
(** ** Month labels *)

Section MonthLabels.

Lemma digit_compare (a b : nat) :
  Ascii_as_OT.compare (digit a) (digit b) = Nat.compare (a mod 10) (b mod 10).
Proof.
  unfold digit.
  pose proof (Nat.mod_upper_bound a 10 ltac:(lia)) as Ha.
  pose proof (Nat.mod_upper_bound b 10 ltac:(lia)) as Hb.
  generalize dependent (a mod 10). generalize dependent (b mod 10).
  intros y Hy x Hx.
  do 10 (destruct x as [|x];
         [do 10 (destruct y as [|y]; [reflexivity|]); lia|]).
  lia.
Qed.

Lemma strftime_ym_compare (d1 d2 : date) :
  timestamp_year d1 -> timestamp_year d2 ->
  String_as_OT.lt (strftime_ym d1) (strftime_ym d2) <-> chrono_lt d1 d2.
Proof.
  unfold timestamp_year, chrono_lt, String_as_OT.lt, strftime_ym.
  destruct d1 as [y1 m1 dd1], d2 as [y2 m2 dd2]. cbn [year month].
  intros [Hy1 Hm1] [Hy2 Hm2].
  cbn [String_as_OT.compare]. rewrite !digit_compare.
  change (Ascii_as_OT.compare "-" "-") with Eq. cbv iota.
  repeat match goal with
         | |- context [Nat.compare ?a ?b] =>
             destruct (Nat.compare_spec a b)
         end; split; intros Hgoal; try discriminate Hgoal; try reflexivity;
    first [ zify; Z.to_euclidean_division_equations; lia
          | exfalso; zify; Z.to_euclidean_division_equations; lia ].
Qed.

End MonthLabels.
(** ** Cumulative balance *)

Section CumulativeBalance.

Local Open Scope Q_scope.

Context {F : Type}.
Variable to_numeric : Q -> F.
Variable add : F -> F -> F.
Variable sum : list F -> F.

Local Abbreviation monthly_balance :=
  (Visualizer.monthly_balance to_numeric sum).
Local Abbreviation cumulative_balance :=
  (Visualizer.cumulative_balance to_numeric add sum).
Local Abbreviation rows_of m df :=
  (List.filter (Pandas.has_key Month m) df).

Lemma total_upto_perm (df df' : list FrameRow) (m : string) :
  Permutation df df' -> total_upto df m == total_upto df' m.
Proof. apply sum_where_perm. Qed.

Lemma cumulative_balance_keys (df_sorted : list FrameRow) :
  map fst (cumulative_balance df_sorted)
  = Pandas.sorted_unique (Pandas.present_keys Month df_sorted).
Proof.
  unfold Visualizer.cumulative_balance, Visualizer.monthly_balance.
  now rewrite cumsum_keys, groupby_sum_doubles_keys.
Qed.

(** The entries of the cumulative balance, position by position. *)
Lemma cumulative_balance_lookup (df_sorted : list FrameRow) (i : nat) (m : string)
  (v : F) :
  cumulative_balance df_sorted !! i = Some (m, v) ->
  exists x,
    monthly_balance df_sorted !! i = Some (m, x)
    /\ x = sum (map (Visualizer.Amount to_numeric) (rows_of m df_sorted))
    /\ v = match i with
           | O => x
           | S j => match cumulative_balance df_sorted !! j with
                    | Some (_, w) => add w x
                    | None => x
                    end
           end.
Proof.
  unfold Visualizer.cumulative_balance. intros H. destruct i as [|j].
  - rewrite cumsum_first in H. exists v. split; [exact H|]. split; [|reflexivity].
    now apply groupby_sum_doubles_lookup in H as [_ ->].
  - rewrite cumsum_next in H.
    destruct (Pandas.cumsum add _ !! j) as [[k w]|]; [|discriminate].
    destruct (Visualizer.monthly_balance _ _ _ !! S j) as [[k' x]|] eqn:Hx;
      [|discriminate].
    injection H as -> <-. exists x. split; [reflexivity|]. split; [|reflexivity].
    now apply groupby_sum_doubles_lookup in Hx as [_ ->].
Qed.

(** When no sum that is formed rounds, the entry of a month stands for the
    exact sum of the amounts of the rows up to that month. *)
Lemma cumulative_balance_exact (value : F -> Q) (df_sorted : list FrameRow) :
  (forall m x, In (m, x) (monthly_balance df_sorted) ->
     value x == Pandas.Qsum (map f_amount (rows_of m df_sorted))) ->
  (forall i m v m' x,
     cumulative_balance df_sorted !! i = Some (m, v) ->
     monthly_balance df_sorted !! S i = Some (m', x) ->
     value (add v x) == value v + value x) ->
  forall i m v,
    cumulative_balance df_sorted !! i = Some (m, v) ->
    value v == total_upto df_sorted m.
Proof.
  intros Hsum Hadd.
  set (keys := Pandas.sorted_unique (Pandas.present_keys Month df_sorted)).
  set (G := fun k => Pandas.Qsum (map f_amount (rows_of k df_sorted))).
  assert (Hrun : forall i m v,
            cumulative_balance df_sorted !! i = Some (m, v) ->
            keys !! i = Some m /\ value v == Pandas.Qsum (map G (take (S i) keys))).
  { induction i as [|j IH]; intros m v H.
    - destruct (cumulative_balance_lookup df_sorted 0 m v H) as (x & Hx & _ & ->).
      assert (Hin : In (m, x) (monthly_balance df_sorted)).
      { apply list_elem_of_In. eapply list_elem_of_lookup_2, Hx. }
      apply groupby_sum_doubles_lookup in Hx as [Hk _]. fold keys in Hk.
      split; [exact Hk|]. rewrite (Hsum m x Hin).
      destruct keys as [|k0 ks]; [discriminate|]. injection Hk as ->.
      change (take 1 (m :: ks)) with [m]. cbn [map].
      rewrite Qsum_cons, Qsum_nil. unfold G. ring.
    - destruct (cumulative_balance_lookup df_sorted (S j) m v H) as (x & Hx & _ & Hv).
      assert (Hin : In (m, x) (monthly_balance df_sorted)).
      { apply list_elem_of_In. eapply list_elem_of_lookup_2, Hx. }
      destruct (cumulative_balance df_sorted !! j) as [[m0 w]|] eqn:Hw.
      2:{ exfalso. apply lookup_ge_None in Hw.
          apply lookup_lt_Some in H. lia. }
      destruct (IH m0 w eq_refl) as [_ IHw]. subst v.
      rewrite (Hadd j m0 w m x Hw Hx), IHw, (Hsum m x Hin).
      apply groupby_sum_doubles_lookup in Hx as [Hk _]. fold keys in Hk.
      split; [exact Hk|].
      rewrite (take_S_r keys (S j) m Hk), map_app, Qsum_app.
      cbn [map]. rewrite Qsum_cons, Qsum_nil. unfold G. ring. }
  intros i m v H. destruct (Hrun i m v H) as [Hk Hv]. rewrite Hv.
  assert (Hsplit : keys = take i keys ++ m :: drop (S i) keys).
  { symmetry. apply take_drop_middle, Hk. }
  rewrite (take_S_r keys i m Hk).
  apply (groups_upto Month f_amount df_sorted (take i keys) (drop (S i) keys) m).
  exact Hsplit.
Qed.

(** C8, as amended: the cumulative balance has one entry per month of the
    data, in the order of the month labels, which is the order of the
    calendar.  The entry of a month is the entry of the month before plus
    the monthly balance of the month, a sum of doubles formed by pandas
    over the rows of the month in their sorted order.  It stands for the
    exact sum of the amounts of all rows up to that month when none of
    these sums rounds. *)
Theorem cumulative_balance_by_month (df df_sorted : list FrameRow) :
  Permutation df df_sorted ->
  let cb := cumulative_balance df_sorted in
  let mb := monthly_balance df_sorted in
  (forall m, In m (map fst cb) <-> exists r, In r df /\ Month r = Some m)
  /\ (forall i m v, cb !! i = Some (m, v) ->
        exists x,
          mb !! i = Some (m, x)
          /\ x = sum (map (Visualizer.Amount to_numeric) (rows_of m df_sorted))
          /\ v = match i with
                 | O => x
                 | S j => match cb !! j with
                          | Some (_, w) => add w x
                          | None => x
                          end
                 end)
  /\ (forall value : F -> Q,
        (forall m x, In (m, x) mb ->
           value x == Pandas.Qsum (map f_amount (rows_of m df_sorted))) ->
        (forall i m v m' x,
           cb !! i = Some (m, v) -> mb !! S i = Some (m', x) ->
           value (add v x) == value v + value x) ->
        forall i m v, cb !! i = Some (m, v) -> value v == total_upto df m)
  /\ StronglySorted month_lt (map fst cb)
  /\ (forall d1 d2, timestamp_year d1 -> timestamp_year d2 ->
        (month_lt (strftime_ym d1) (strftime_ym d2) <-> chrono_lt d1 d2)).
Proof.
  intros Hperm cb mb. subst cb mb.
  pose proof (cumulative_balance_keys df_sorted) as Hkeys.
  split; [|split; [|split; [|split]]].
  - intros m. rewrite Hkeys, sorted_unique_In, present_keys_In.
    split; intros (r & Hr & Hm); exists r; split; trivial.
    + eapply Permutation_in; [symmetry; exact Hperm | exact Hr].
    + eapply Permutation_in; [exact Hperm | exact Hr].
  - apply cumulative_balance_lookup.
  - intros value Hsum Hadd i m v H.
    rewrite (total_upto_perm df df_sorted m Hperm).
    exact (cumulative_balance_exact value df_sorted Hsum Hadd i m v H).
  - rewrite Hkeys. apply sorted_unique_sorted.
  - intros d1 d2. apply strftime_ym_compare.
Qed.

End CumulativeBalance.

Section CumulativeBalanceExamples.

Local Open Scope Q_scope.

Local Abbreviation cumulative_balance64 :=
  (Visualizer.cumulative_balance Double.to_numeric PrimFloat.add Double.sum).

(** Four rows with whole amounts over three months, in file order and
    sorted by date: no sum rounds, and the entry of January is the exact
    total up to January. *)
Lemma cumulative_balance_by_month_witness :
  map fst (cumulative_balance64 SampleFrame.df_sorted)
    = ["2024-12"; "2025-01"; "2025-02"]
  /\ exists v,
       cumulative_balance64 SampleFrame.df_sorted !! 1%nat = Some ("2025-01", v)
       /\ Double.value_or_zero v == 8812 # 1.
Proof.
  assert (Hperm : Permutation SampleFrame.df SampleFrame.df_sorted).
  { unfold SampleFrame.df, SampleFrame.df_sorted.
    apply Permutation_cons_app with (l1 := [SampleFrame.december_capital;
      SampleFrame.january_buy; SampleFrame.january_dividend]) (l2 := []).
    rewrite app_nil_r. apply perm_swap. }
  destruct (cumulative_balance_by_month Double.to_numeric PrimFloat.add Double.sum
              SampleFrame.df SampleFrame.df_sorted Hperm)
    as (_ & _ & Hexact & _ & _).
  split; [vm_compute; reflexivity|].
  eexists. split; [vm_compute; reflexivity|].
  rewrite (Hexact Double.value_or_zero) with (i := 1%nat) (m := "2025-01").
  - vm_compute. reflexivity.
  - intros m x Hin. vm_compute in Hin.
    destruct Hin as [[= <- <-]|[[= <- <-]|[[= <- <-]|[]]]]; vm_compute; reflexivity.
  - intros [|[|[|i]]] m v m' x Hcb Hmb; vm_compute in Hcb, Hmb;
      try discriminate Hmb; injection Hcb as <- <-; injection Hmb as <- <-;
      vm_compute; reflexivity.
  - vm_compute. reflexivity.
Defined.

(** C8 as stated fails: with 0.1 and 0.2 in January and -0.3 in February
    the entry of February is 2^-54, while the amounts up to February add
    up to zero, and the doubles that hold them to 2^-55. *)
Lemma cumulative_balance_rounds :
  let cb := cumulative_balance64 SampleTenths.df in
  map fst cb = ["2025-01"; "2025-02"]
  /\ exists v q,
       Pandas.loc "2025-02" cb = Some v
       /\ Double.value v = Some q
       /\ q == 1 # 18014398509481984
       /\ total_upto SampleTenths.df "2025-02" == 0
       /\ Pandas.Qsum (map (fun r => Double.value_or_zero
                                       (Double.to_numeric (f_amount r)))
                           SampleTenths.df)
          == 1 # 36028797018963968
       /\ ~ q == total_upto SampleTenths.df "2025-02".
Proof.
  split; [vm_compute; reflexivity|].
  eexists. eexists. split; [vm_compute; reflexivity|].
  split; [vm_compute; reflexivity|].
  repeat split; try (vm_compute; reflexivity).
  vm_compute. discriminate.
Qed.

End CumulativeBalanceExamples.
(** ** The monthly matrix *)

Section MonthlyMatrix.

Local Open Scope Q_scope.



Context {R : Type}.
Variables index columns : R -> option string.
Variable val : R -> Q.

Local Abbreviation kept df := (List.filter (Pandas.both_keys index columns) df).



End MonthlyMatrix.
Section MonthlyMatrixClaims.

Local Open Scope Q_scope.








End MonthlyMatrixClaims.
(** * Further properties *)

(** ** Stock symbols *)

Section StockSymbols.

Import StockSymbol.

Lemma span_symbol_spec (s run rest : string) :
  span_symbol s = (run, rest) ->
  s = (run ++ rest)%string
  /\ all_symbol_chars run = true
  /\ (forall c r, rest = String c r -> is_symbol_char c = false).
Proof.
  revert run rest. induction s as [|c s IH]; intros run rest; cbn [span_symbol].
  - intros [= <- <-]. repeat split. discriminate.
  - destruct (is_symbol_char c) eqn:Hc.
    + destruct (span_symbol s) as [run' rest'] eqn:Hs. intros [= <- <-].
      destruct (IH run' rest' eq_refl) as (-> & Hall & Hrest).
      rewrite append_cons. cbn [all_symbol_chars]. rewrite Hc, Hall. repeat split.
      exact Hrest.
    + intros [= <- <-]. rewrite append_nil. repeat split.
      intros c' r [= <- <-]. exact Hc.
Qed.

Lemma span_symbol_app (symbol rest : string) :
  all_symbol_chars symbol = true ->
  (forall c r, rest = String c r -> is_symbol_char c = false) ->
  span_symbol (symbol ++ rest) = (symbol, rest).
Proof.
  intros Hall Hrest. induction symbol as [|c symbol IH].
  - rewrite append_nil. destruct rest as [|c r]; [reflexivity|].
    cbn [span_symbol]. now rewrite (Hrest c r eq_refl).
  - cbn [all_symbol_chars] in Hall. apply andb_true_iff in Hall as [Hc Hall].
    rewrite append_cons. cbn [span_symbol]. now rewrite Hc, (IH Hall).
Qed.

Lemma match_here_iff (s symbol : string) :
  match_here s = Some symbol <-> symbol_at_start symbol s.
Proof.
  unfold symbol_at_start. split.
  - destruct s as [|c s]; [discriminate|]. cbn [match_here].
    destruct (Ascii.eqb c "(") eqn:Hc.
    2:{ intros H. exfalso. revert H.
        destruct c as [[] [] [] [] [] [] [] []]; try discriminate Hc; discriminate. }
    apply Ascii.eqb_eq in Hc. subst c.
    destruct (span_symbol s) as [run rest] eqn:Hs.
    destruct (span_symbol_spec s run rest Hs) as (-> & Hall & _).
    destruct run as [|c run]; [discriminate|].
    destruct rest as [|c' rest]; [discriminate|].
    destruct (Ascii.eqb c' ")") eqn:Hc'.
    2:{ intros H. exfalso. revert H.
        destruct c' as [[] [] [] [] [] [] [] []]; try discriminate Hc'; discriminate. }
    apply Ascii.eqb_eq in Hc'. subst c'. intros [= <-].
    split; [discriminate|]. split; [exact Hall|]. exists rest.
    now rewrite !append_cons.
  - intros (Hne & Hall & post & ->). rewrite append_cons. cbn [match_here].
    rewrite span_symbol_app; trivial.
    + destruct symbol; [congruence | reflexivity].
    + intros c r [= <- <-]. reflexivity.
Qed.

Lemma symbol_at_start_unique (s symbol symbol' : string) :
  symbol_at_start symbol s -> symbol_at_start symbol' s -> symbol = symbol'.
Proof.
  rewrite <- !match_here_iff. congruence.
Qed.

Lemma extract_none (description : string) :
  extract_stock_symbol description = None
  <-> forall pre suf symbol,
        description = (pre ++ suf)%string -> ~ symbol_at_start symbol suf.
Proof.
  induction description as [|c d IH]; cbn [extract_stock_symbol].
  - split; [|reflexivity]. intros _ pre suf symbol Heq (Hne & _ & post & ->).
    destruct pre; rewrite ?append_nil, ?append_cons in Heq; discriminate.
  - destruct (match_here (String c d)) as [symbol|] eqn:Hm.
    + split; [discriminate|]. intros H. exfalso.
      apply (H EmptyString (String c d) symbol); [reflexivity|].
      now apply match_here_iff.
    + rewrite IH. split.
      * intros H [|c' pre] suf symbol Heq Hat.
        -- rewrite append_nil in Heq. subst suf.
           apply match_here_iff in Hat. congruence.
        -- rewrite append_cons in Heq. injection Heq as <- Heq.
           now apply (H pre suf symbol).
      * intros H pre suf symbol Heq. apply (H (String c pre) suf symbol).
        rewrite append_cons. now rewrite Heq.
Qed.

Lemma extract_some (description symbol : string) :
  extract_stock_symbol description = Some symbol
  <-> exists pre suf,
        description = (pre ++ suf)%string
        /\ symbol_at_start symbol suf
        /\ forall pre2 suf2 symbol2,
             description = (pre2 ++ suf2)%string ->
             symbol_at_start symbol2 suf2 ->
             (String.length pre <= String.length pre2)%nat.
Proof.
  revert symbol. induction description as [|c d IH]; intros symbol;
    cbn [extract_stock_symbol].
  - split; [discriminate|]. intros (pre & suf & Heq & (Hne & _ & post & ->) & _).
    destruct pre; rewrite ?append_nil, ?append_cons in Heq; discriminate.
  - destruct (match_here (String c d)) as [symbol0|] eqn:Hm.
    + apply match_here_iff in Hm. split.
      * intros [= <-]. exists EmptyString, (String c d).
        split; [reflexivity|]. split; [exact Hm|]. intros; cbn; lia.
      * intros (pre & suf & Heq & Hat & Hleft).
        specialize (Hleft EmptyString (String c d) symbol0 eq_refl Hm).
        destruct pre; [|cbn in Hleft; lia].
        rewrite append_nil in Heq. subst suf. f_equal.
        eapply symbol_at_start_unique; eassumption.
    + rewrite IH. split.
      * intros (pre & suf & -> & Hat & Hleft). exists (String c pre), suf.
        split; [now rewrite append_cons|]. split; [exact Hat|].
        intros [|c2 pre2] suf2 symbol2 Heq Hat2.
        -- rewrite append_nil in Heq. subst suf2.
           apply match_here_iff in Hat2. congruence.
        -- rewrite append_cons in Heq. injection Heq as <- Heq.
           cbn. specialize (Hleft pre2 suf2 symbol2 Heq Hat2). lia.
      * intros ([|c' pre] & suf & Heq & Hat & Hleft).
        -- rewrite append_nil in Heq. subst suf.
           apply match_here_iff in Hat. congruence.
        -- rewrite append_cons in Heq. injection Heq as <- Heq.
           exists pre, suf. split; [exact Heq|]. split; [exact Hat|].
           intros pre2 suf2 symbol2 Heq2 Hat2.
           specialize (Hleft (String c pre2) suf2 symbol2).
           rewrite append_cons, Heq2 in Hleft. specialize (Hleft eq_refl Hat2).
           cbn in Hleft. lia.
Qed.

(** X1: the stock symbol of a description is the symbol of its leftmost
    parenthesized run of capital letters and dots, and there is none
    exactly when the description has no such run. *)
Theorem extract_stock_symbol_leftmost (description : string) :
  (forall symbol,
      extract_stock_symbol description = Some symbol
      <-> exists pre suf,
            description = (pre ++ suf)%string
            /\ symbol_at_start symbol suf
            /\ forall pre2 suf2 symbol2,
                 description = (pre2 ++ suf2)%string ->
                 symbol_at_start symbol2 suf2 ->
                 (String.length pre <= String.length pre2)%nat)
  /\ (extract_stock_symbol description = None
      <-> forall pre suf symbol,
            description = (pre ++ suf)%string -> ~ symbol_at_start symbol suf).
Proof.
  split; [intros symbol; apply extract_some | apply extract_none].
Qed.

End StockSymbols.
(** ** Sign-awareness of [identify_transaction_type] *)

Section TransactionTypeSigns.

Local Open Scope Q_scope.

Lemma Qltb_lt (a b : Q) : Visualizer.Qltb a b = true <-> a < b.
Proof.
  unfold Visualizer.Qltb. rewrite negb_true_iff. split.
  - intros H. apply Qnot_le_lt. intros Hle. apply Qle_bool_iff in Hle. congruence.
  - intros H. destruct (Qle_bool b a) eqn:E; [|reflexivity].
    apply Qle_bool_iff in E. exfalso. eapply Qlt_not_le; eassumption.
Qed.

Lemma any_in_occurs (words : list string) (desc : string) :
  Visualizer.any_in words desc = true
  <-> exists word, In word words /\ occurs_in word desc.
Proof.
  unfold Visualizer.any_in. rewrite existsb_exists.
  split; intros (w & Hw & H); exists w; split; trivial; now apply contains_occurs.
Qed.

(** X2: the label Buy needs a negative amount and a purchase word, Sell a
    positive amount and a sale word, Fee a negative amount; a row with
    amount zero is never a Buy, a Sell or a Fee. *)
Theorem identify_transaction_type_signs (Description : string) (Amount : Q) :
  let t := Visualizer.identify_transaction_type Description Amount in
  let desc := PyStr.lower Description in
  (t = "Buy" ->
     Amount < 0
     /\ exists word,
          In word ["purchase"; "accumulate"; "long position"; "acquisition"; "investment in"]
          /\ occurs_in word desc)
  /\ (t = "Sell" ->
     0 < Amount
     /\ exists word,
          In word ["sell"; "liquidate"; "close position"; "divestment"; "profit-taking"]
          /\ occurs_in word desc)
  /\ (t = "Fee" -> Amount < 0 /\ ~ occurs_in "dividend" desc)
  /\ (Amount == 0 -> t = "Initial Capital" \/ t = "Dividend" \/ t = "Other").
Proof.
  intros t desc. subst t desc. unfold Visualizer.identify_transaction_type.
  destruct (PyStr.contains "initial fund capital" _) eqn:Hcap.
  { repeat split; try discriminate. intros _. now left. }
  destruct (Visualizer.Qltb Amount 0) eqn:Hneg; cbn [andb];
    destruct (Visualizer.Qltb 0 Amount) eqn:Hpos; cbn [andb];
    rewrite ?Qltb_lt in *;
    repeat match goal with
           | |- context [if Visualizer.any_in ?ws ?d then _ else _] =>
               let E := fresh "Hany" in
               destruct (Visualizer.any_in ws d) eqn:E;
               [apply any_in_occurs in E|]
           | |- context [if PyStr.contains "dividend" ?d then _ else _] =>
               let E := fresh "Hdiv" in
               destruct (PyStr.contains "dividend" d) eqn:E;
               [|apply contains_false in E]
           end;
    (split; [|split; [|split]]);
    try (intros Heq; discriminate Heq);
    try (intros _; split; assumption);
    try (intros H0; first
           [ exfalso; rewrite H0 in Hneg; now apply Qlt_irrefl in Hneg
           | exfalso; rewrite H0 in Hpos; now apply Qlt_irrefl in Hpos
           | tauto ]).
  all: exfalso; eapply Qlt_irrefl, Qlt_trans; eassumption.
Qed.

(** A refund: a purchase word with a positive amount is no Buy. *)
Lemma identify_transaction_type_signs_witness :
  Visualizer.identify_transaction_type "Purchase refund (AAPL)" (30 # 1) <> "Buy".
Proof.
  intros H.
  destruct (identify_transaction_type_signs "Purchase refund (AAPL)" (30 # 1))
    as (Hbuy & _).
  destruct (Hbuy H) as [Hneg _]. vm_compute in Hneg. discriminate.
Defined.

End TransactionTypeSigns.
(** ** Keywords through the Categories worksheet *)

Section KeywordRoundTrip.

Lemma comma_free_cons (c : ascii) (k : string) :
  comma_free (String c k) -> c <> ","%char /\ comma_free k.
Proof.
  unfold comma_free. cbn [PyStr.contains]. intros H.
  apply orb_false_iff in H as [Hp Hk]. split; [|exact Hk].
  intros ->. cbn in Hp. destruct k; discriminate.
Qed.

Lemma split_comma_free (k : string) :
  comma_free k -> PyStr.split "," k = [k].
Proof.
  induction k as [|c k IH]; [reflexivity|]. intros H.
  apply comma_free_cons in H as [Hc Hk]. cbn [PyStr.split].
  destruct (Ascii.eqb c ",") eqn:E; [apply Ascii.eqb_eq in E; contradiction|].
  now rewrite (IH Hk).
Qed.

Lemma split_comma_free_app (k rest : string) :
  comma_free k ->
  PyStr.split "," (k ++ String "," rest) = k :: PyStr.split "," rest.
Proof.
  induction k as [|c k IH]; intros H.
  - rewrite append_nil. reflexivity.
  - apply comma_free_cons in H as [Hc Hk]. rewrite append_cons. cbn [PyStr.split].
    destruct (Ascii.eqb c ",") eqn:E; [apply Ascii.eqb_eq in E; contradiction|].
    now rewrite (IH Hk).
Qed.

Lemma join_cons (k k' : string) (ks : list string) :
  PyStr.join ", " (k :: k' :: ks)
  = (k ++ String "," (String " " (PyStr.join ", " (k' :: ks))))%string.
Proof. reflexivity. Qed.

Lemma split_join (k : string) (ks : list string) :
  Forall comma_free (k :: ks) ->
  PyStr.split "," (PyStr.join ", " (k :: ks))
  = k :: map (String " ") ks.
Proof.
  revert k. induction ks as [|k' ks IH]; intros k H.
  - apply Forall_inv in H. now apply split_comma_free.
  - rewrite join_cons. pose proof (Forall_inv H) as Hk.
    apply Forall_inv_tail in H.
    rewrite (split_comma_free_app _ _ Hk). f_equal.
    change (String " " (PyStr.join ", " (k' :: ks)))
      with (String " " EmptyString ++ PyStr.join ", " (k' :: ks))%string.
    destruct ks as [|k'' ks].
    + cbn [PyStr.join map]. rewrite append_cons, append_nil.
      apply split_comma_free. unfold comma_free in *.
      apply Forall_inv in H. cbn [PyStr.contains]. rewrite H.
      destruct k'; reflexivity.
    + specialize (IH k' H). rewrite join_cons in IH |- *.
      rewrite append_cons, append_nil.
      change (String " " (k' ++ String "," (String " " (PyStr.join ", " (k'' :: ks)))))
        with (String " " k' ++ String "," (String " " (PyStr.join ", " (k'' :: ks))))%string.
      rewrite split_comma_free_app.
      * rewrite (split_comma_free_app _ _ (Forall_inv H)) in IH.
        injection IH as IH. cbn [map]. f_equal. exact IH.
      * unfold comma_free in *. apply Forall_inv in H.
        cbn [PyStr.contains]. rewrite H. destruct k'; reflexivity.
Qed.

Lemma strip_leading_space (k : string) :
  PyStr.strip (String " " k) = PyStr.strip k.
Proof. reflexivity. Qed.

Lemma keywords_of_joined (k : string) (ks : list string) :
  Forall comma_free (k :: ks) ->
  Tracker.keywords_of_cell (PyStr.join ", " (k :: ks))
  = map (fun k => PyStr.lower (PyStr.strip k)) (k :: ks).
Proof.
  intros H. unfold Tracker.keywords_of_cell. rewrite (split_join k ks H).
  cbn [map]. f_equal. rewrite map_map. apply map_ext.
  intros k'. now rewrite strip_leading_space.
Qed.

(** X3: what [create_financial_spreadsheet] writes with [", ".join] is what
    [categorize_transaction] reads back with [split(',')], [strip] and
    [lower]: the keywords, stripped and lower-cased, as long as no keyword
    contains a comma.  An entry without keywords comes back as the single
    empty item. *)
Theorem keywords_round_trip (keywords : list string) :
  Forall comma_free keywords ->
  Tracker.keywords_of_cell (PyStr.join ", " keywords)
  = match keywords with
    | [] => [""]
    | _ => map (fun k => PyStr.lower (PyStr.strip k)) keywords
    end.
Proof.
  intros H. destruct keywords as [|k ks].
  - reflexivity.
  - now apply keywords_of_joined.
Qed.

Lemma keywords_round_trip_witness :
  Tracker.keywords_of_cell (PyStr.join ", " ["Management fee"; "audit"; " Research "])
  = ["management fee"; "audit"; "research"].
Proof.
  rewrite keywords_round_trip; [reflexivity|].
  repeat constructor.
Defined.

End KeywordRoundTrip.
Section SheetAndDict.

Lemma truthy_lower (k : string) : PyStr.truthy (PyStr.lower k) = PyStr.truthy k.
Proof. now destruct k. Qed.

Lemma row_hit_agrees (d m : string) (keywords : list string) :
  Forall clean_keyword keywords ->
  existsb (Tracker.sheet_keyword_hit d m)
          (Tracker.keywords_of_cell (PyStr.join ", " keywords))
  = existsb (Tracker.dict_keyword_hit d m) keywords.
Proof.
  intros H. destruct keywords as [|k ks]; [reflexivity|].
  rewrite keywords_of_joined.
  2:{ eapply Forall_impl; [exact H|]. now intros k0 [Hk _]. }
  induction H as [|k' ks' (_ & Hs & Hne) _ IH]; [reflexivity|].
  cbn [map existsb]. rewrite IH. f_equal.
  unfold Tracker.sheet_keyword_hit, Tracker.dict_keyword_hit.
  rewrite Hs, truthy_lower. destruct k'; [congruence | reflexivity].
Qed.

Lemma scan_agrees (cats : list (string * list string)) (d m : string) :
  Forall (fun entry => Forall clean_keyword (snd entry)) cats ->
  Tracker.scan_sheet (map categories_row cats) d m = Tracker.scan_dict cats d m.
Proof.
  induction 1 as [|[c kws] cats Hk _ IH]; [reflexivity|].
  cbn [map categories_row Tracker.scan_sheet Tracker.scan_dict fst snd].
  cbn [snd] in Hk. now rewrite (row_hit_agrees d m kws Hk), IH.
Qed.

Lemma categories_clean :
  Forall (fun entry => Forall clean_keyword (snd entry)) Tracker.categories.
Proof.
  unfold Tracker.categories.
  repeat match goal with
         | |- Forall _ _ => constructor; cbn [snd]
         end.
  all: split; [reflexivity | split; [reflexivity | discriminate]].
Qed.

Lemma default_sheet_scan (d m : string) :
  Tracker.scan_sheet (skipn 1 Tracker.default_categories_sheet) d m
  = Tracker.scan_dict Tracker.categories d m.
Proof.
  unfold Tracker.default_categories_sheet. cbn [skipn].
  change (map (fun e : string * list string => [fst e; PyStr.join ", " (snd e)])
              Tracker.categories)
    with (map categories_row Tracker.categories).
  apply scan_agrees, categories_clean.
Qed.

(** X4: the Categories worksheet as [create_financial_spreadsheet] fills it
    classifies every transaction as the built-in table does, so the
    [except] branch of [categorize_transaction] changes no result while
    the worksheet is in its initial state. *)
Theorem default_sheet_agrees_with_builtin (description merchant : string) :
  Tracker.categorize_transaction (Some Tracker.default_categories_sheet)
    description merchant
  = Tracker.categorize_transaction None description merchant.
Proof.
  unfold Tracker.categorize_transaction.
  now rewrite default_sheet_scan.
Qed.

(** X5: with the built-in table (and with the worksheet in its initial
    state) a description that mentions income is a Buy, a Sell or a
    Dividend, because "income" is a Dividend keyword; the category Income
    is assigned only to descriptions that mention deposit or payroll and do
    not mention income. *)
Theorem income_needs_deposit_or_payroll (description merchant : string) :
  let d := PyStr.lower description in
  let category := Tracker.categorize_transaction
                    (Some Tracker.default_categories_sheet) description merchant in
  (occurs_in "income" d ->
     category = "Buy" \/ category = "Sell" \/ category = "Dividend")
  /\ (category = "Income" ->
     ~ occurs_in "income" d /\ (occurs_in "deposit" d \/ occurs_in "payroll" d)).
Proof.
  intros d category. subst category d.
  assert (E : Tracker.categorize_transaction (Some Tracker.default_categories_sheet)
                description merchant
              = Tracker.categorize_transaction None description merchant).
  { unfold Tracker.categorize_transaction. now rewrite default_sheet_scan. }
  rewrite E. clear E.
  assert (Hinc : occurs_in "income" (PyStr.lower description) ->
            Tracker.categorize_transaction None description merchant = "Buy"
            \/ Tracker.categorize_transaction None description merchant = "Sell"
            \/ Tracker.categorize_transaction None description merchant = "Dividend").
  { intros Hocc. apply contains_occurs in Hocc.
    unfold Tracker.categorize_transaction, Tracker.categories.
    cbn [Tracker.scan_dict].
    destruct (existsb _ _); [now left|].
    destruct (existsb _ _); [right; now left|].
    replace (existsb _ ["Dividend"; "payout"; "income"]) with true;
      [right; now right|].
    symmetry. apply existsb_exists. exists "income". split; [cbn; tauto|].
    unfold Tracker.dict_keyword_hit.
    change (PyStr.lower "income") with "income". now rewrite Hocc. }
  split; [exact Hinc|].
  intros Hcat. assert (Hno : ~ occurs_in "income" (PyStr.lower description)).
  { intros Hocc. destruct (Hinc Hocc) as [H|[H|H]]; rewrite H in Hcat; discriminate. }
  split; [exact Hno|].
  unfold Tracker.categorize_transaction in Hcat.
  destruct (Tracker.scan_dict _ _ _) as [c|] eqn:Hs.
  - apply scan_dict_some in Hs. subst c. cbn in Hs.
    repeat (destruct Hs as [Hs|Hs]; [discriminate Hs|]). destruct Hs.
  - destruct (Tracker.mentions_income _) eqn:Hm; [|discriminate].
    apply mentions_income_iff in Hm. rewrite lower_idem in Hm.
    destruct Hm as [Hm|Hm]; [contradiction | exact Hm].
Qed.

End SheetAndDict.
(** ** Edge cases of the batches *)

Section BatchEdges.

Context {A : Type}.

Lemma batches_of_single (size : nat) (l : list A) :
  l <> [] -> (length l <= size)%nat -> batches_of size l = [l].
Proof.
  intros Hne Hlen. rewrite batches_of_map.
  assert (Hpos : (0 < length l)%nat) by (destruct l; [congruence | cbn; lia]).
  replace ((length l + size - 1) / size)%nat with 1%nat.
  - cbn [seq map]. rewrite Nat.mul_0_l. cbn [drop]. now rewrite take_ge.
  - apply (Nat.div_unique _ _ 1 (length l - 1)); lia.
Qed.

Lemma batches_of_cover (size : nat) (l : list A) :
  (0 < size)%nat -> (length l <= length (batches_of size l) * size)%nat.
Proof.
  intros Hs. rewrite batches_of_length.
  now destruct (range_count_spec (length l) size Hs).
Qed.

(** X6: for a positive batch size an empty list gives no group, a list no
    longer than the batch size gives the list itself as the only group,
    and the number of groups is the length divided by the batch size,
    rounded up. *)
Theorem batches_of_edges (size : nat) (l : list A) :
  (0 < size)%nat ->
  (l = [] -> batches_of size l = [])
  /\ (l <> [] -> (length l <= size)%nat -> batches_of size l = [l])
  /\ (length (batches_of size l) * size < length l + size)%nat
  /\ (length l <= length (batches_of size l) * size)%nat.
Proof.
  intros Hs. pose proof (range_count_spec (length l) size Hs) as [Hle Hlt].
  rewrite batches_of_length. split; [|split; [|split]].
  - intros ->. rewrite batches_of_map. cbn [length].
    replace ((0 + size - 1) / size)%nat with 0%nat; [reflexivity|].
    symmetry. apply Nat.div_small. lia.
  - intros Hne Hlen. now apply batches_of_single.
  - destruct ((length l + size - 1) / size)%nat as [|c] eqn:E; [lia|].
    assert (Hc : ~ (c * size < length l)%nat -> False).
    { intros Hn. apply Hn. apply Hlt. lia. }
    destruct (Nat.lt_ge_cases (c * size) (length l)); [lia|].
    exfalso. apply Hc. lia.
  - exact Hle.
Qed.

End BatchEdges.

Lemma batches_of_edges_witness :
  batches_of 10 [1; 2; 3]%nat = [[1; 2; 3]%nat].
Proof.
  apply (batches_of_edges 10 [1; 2; 3]%nat); [lia | discriminate | cbn; lia].
Defined.

(** ** What an import leaves in the worksheet *)

Section ImportInvariants.

Variable float : string -> option Q.
Variable strptime : string -> option string.
Variable sheet : option (list (list string)).

Lemma row_id_nonempty (now : nat -> N) (id : string) (n k : nat) :
  Tracker.row_id now id n k <> "".
Proof.
  unfold Tracker.row_id. destruct id as [|c id]; cbn [PyStr.truthy].
  - rewrite append_cons. discriminate.
  - discriminate.
Qed.

Lemma import_loop_appends (now : nat -> N) (existing : list string)
  (transactions : list (gmap string string)) (k : nat) (ws : list SheetRow) (n : nat) :
  exists rows,
    fst (Tracker.import_loop float strptime now sheet existing transactions k ws n)
      = ws ++ rows
    /\ (length rows <= length (Importer.new_transactions existing transactions))%nat
    /\ Forall (fun row => r_id row <> "") rows
    /\ forall n',
         snd (Tracker.import_loop float strptime now sheet existing transactions k ws n)
           = Some n' ->
         n' = (n + length rows)%nat
         /\ length rows = length (Importer.new_transactions existing transactions).
Proof.
  revert k ws n. induction transactions as [|t txs IH]; intros k ws n.
  - exists []. cbn [Tracker.import_loop fst snd length]. rewrite app_nil_r.
    split; [reflexivity|]. split; [cbn; lia|]. split; [constructor|].
    intros n' [= <-]. cbn. lia.
  - cbn [Tracker.import_loop Importer.new_transactions List.filter].
    fold (Importer.new_transactions existing txs).
    destruct (py_in (get t "TransactionID" "") existing) eqn:Hdup; cbn [negb].
    + apply IH.
    + destruct (Tracker.parse_amount float t) as [a|].
      * match goal with
        | |- context [Tracker.import_loop _ _ _ _ existing txs (S k) (ws ++ [?r]) (S n)] =>
            destruct (IH (S k) (ws ++ [r]) (S n)) as (rows & Hws & Hlen & Hids & Hret);
            exists (r :: rows)
        end.
        split; [rewrite Hws, <- app_assoc; reflexivity|].
        split; [cbn [length]; lia|].
        split; [constructor; [apply row_id_nonempty | exact Hids]|].
        intros n' Hn'. destruct (Hret n' Hn') as [-> Hl]. cbn [length]. lia.
      * exists []. cbn [fst snd length]. rewrite app_nil_r.
        split; [reflexivity|]. split; [lia|]. split; [constructor|].
        intros n' Hn'. discriminate Hn'.
Qed.

(** X7: [import_csv_transactions] only appends.  The rows that were in
    the worksheet stay as they are, at most one row is added per record
    whose id is not among the ids that were read, every added row has a
    non-empty id, and the value returned is the number of added rows
    unless the error branch ran, in which case it is 0 whatever was added.
    When the id column cannot be read no id is known: every record gets a
    row, also one whose id is in the column. *)
Theorem import_csv_transactions_appends (now : nat -> N)
  (col_values_ok dashboard_ok : bool)
  (ws : list SheetRow) (transactions : list (gmap string string)) :
  let r := Tracker.import_csv_transactions float strptime now sheet col_values_ok
             dashboard_ok ws transactions in
  let new := Importer.new_transactions (existing_ids col_values_ok ws) transactions in
  exists rows,
    Tracker.worksheet_after r = ws ++ rows
    /\ (length rows <= length new)%nat
    /\ Forall (fun row => r_id row <> "") rows
    /\ (Tracker.error_printed r = false ->
        Tracker.return_value r = length rows /\ length rows = length new)
    /\ (Tracker.error_printed r = true -> Tracker.return_value r = 0%nat)
    /\ (col_values_ok = false -> new = transactions).
Proof.
  intros r new. subst r new. unfold Tracker.import_csv_transactions.
  destruct (import_loop_appends now (existing_ids col_values_ok ws) transactions 0 ws 0)
    as (rows & Hws & Hlen & Hids & Hret).
  assert (Hall : col_values_ok = false ->
                 Importer.new_transactions (existing_ids col_values_ok ws) transactions
                 = transactions).
  { intros ->. cbn [existing_ids]. unfold Importer.new_transactions.
    clear. induction transactions as [|t txs IH]; [reflexivity|].
    cbn [List.filter]. unfold py_in at 1. cbn [existsb negb]. now rewrite IH. }
  destruct (Tracker.import_loop _ _ _ _ _ _ _ _ _) as [ws' [n'|]];
    cbn [fst snd] in *; subst ws'; exists rows.
  - destruct (Hret n' eq_refl) as [-> Hl].
    destruct ((0 <? 0 + length rows)%nat && negb dashboard_ok);
      cbn; repeat split; trivial; discriminate.
  - cbn. repeat split; trivial; discriminate.
Qed.

Lemma batch_loop_commits (now : nat -> nat -> N) (append_ok : nat -> bool)
  (delay : Q) (total : nat) (batches : list (list (gmap string string))) (i : nat)
  (ws : list SheetRow) (imported : nat) :
  let r := Importer.batch_loop float strptime now sheet append_ok delay total i
             batches ws imported in
  Importer.worksheet_after r = ws ++ concat (written (Importer.trace r))
  /\ Importer.total_imported r
     = (imported + length (concat (written (Importer.trace r))))%nat.
Proof.
  revert i ws imported. induction batches as [|b batches IH]; intros i ws imported.
  - cbn. rewrite app_nil_r. split; [reflexivity | lia].
  - cbn [Importer.batch_loop].
    destruct (Importer.prepare_rows _ _ _ _ _ _ b) as [[|row rows]|].
    + specialize (IH (S i) ws imported). cbv zeta in IH. destruct IH as [Hws Hn].
      cbn [Importer.worksheet_after Importer.total_imported Importer.trace].
      rewrite written_app.
      destruct (pause_after_trace delay total i) as (_ & -> & _).
      split; assumption.
    + destruct (append_ok i).
      * specialize (IH (S i) (ws ++ row :: rows) (imported + length (row :: rows))%nat).
        cbv zeta in IH. destruct IH as [Hws Hn].
        cbn [Importer.worksheet_after Importer.total_imported Importer.trace].
        autorewrite with trace.
        destruct (pause_after_trace delay total i) as (_ & -> & _).
        cbn [app concat]. rewrite Hws, Hn, <- app_assoc.
        split; [reflexivity|]. cbn [length]. rewrite !length_app. cbn [length]. lia.
      * specialize (IH (S i) ws imported). cbv zeta in IH. destruct IH as [Hws Hn].
        cbn [Importer.worksheet_after Importer.total_imported Importer.trace].
        autorewrite with trace. split; assumption.
    + cbn. rewrite app_nil_r. split; [reflexivity | lia].
Qed.

(** X8: [import_with_batching] commits group by group and never rolls
    back: whatever happens later in the run, the worksheet afterwards is
    the worksheet before followed by the rows of the write calls that
    returned, in order, and [total_imported] counts exactly these rows. *)
Theorem import_with_batching_commits (now : nat -> nat -> N)
  (col_values_ok : bool) (append_ok : nat -> bool) (batch_size : nat) (delay : Q)
  (ws : list SheetRow) (transactions : list (gmap string string)) :
  let r := Importer.import_with_batching float strptime now sheet col_values_ok
             append_ok batch_size delay ws transactions in
  Importer.worksheet_after r = ws ++ concat (written (Importer.trace r))
  /\ Importer.total_imported r = length (concat (written (Importer.trace r))).
Proof.
  intros r. subst r. unfold Importer.import_with_batching.
  destruct (Importer.new_transactions _ _) as [|t new].
  { cbn. now rewrite app_nil_r. }
  destruct batch_size as [|n].
  { cbn. now rewrite app_nil_r. }
  apply (batch_loop_commits now append_ok delay).
Qed.

End ImportInvariants.
Section WithinBatchDuplicates.

Variable float : string -> option Q.
Variable strptime : string -> option string.
Variable sheet : option (list (list string)).

Lemma py_in_false (x : string) (xs : list string) : py_in x xs = false <-> ~ In x xs.
Proof. rewrite <- py_in_In. destruct (py_in x xs); split; congruence. Qed.

Lemma batch_row_id_real (now : nat -> nat -> N) (t : gmap string string) (i j : nat) :
  has_real_id t -> Importer.batch_row_id now t i j = lookup_id t.
Proof.
  intros H. unfold Importer.batch_row_id. now rewrite (real_id_lookup t H).
Qed.

(** X9: the duplicate filter looks at the id column as it was when the run
    started.  A record whose id is new is therefore added as often as it
    occurs in the batch: two occurrences give two rows with the same id,
    in both import functions. *)
Theorem duplicates_within_batch_are_added (t : gmap string string) (ws : list SheetRow) :
  ~ In (lookup_id t) (col_values_6 ws) ->
  has_real_id t ->
  is_Some (Tracker.parse_amount float t) ->
  (forall now col_values_ok dashboard_ok,
      let r := Tracker.import_csv_transactions float strptime now sheet col_values_ok
                 dashboard_ok ws [t; t] in
      map r_id (Tracker.worksheet_after r)
      = col_values_6 ws ++ [lookup_id t; lookup_id t])
  /\ (forall now col_values_ok append_ok batch_size delay,
      (0 < batch_size)%nat ->
      (forall k, append_ok k = true) ->
      let r := Importer.import_with_batching float strptime now sheet col_values_ok
                 append_ok batch_size delay ws [t; t] in
      map r_id (Importer.worksheet_after r)
      = col_values_6 ws ++ [lookup_id t; lookup_id t]).
Proof.
  intros Hnew Hreal [a Ha].
  assert (Hnew' : forall col_values_ok,
            py_in (get t "TransactionID" "") (existing_ids col_values_ok ws) = false).
  { intros [|]; [now apply py_in_false in Hnew | reflexivity]. }
  split.
  - intros now col_values_ok dashboard_ok r. subst r.
    unfold Tracker.import_csv_transactions. cbn [Tracker.import_loop].
    rewrite Hnew', Ha.
    destruct ((0 <? 2)%nat && negb dashboard_ok);
      cbn [Tracker.worksheet_after]; unfold col_values_6;
      rewrite <- app_assoc, map_app; cbn [map app r_id];
      fold (lookup_id t); now rewrite !row_id_real.
  - intros now col_values_ok append_ok batch_size delay Hs Hok r. subst r.
    unfold Importer.import_with_batching, Importer.new_transactions.
    cbn [List.filter]. rewrite Hnew'. cbn [negb].
    destruct batch_size as [|[|n]]; [lia | |].
    + change (batches_of 1 [t; t]) with [[t]; [t]].
      cbn [Importer.batch_loop Importer.prepare_rows length]. rewrite Ha, !Hok.
      cbn [Importer.worksheet_after]. unfold col_values_6.
      rewrite <- app_assoc, map_app. cbn [map app r_id].
      now rewrite !batch_row_id_real.
    + rewrite (batches_of_single (S (S n)) [t; t]); [|discriminate | cbn; lia].
      cbn [Importer.batch_loop Importer.prepare_rows length]. rewrite Ha, Hok.
      cbn [Importer.worksheet_after]. unfold col_values_6.
      rewrite map_app. cbn [map app r_id].
      now rewrite !batch_row_id_real.
Qed.

End WithinBatchDuplicates.

Lemma duplicates_within_batch_are_added_witness :
  map r_id (Tracker.worksheet_after
    (Tracker.import_csv_transactions FloatDecimal.float Sample.strptime
       (Sample.clock 1700000000) (Some Tracker.default_categories_sheet) true true []
       [Sample.record 1; Sample.record 1]))
  = ["tx_1"; "tx_1"].
Proof.
  destruct (duplicates_within_batch_are_added FloatDecimal.float Sample.strptime
              (Some Tracker.default_categories_sheet) (Sample.record 1) [])
    as [H _].
  - intros [].
  - intros H. vm_compute in H. discriminate.
  - eexists. reflexivity.
  - apply (H (Sample.clock 1700000000) true true).
Defined.
(** ** The tables of [update_dashboard] *)

Section GroupFacts.

Lemma sample_sort_perm (s : list (string * Q)) :
  Permutation (SampleSort.sort_values s) s.
Proof.
  assert (Hins : forall e l, Permutation (SampleSort.insert e l) (e :: l)).
  { intros e l. induction l as [|x l IH]; [reflexivity|]. cbn [SampleSort.insert].
    destruct (Qle_bool (snd e) (snd x)); [reflexivity|].
    rewrite IH. apply perm_swap. }
  unfold SampleSort.sort_values. induction s as [|e s IH]; [reflexivity|].
  cbn [fold_right]. rewrite Hins. now constructor.
Qed.

Lemma sample_sort_desc_perm (s : list (string * Q)) :
  Permutation (SampleSort.sort_values_desc s) s.
Proof.
  unfold SampleSort.sort_values_desc. rewrite <- Permutation_rev.
  apply sample_sort_perm.
Qed.

Lemma filter_andb {R : Type} (p q : R -> bool) (l : list R) :
  List.filter (fun r => p r && q r) l = List.filter q (List.filter p l).
Proof.
  induction l as [|x l IH]; [reflexivity|]. cbn [List.filter].
  destruct (p x); cbn [andb List.filter]; [destruct (q x)|]; now rewrite IH.
Qed.

Context {R : Type}.
Variable key : R -> option string.
Variable val : R -> Q.


End GroupFacts.

Section DashboardTables.

Variable sort_values : list (string * Q) -> list (string * Q).
Hypothesis sort_values_perm : forall s, Permutation (sort_values s) s.


End DashboardTables.


(** ** Layout of the dashboard *)

Section Layout.

Implicit Types (L : list (cell_ref * cell_value)) (col : string).

Lemma next_free_lower col L (lo lo' h : nat) :
  next_free col lo L = Some h -> (lo' <= lo)%nat ->
  exists h', next_free col lo' L = Some h' /\ (h' <= h)%nat.
Proof.
  revert lo lo'. induction L as [|[c v] L IH]; intros lo lo' H Hle; cbn [next_free] in *.
  - injection H as <-. now exists lo'.
  - destruct (String.eqb (cell_column c) col).
    + destruct (lo <=? cell_row c)%nat eqn:E; [|discriminate].
      apply Nat.leb_le in E.
      replace (lo' <=? cell_row c)%nat with true by (symmetry; apply Nat.leb_le; lia).
      now exists h.
    + now apply (IH lo lo').
Qed.

Lemma next_free_mono col L (lo h : nat) :
  next_free col lo L = Some h -> (lo <= h)%nat.
Proof.
  revert lo. induction L as [|[c v] L IH]; intros lo H; cbn [next_free] in *.
  - injection H as <-. lia.
  - destruct (String.eqb (cell_column c) col).
    + destruct (lo <=? cell_row c)%nat eqn:E; [|discriminate].
      apply Nat.leb_le in E. apply IH in H. lia.
    + now apply IH.
Qed.

Lemma next_free_app col L1 L2 (lo : nat) :
  next_free col lo (L1 ++ L2)
  = match next_free col lo L1 with
    | Some mid => next_free col mid L2
    | None => None
    end.
Proof.
  revert lo. induction L1 as [|[c v] L1 IH]; intros lo; [reflexivity|].
  cbn [app next_free]. destruct (String.eqb (cell_column c) col); [|apply IH].
  destruct (lo <=? cell_row c)%nat; [apply IH | reflexivity].
Qed.

Lemma fits_nil col (lo : nat) : fits col lo lo [].
Proof. exists lo. split; [reflexivity | lia]. Qed.

Lemma fits_weaken col L (lo hi hi' : nat) :
  fits col lo hi L -> (hi <= hi')%nat -> fits col lo hi' L.
Proof. intros (h & H & Hle) Hhi. exists h. split; [exact H | lia]. Qed.

Lemma fits_app col L1 L2 (lo mid hi : nat) :
  fits col lo mid L1 -> fits col mid hi L2 -> fits col lo hi (L1 ++ L2).
Proof.
  intros (h1 & H1 & Hle1) (h2 & H2 & Hle2). unfold fits.
  rewrite next_free_app, H1.
  destruct (next_free_lower col L2 mid h1 h2 H2 Hle1) as (h' & H' & Hle').
  exists h'. split; [exact H' | lia].
Qed.

Lemma fits_cons_same col L (c : cell_ref) (v : cell_value) (lo hi : nat) :
  cell_column c = col -> (lo <= cell_row c)%nat ->
  fits col (cell_row c + Dashboard.height v) hi L ->
  fits col lo hi ((c, v) :: L).
Proof.
  intros <- Hle (h & H & Hh). exists h. split; [|exact Hh].
  cbn [next_free]. rewrite String.eqb_refl.
  now replace (lo <=? cell_row c)%nat with true by (symmetry; now apply Nat.leb_le).
Qed.

Lemma fits_cons_other col L (c : cell_ref) (v : cell_value) (lo hi : nat) :
  cell_column c <> col -> fits col lo hi L -> fits col lo hi ((c, v) :: L).
Proof.
  intros Hne (h & H & Hh). exists h. split; [|exact Hh].
  cbn [next_free]. apply String.eqb_neq in Hne. now rewrite Hne.
Qed.

Lemma fits_name_amount_A (first lo : nat) (s : list (string * Q)) :
  (lo <= first)%nat ->
  fits "A" lo (first + length s) (Dashboard.name_amount_updates first s).
Proof.
  revert first lo. induction s as [|[name amount] s IH]; intros first lo Hle.
  - eapply fits_weaken; [apply fits_nil | cbn; lia].
  - cbn [Dashboard.name_amount_updates length].
    apply fits_cons_same; [reflexivity | exact Hle |].
    apply fits_cons_other; [discriminate|]. cbn [cell_row Dashboard.height].
    eapply fits_weaken; [apply (IH (S first)); lia | lia].
Qed.

Lemma fits_name_amount_B (first lo : nat) (s : list (string * Q)) :
  (lo <= first)%nat ->
  fits "B" lo (first + length s) (Dashboard.name_amount_updates first s).
Proof.
  revert first lo. induction s as [|[name amount] s IH]; intros first lo Hle.
  - eapply fits_weaken; [apply fits_nil | cbn; lia].
  - cbn [Dashboard.name_amount_updates length].
    apply fits_cons_other; [discriminate|].
    apply fits_cons_same; [reflexivity | exact Hle |]. cbn [cell_row Dashboard.height].
    eapply fits_weaken; [apply (IH (S first)); lia | lia].
Qed.

Lemma fits_name_amount_other col (first lo : nat) (s : list (string * Q)) :
  col <> "A" -> col <> "B" ->
  fits col lo lo (Dashboard.name_amount_updates first s).
Proof.
  intros HA HB. revert first. induction s as [|[name amount] s IH]; intros first.
  - apply fits_nil.
  - cbn [Dashboard.name_amount_updates].
    apply fits_cons_other; [cbn; congruence|].
    apply fits_cons_other; [cbn; congruence|]. apply IH.
Qed.

Lemma fits_grid_update_same col (row lo : nat) (rows : list (list item)) :
  (lo <= row)%nat ->
  fits col lo (row + length rows) (Dashboard.grid_update (Cell col row) rows).
Proof.
  intros Hle. destruct rows as [|r rows].
  - eapply fits_weaken; [apply fits_nil | lia].
  - cbn [Dashboard.grid_update]. apply fits_cons_same; [reflexivity | exact Hle |].
    apply fits_nil.
Qed.

Lemma fits_grid_update_other col col' (row lo : nat) (rows : list (list item)) :
  col' <> col ->
  fits col lo lo (Dashboard.grid_update (Cell col' row) rows).
Proof.
  intros Hne. destruct rows as [|r rows]; [apply fits_nil|].
  cbn [Dashboard.grid_update]. apply fits_cons_other; [exact Hne | apply fits_nil].
Qed.

(** What [next_free] checks is the order of the list within the column. *)
Lemma next_free_stacked col L (lo h : nat) :
  next_free col lo L = Some h ->
  (forall i u, L !! i = Some u -> cell_column (fst u) = col ->
     (lo <= cell_row (fst u))%nat
     /\ (cell_row (fst u) + Dashboard.height (snd u) <= h)%nat)
  /\ (forall i j u1 u2,
        (i < j)%nat -> L !! i = Some u1 -> L !! j = Some u2 ->
        cell_column (fst u1) = col -> cell_column (fst u2) = col ->
        (cell_row (fst u1) + Dashboard.height (snd u1) <= cell_row (fst u2))%nat).
Proof.
  revert lo. induction L as [|[c v] L IH]; intros lo H.
  - split; intros; discriminate.
  - cbn [next_free] in H. destruct (String.eqb (cell_column c) col) eqn:Ec.
    + destruct (lo <=? cell_row c)%nat eqn:E; [|discriminate].
      apply Nat.leb_le in E. pose proof (next_free_mono _ _ _ _ H) as Hm.
      destruct (IH _ H) as [Hin Hord]. split.
      * intros [|i] u Hu Hcol.
        -- injection Hu as <-. cbn [fst snd]. lia.
        -- destruct (Hin i u Hu Hcol). lia.
      * intros [|i] [|j] u1 u2 Hij H1 H2 Hc1 Hc2; try lia.
        -- injection H1 as <-. cbn [fst snd]. destruct (Hin j u2 H2 Hc2). lia.
        -- apply (Hord i j u1 u2); trivial; lia.
    + apply String.eqb_neq in Ec. destruct (IH _ H) as [Hin Hord]. split.
      * intros [|i] u Hu Hcol.
        -- injection Hu as <-. cbn [fst] in Hcol. contradiction.
        -- now apply (Hin i u).
      * intros [|i] [|j] u1 u2 Hij H1 H2 Hc1 Hc2; try lia.
        -- injection H1 as <-. cbn [fst] in Hc1. contradiction.
        -- apply (Hord i j u1 u2); trivial; lia.
Qed.

End Layout.
Ltac fits_seg :=
  lazymatch goal with
  | |- fits _ _ _ (Dashboard.name_amount_updates _ _) =>
      first [ apply fits_name_amount_A; lia
            | apply fits_name_amount_B; lia
            | apply fits_name_amount_other; congruence ]
  | |- fits _ _ _ (Dashboard.grid_update _ _) =>
      first [ apply fits_grid_update_same; lia
            | apply fits_grid_update_other; congruence ]
  | |- fits _ _ _ (_ ++ _) => eapply fits_app; [fits_seg | fits_seg]
  | |- fits _ _ _ (_ :: _) =>
      first [ apply fits_cons_same;
                [ reflexivity
                | cbn [cell_row Dashboard.height length]; lia
                | cbn [cell_row Dashboard.height length]; fits_seg ]
            | apply fits_cons_other; [cbn [cell_column]; congruence | fits_seg] ]
  | |- fits _ _ _ [] => apply fits_nil
  end.

Section DashboardLayout.

Variable sort_values : list (string * Q) -> list (string * Q).
Variable sort_values_desc : list (string * Q) -> list (string * Q).

Local Abbreviation cells df :=
  (Dashboard.all_updates_cells sort_values sort_values_desc df).

Lemma all_updates_fit (df : list FrameRow) (col : string) :
  exists hi, fits col 0 hi (cells df).
Proof.
  unfold Dashboard.all_updates_cells. cbv zeta.
  destruct (existsb _ df);
    (destruct (string_dec col "A") as [->|HA];
     [|destruct (string_dec col "B") as [->|HB];
       [|destruct (string_dec col "D") as [->|HD]]]);
    eexists; fits_seg.
Qed.

Lemma name_amount_updates_shape (first : nat) (s : list (string * Q)) :
  Forall (fun u => (1 <= Dashboard.height (snd u))%nat
                   /\ In (cell_column (fst u)) ["A"; "B"; "D"])
         (Dashboard.name_amount_updates first s).
Proof.
  revert first. induction s as [|[name amount] s IH]; intros first; [constructor|].
  cbn [Dashboard.name_amount_updates].
  constructor; [cbn; split; [lia | tauto]|].
  constructor; [cbn; split; [lia | tauto]|]. apply IH.
Qed.

Lemma grid_update_shape (row : nat) (rows : list (list item)) :
  Forall (fun u => (1 <= Dashboard.height (snd u))%nat
                   /\ In (cell_column (fst u)) ["A"; "B"; "D"])
         (Dashboard.grid_update (Cell "D" row) rows).
Proof.
  destruct rows as [|r rows]; [constructor|].
  cbn [Dashboard.grid_update]. constructor; [cbn; split; [lia | tauto] | constructor].
Qed.

Lemma all_updates_shape (df : list FrameRow) :
  Forall (fun u => (1 <= Dashboard.height (snd u))%nat
                   /\ In (cell_column (fst u)) ["A"; "B"; "D"])
         (cells df).
Proof.
  unfold Dashboard.all_updates_cells. cbv zeta.
  destruct (existsb _ df);
    repeat first
      [ apply Forall_app_2
      | apply name_amount_updates_shape
      | apply grid_update_shape
      | apply List.Forall_nil
      | apply List.Forall_cons; [cbn; split; [lia | tauto]|] ].
Qed.

Lemma cell_name_inj (c1 c2 : cell_ref) :
  In (cell_column c1) ["A"; "B"; "D"] -> In (cell_column c2) ["A"; "B"; "D"] ->
  cell_name c1 = cell_name c2 -> c1 = c2.
Proof.
  destruct c1 as [col1 r1], c2 as [col2 r2]. unfold cell_name. cbn [cell_column cell_row].
  intros H1 H2 Heq.
  assert (Hcol : col1 = col2 /\ PyStr.str_nat r1 = PyStr.str_nat r2).
  { cbn in H1, H2.
    destruct H1 as [<-|[<-|[<-|[]]]]; destruct H2 as [<-|[<-|[<-|[]]]];
      rewrite !append_cons, !append_nil in Heq; injection Heq as Heq;
      try discriminate; now split. }
  destruct Hcol as [-> Hr]. apply str_nat_inj in Hr. now subst.
Qed.

(** X16: the updates of the dashboard never overlap.  Within each column
    they are listed top to bottom, a later one starting below the last row
    of every earlier one, grids included; every update covers at least one
    row; so no two updates have the same cell name and turning a batch
    into a dictionary keyed by cell loses none. *)
Theorem dashboard_updates_do_not_overlap (df : list FrameRow) :
  stacked (cells df)
  /\ Forall (fun u => (1 <= Dashboard.height (snd u))%nat) (cells df)
  /\ List.NoDup (map fst (Dashboard.all_updates sort_values sort_values_desc df)).
Proof.
  assert (Hst : stacked (cells df)).
  { intros i j u1 u2 Hij H1 H2 Hcol.
    destruct (all_updates_fit df (cell_column (fst u1))) as (hi & h & Hnf & _).
    destruct (next_free_stacked _ _ _ _ Hnf) as [_ Hord].
    apply (Hord i j u1 u2); trivial. now symmetry. }
  pose proof (all_updates_shape df) as Hshape.
  split; [exact Hst|]. split.
  - eapply Forall_impl; [exact Hshape|]. now intros u [H _].
  - unfold Dashboard.all_updates. rewrite map_map. cbn [fst].
    apply NoDup_ListNoDup, NoDup_alt. intros i j name Hi Hj.
    apply list_lookup_fmap_Some in Hi as (u1 & -> & H1).
    apply list_lookup_fmap_Some in Hj as (u2 & Hname & H2).
    rewrite Forall_lookup in Hshape.
    destruct (Hshape i u1 H1) as [Hh1 Hc1]. destruct (Hshape j u2 H2) as [Hh2 Hc2].
    apply cell_name_inj in Hname; trivial.
    destruct (Nat.lt_trichotomy i j) as [Hlt|[Heq|Hgt]]; [|exact Heq|].
    + specialize (Hst i j u1 u2 Hlt H1 H2). rewrite Hname in Hst.
      specialize (Hst eq_refl). lia.
    + specialize (Hst j i u2 u1 Hgt H2 H1). rewrite Hname in Hst.
      specialize (Hst eq_refl). lia.
Qed.

End DashboardLayout.
(** ** [update_dashboard] as a whole *)

Section UpdateDashboard.

Variable sort_values : list (string * Q) -> list (string * Q).
Variable sort_values_desc : list (string * Q) -> list (string * Q).

Lemma dashboard_loop_written {U : Type} (batch_ok : nat -> bool) (delay : Q)
  (total : nat) (batches : list (list U)) (i : nat) :
  (forall k, batch_ok k = true) ->
  snd (Tracker.dashboard_loop batch_ok delay total i batches) = Returned
  /\ written (fst (Tracker.dashboard_loop batch_ok delay total i batches)) = batches.
Proof.
  intros Hok. revert i. induction batches as [|b batches IH]; intros i.
  - split; reflexivity.
  - cbn [Tracker.dashboard_loop]. rewrite Hok. specialize (IH (S i)).
    destruct (Tracker.dashboard_loop batch_ok delay total (S i) batches) as [t e].
    cbn [fst snd] in *. destruct IH as [-> Hw]. split; [reflexivity|].
    autorewrite with trace.
    replace (written (if (i <? total - 1)%nat && negb (Qle_bool delay 0)
                      then [ESleep i delay] else []))
      with (@nil (list U))
      by (destruct ((i <? total - 1)%nat && negb (Qle_bool delay 0)); reflexivity).
    cbn [app]. now rewrite Hw.
Qed.

Lemma name_amount_updates_length (first : nat) (s : list (string * Q)) :
  length (Dashboard.name_amount_updates first s) = (2 * length s)%nat.
Proof.
  revert first. induction s as [|[name amount] s IH]; intros first; [reflexivity|].
  cbn [Dashboard.name_amount_updates length]. rewrite IH. lia.
Qed.

(** X17: without transactions [update_dashboard] writes nothing.  With
    transactions it has at least 23 updates, so at least three write
    calls, and when every write call returns each update reaches the
    sheet exactly once, in the order of [all_updates]. *)
Theorem update_dashboard_writes_all (batch_ok : nat -> bool) (delay_seconds : Q)
  (df : list FrameRow) :
  (df = [] ->
   Dashboard.update_dashboard sort_values sort_values_desc batch_ok delay_seconds df
   = ([], Returned))
  /\ (df <> [] ->
      (23 <= length (Dashboard.all_updates sort_values sort_values_desc df))%nat
      /\ (3 <= length (batches_of 10
                 (Dashboard.all_updates sort_values sort_values_desc df)))%nat
      /\ ((forall k, batch_ok k = true) ->
          let r := Dashboard.update_dashboard sort_values sort_values_desc
                     batch_ok delay_seconds df in
          snd r = Returned
          /\ concat (written (fst r))
             = Dashboard.all_updates sort_values sort_values_desc df)).
Proof.
  split; [intros ->; reflexivity|]. intros Hne.
  assert (Hlen : (23 <= length (Dashboard.all_updates sort_values sort_values_desc df))%nat).
  { unfold Dashboard.all_updates, Dashboard.all_updates_cells. cbv zeta.
    rewrite length_map, !length_app. cbn [length]. lia. }
  split; [exact Hlen|]. split.
  - assert (Hcover := batches_of_cover 10
                (Dashboard.all_updates sort_values sort_values_desc df)). lia.
  - intros Hok r. subst r. unfold Dashboard.update_dashboard.
    destruct df as [|row df]; [congruence|].
    unfold Tracker.update_dashboard_writes, Tracker.dashboard_batch_size.
    destruct (dashboard_loop_written batch_ok delay_seconds
                (length (batches_of 10
                   (Dashboard.all_updates sort_values sort_values_desc (row :: df))))
                (batches_of 10
                   (Dashboard.all_updates sort_values sort_values_desc (row :: df)))
                0 Hok) as [He Hw].
    split; [exact He|]. rewrite Hw. apply batches_of_concat. lia.
Qed.

End UpdateDashboard.

Lemma update_dashboard_writes_all_witness :
  SampleFrame.df <> []
  /\ (forall k, Sample.always_ok k = true)
  /\ concat (written (fst (Dashboard.update_dashboard SampleSort.sort_values
                             SampleSort.sort_values_desc Sample.always_ok (1 # 2)%Q
                             SampleFrame.df)))
     = Dashboard.all_updates SampleSort.sort_values SampleSort.sort_values_desc
         SampleFrame.df.
Proof.
  split; [discriminate|]. split; [intros k; reflexivity|].
  destruct (update_dashboard_writes_all SampleSort.sort_values
              SampleSort.sort_values_desc Sample.always_ok (1 # 2)%Q SampleFrame.df)
    as [_ H].
  destruct H as (_ & _ & H); [discriminate|].
  destruct (H (fun k => eq_refl)) as [_ Hw]. exact Hw.
Defined.
(** ** The worksheets of [create_financial_spreadsheet] *)

Section Worksheets.

Implicit Types sheet : gmap string (list (list string)).

Lemma ensure_worksheet_keeps (title : string) (fresh : list (list string)) sheet
  (t : string) (w : list (list string)) :
  sheet !! t = Some w ->
  Spreadsheet.ensure_worksheet title fresh sheet !! t = Some w.
Proof.
  intros H. unfold Spreadsheet.ensure_worksheet.
  destruct (sheet !! title) eqn:E; [exact H|].
  rewrite lookup_insert_ne; [exact H|]. intros ->. congruence.
Qed.

Lemma ensure_worksheet_other (title : string) (fresh : list (list string)) sheet
  (t : string) :
  t <> title ->
  Spreadsheet.ensure_worksheet title fresh sheet !! t = sheet !! t.
Proof.
  intros H. unfold Spreadsheet.ensure_worksheet.
  destruct (sheet !! title); [reflexivity|].
  now rewrite lookup_insert_ne.
Qed.

Lemma ensure_worksheet_missing (title : string) (fresh : list (list string)) sheet :
  sheet !! title = None ->
  Spreadsheet.ensure_worksheet title fresh sheet !! title = Some fresh.
Proof.
  intros H. unfold Spreadsheet.ensure_worksheet. rewrite H.
  apply lookup_insert_eq.
Qed.

Lemma ensure_worksheet_present (title : string) (fresh : list (list string)) sheet :
  is_Some (Spreadsheet.ensure_worksheet title fresh sheet !! title).
Proof.
  unfold Spreadsheet.ensure_worksheet.
  destruct (sheet !! title) eqn:E; [rewrite E; eauto|].
  rewrite lookup_insert_eq. eauto.
Qed.

Lemma ensure_worksheet_done (title : string) (fresh : list (list string)) sheet :
  is_Some (sheet !! title) ->
  Spreadsheet.ensure_worksheet title fresh sheet = sheet.
Proof.
  intros [w H]. unfold Spreadsheet.ensure_worksheet. now rewrite H.
Qed.

Lemma ensure_worksheet_is_Some (title : string) (fresh : list (list string)) sheet
  (t : string) :
  is_Some (sheet !! t) ->
  is_Some (Spreadsheet.ensure_worksheet title fresh sheet !! t).
Proof.
  intros [w H]. exists w. now apply ensure_worksheet_keeps.
Qed.

(** X18: [create_financial_spreadsheet] only adds worksheets.  A worksheet
    the spreadsheet already has keeps its rows, whatever they are, also
    under one of the three titles; a missing Transactions worksheet is
    created with the header row only, a missing Categories worksheet with
    the header and one row per built-in category, a missing Dashboard
    worksheet empty; and running it a second time changes nothing. *)
Theorem create_worksheets_only_adds sheet :
  (forall t w, sheet !! t = Some w ->
               Spreadsheet.create_worksheets sheet !! t = Some w)
  /\ (forall t, t <> "Transactions" -> t <> "Categories" -> t <> "Dashboard" ->
                Spreadsheet.create_worksheets sheet !! t = sheet !! t)
  /\ (sheet !! "Transactions" = None ->
      Spreadsheet.create_worksheets sheet !! "Transactions"
      = Some [Spreadsheet.transactions_headers])
  /\ (sheet !! "Categories" = None ->
      Spreadsheet.create_worksheets sheet !! "Categories"
      = Some Tracker.default_categories_sheet)
  /\ (sheet !! "Dashboard" = None ->
      Spreadsheet.create_worksheets sheet !! "Dashboard" = Some [])
  /\ Spreadsheet.create_worksheets (Spreadsheet.create_worksheets sheet)
     = Spreadsheet.create_worksheets sheet.
Proof.
  unfold Spreadsheet.create_worksheets. repeat split.
  - intros t w H. now do 3 apply ensure_worksheet_keeps.
  - intros t H1 H2 H3. now rewrite !ensure_worksheet_other.
  - intros H. do 2 apply ensure_worksheet_keeps.
    now apply ensure_worksheet_missing.
  - intros H. apply ensure_worksheet_keeps.
    change Tracker.default_categories_sheet
      with Spreadsheet.new_categories_worksheet.
    apply ensure_worksheet_missing.
    now rewrite ensure_worksheet_other.
  - intros H. apply ensure_worksheet_missing.
    now rewrite !ensure_worksheet_other.
  - set (s3 := Spreadsheet.ensure_worksheet "Dashboard" []
                 (Spreadsheet.ensure_worksheet "Categories" _
                    (Spreadsheet.ensure_worksheet "Transactions" _ sheet))).
    assert (H1 : is_Some (s3 !! "Transactions")).
    { subst s3. do 2 apply ensure_worksheet_is_Some.
      apply ensure_worksheet_present. }
    assert (H2 : is_Some (s3 !! "Categories")).
    { subst s3. apply ensure_worksheet_is_Some. apply ensure_worksheet_present. }
    assert (H3 : is_Some (s3 !! "Dashboard")).
    { subst s3. apply ensure_worksheet_present. }
    clearbody s3.
    rewrite (ensure_worksheet_done "Transactions") by exact H1.
    rewrite (ensure_worksheet_done "Categories") by exact H2.
    now rewrite (ensure_worksheet_done "Dashboard") by exact H3.
Qed.

End Worksheets.
(** ** The sign adjustment of the monthly activity chart *)

Section SignAdjustment.

Local Open Scope Q_scope.

Lemma same_series_refl (a : list (string * Q)) : same_series a a.
Proof.
  induction a as [|x a IH]; constructor; [split; reflexivity | exact IH].
Qed.

Lemma same_frame_refl (m : list (string * list (string * Q))) : same_frame m m.
Proof.
  induction m as [|r m IH]; constructor;
    [split; [reflexivity | apply same_series_refl] | exact IH].
Qed.

Lemma same_series_trans (a b c : list (string * Q)) :
  same_series a b -> same_series b c -> same_series a c.
Proof.
  intros Hab. revert c. induction Hab as [|x y a b [Hk Hv] Hab IH]; intros c Hbc.
  - inversion Hbc. constructor.
  - inversion Hbc as [|y' z b' c' [Hk' Hv'] Hbc']; subst. constructor.
    + split; [congruence | now rewrite Hv].
    + now apply IH.
Qed.

Lemma same_frame_trans (m n p : list (string * list (string * Q))) :
  same_frame m n -> same_frame n p -> same_frame m p.
Proof.
  intros Hmn. revert p. induction Hmn as [|x y m n [Hk Hv] Hmn IH]; intros p Hnp.
  - inversion Hnp. constructor.
  - inversion Hnp as [|y' z n' p' [Hk' Hv'] Hnp']; subst. constructor.
    + split; [congruence | eapply same_series_trans; eassumption].
    + now apply IH.
Qed.

Lemma negate_abs_nonpositive (v : Q) : v <= 0 -> Qabs v * -1 == v.
Proof.
  intros H. rewrite (Qabs_neg v H). ring.
Qed.

Lemma negate_abs_same (c : string) (m : list (string * list (string * Q))) :
  column_nonpositive c m -> same_frame (Charts.negate_abs c m) m.
Proof.
  unfold column_nonpositive, Charts.negate_abs.
  induction m as [|row m IH]; intros H; [constructor|].
  cbn [map]. constructor.
  - cbn [fst snd]. split; [reflexivity|].
    assert (Hrow : forall cell, In cell (snd row) -> fst cell = c -> snd cell <= 0).
    { intros cell Hin. apply (H row); [now left | exact Hin]. }
    clear H IH. induction (snd row) as [|cell cells IHc]; [constructor|].
    cbn [map]. constructor.
    + destruct (String.eqb (fst cell) c) eqn:E; cbn [fst snd].
      * split; [reflexivity|]. apply negate_abs_nonpositive.
        apply Hrow; [now left | now apply String.eqb_eq].
      * split; reflexivity.
    + apply IHc. intros cell' Hin. apply Hrow. now right.
  - apply IH. intros row' cell Hin. apply H. now right.
Qed.

Lemma negate_abs_keeps_nonpositive (c c' : string)
  (m : list (string * list (string * Q))) :
  column_nonpositive c m -> column_nonpositive c (Charts.negate_abs c' m).
Proof.
  unfold column_nonpositive, Charts.negate_abs. intros H row cell Hrow Hcell Hc.
  apply in_map_iff in Hrow as (row0 & <- & Hrow0). cbn [snd] in Hcell.
  apply in_map_iff in Hcell as (cell0 & Hcell & Hcell0).
  destruct (String.eqb (fst cell0) c') eqn:E.
  - subst cell. cbn [snd].
    assert (Hn : Qabs (snd cell0) * -1 == - Qabs (snd cell0)) by ring.
    rewrite Hn. apply (Qopp_le_compat 0). apply Qabs_nonneg.
  - subst cell. eapply H; eassumption.
Qed.

Lemma Qsum_nonpositive (l : list Q) :
  (forall x, In x l -> x <= 0) -> Pandas.Qsum l <= 0.
Proof.
  induction l as [|x l IH]; intros H.
  - rewrite Qsum_nil. apply Qle_refl.
  - rewrite Qsum_cons.
    apply Qle_trans with (0 + 0); [|now rewrite Qplus_0_l; apply Qle_refl].
    apply Qplus_le_compat; [apply H; now left | apply IH; intros y Hy; apply H; now right].
Qed.

Lemma type_negative (c : string) (Description : string) (Amount : Q) :
  c = "Buy" \/ c = "Fee" ->
  Visualizer.identify_transaction_type Description Amount = c -> Amount < 0.
Proof.
  intros Hc. unfold Visualizer.identify_transaction_type.
  destruct (PyStr.contains "initial fund capital" _).
  { intros <-. destruct Hc; discriminate. }
  destruct (Visualizer.Qltb Amount 0) eqn:Hneg.
  { intros _. now apply Qltb_lt. }
  cbn [andb].
  destruct (Visualizer.Qltb 0 Amount && _);
    [intros <-; destruct Hc; discriminate|].
  destruct (PyStr.contains "dividend" _);
    intros <-; destruct Hc; discriminate.
Qed.

Lemma activity_column_nonpositive (c : string) (df : list FrameRow) :
  c = "Buy" \/ c = "Fee" ->
  column_nonpositive c (Visualizer.monthly_activity df).
Proof.
  intros Hc row cell Hrow Hcell Hkey.
  unfold Visualizer.monthly_activity, Pandas.fillna, Pandas.pivot_table_sum in Hrow.
  rewrite map_map in Hrow. cbn [fst snd] in Hrow.
  apply in_map_iff in Hrow as (i & <- & _). cbn [snd] in Hcell.
  rewrite map_map in Hcell. cbn [fst snd] in Hcell.
  apply in_map_iff in Hcell as (c0 & <- & _). cbn [fst snd] in *. subst c0.
  unfold Pandas.group_sum.
  set (kept := List.filter (Pandas.both_keys Month Visualizer.TransactionType) df).
  destruct (List.filter _ kept) as [|r rows] eqn:E; [apply Qle_refl|].
  cbn [default]. rewrite <- E. apply Qsum_nonpositive.
  intros x Hx. apply in_map_iff in Hx as (r' & <- & Hr').
  apply filter_In in Hr' as [_ Hr']. apply andb_true_iff in Hr' as [_ Hr'].
  unfold Pandas.has_key, Visualizer.TransactionType in Hr'.
  apply String.eqb_eq in Hr'. apply Qlt_le_weak.
  eapply type_negative; [exact Hc | symmetry; exact Hr'].
Qed.

Lemma adjust_sign_same (c : string) (columns : list string)
  (m : list (string * list (string * Q))) :
  column_nonpositive c m -> same_frame (Charts.adjust_sign c columns m) m.
Proof.
  intros H. unfold Charts.adjust_sign.
  destruct (py_in c columns); [now apply negate_abs_same | apply same_frame_refl].
Qed.

(** X19: the sign adjustment of the monthly activity chart changes no
    number.  A row is a Buy or a Fee only with a negative amount, so every
    number of these two columns is at most zero before the adjustment, and
    [abs() * -1] gives it back. *)
Theorem sign_adjustment_changes_nothing (df : list FrameRow) :
  same_frame (Charts.adjusted_activity df) (Visualizer.monthly_activity df)
  /\ column_nonpositive "Buy" (Visualizer.monthly_activity df)
  /\ column_nonpositive "Fee" (Visualizer.monthly_activity df).
Proof.
  assert (Hbuy := activity_column_nonpositive "Buy" df (or_introl eq_refl)).
  assert (Hfee := activity_column_nonpositive "Fee" df (or_intror eq_refl)).
  split; [|split; assumption].
  unfold Charts.adjusted_activity.
  eapply same_frame_trans; [|apply adjust_sign_same; exact Hbuy].
  apply adjust_sign_same. unfold Charts.adjust_sign at 1.
  destruct (py_in "Buy" _); [now apply negate_abs_keeps_nonpositive | exact Hfee].
Qed.

End SignAdjustment.
(** ** The pies of the visualizer *)

Section Pies.

Local Open Scope Q_scope.

Lemma set_label_new (label : string) (v : Q) (s : list (string * Q)) :
  ~ In label (map fst s) -> Charts.set_label label v s = s ++ [(label, v)].
Proof.
  induction s as [|[k x] s IH]; intros H; [reflexivity|].
  cbn [Charts.set_label app]. destruct (String.eqb label k) eqn:E.
  - apply String.eqb_eq in E. exfalso. apply H. now left.
  - rewrite IH; [reflexivity|]. intros Hin. apply H. now right.
Qed.

(** The labels of a series grouped by stock are stock symbols, and
    "Other" is none. *)
Lemma stock_label_symbol (sum : list Q -> Q) (val : FrameRow -> Q)
  (df : list FrameRow) (k : string) :
  In k (map fst (Pandas.groupby_sum_doubles sum Dashboard.Stock val df)) ->
  StockSymbol.all_symbol_chars k = true.
Proof.
  rewrite groupby_sum_doubles_keys, sorted_unique_In, present_keys_In.
  intros (r & _ & Hr). unfold Dashboard.Stock in Hr.
  apply extract_some in Hr as (pre & suf & _ & (_ & Hall & _) & _). exact Hall.
Qed.

Lemma other_is_no_symbol (sum : list Q -> Q) (val : FrameRow -> Q)
  (df : list FrameRow) (s : list (string * Q)) :
  (forall k, In k (map fst s) ->
             In k (map fst (Pandas.groupby_sum_doubles sum Dashboard.Stock val df))) ->
  ~ In "Other" (map fst s).
Proof.
  intros Hsub Hin. apply Hsub, stock_label_symbol in Hin. discriminate Hin.
Qed.

Lemma abs_series_fst (s : list (string * Q)) :
  map fst (Charts.abs_series s) = map fst s.
Proof. unfold Charts.abs_series. rewrite map_map. reflexivity. Qed.

Variable sum : list Q -> Q.
Variable nlargest : nat -> list (string * Q) -> list (string * Q).
Hypothesis nlargest_ok : nlargest_spec nlargest.

(** X20: the stock pie of the portfolio overview, whatever the additions
    of [sum] round to.  The allocation is in the order of the symbols.
    With at most ten stocks every stock has its slice.  With more, the pie
    has the ten largest and a slice Other, and Other is what [sum] gives
    over the allocation from its eleventh entry on, in the order of the
    symbols: over the stocks with the last symbols, not over the stocks
    outside the ten largest. *)
Theorem stock_pie_other_slice (df : list FrameRow) :
  let allocation := Charts.stock_allocation sum df in
  let pie := Charts.top_stocks sum nlargest df in
  StronglySorted String_as_OT.lt (map fst allocation)
  /\ ((length allocation <= 10)%nat -> Permutation pie allocation)
  /\ ((10 < length allocation)%nat ->
      pie = nlargest 10%nat allocation
            ++ [("Other", sum (map snd (skipn 10%nat allocation)))]
      /\ length pie = 11%nat).
Proof.
  intros allocation pie. subst pie. unfold Charts.top_stocks.
  fold allocation.
  destruct (nlargest_ok 10%nat allocation) as (rest & Hperm & Hlen & _).
  split; [|split].
  - subst allocation. unfold Charts.stock_allocation.
    rewrite abs_series_fst, groupby_sum_doubles_keys. apply sorted_unique_sorted.
  - intros Hshort.
    assert (E : (10 <? length allocation)%nat = false) by (apply Nat.ltb_ge; lia).
    rewrite E.
    assert (Hrest : rest = []).
    { apply Permutation_length in Hperm. rewrite length_app, Hlen in Hperm.
      destruct rest; [reflexivity | cbn [length] in Hperm; lia]. }
    subst rest. now rewrite app_nil_r in Hperm.
  - intros Hlong.
    assert (E : (10 <? length allocation)%nat = true) by (apply Nat.ltb_lt; lia).
    rewrite E.
    assert (Hother : ~ In "Other" (map fst (nlargest 10%nat allocation))).
    { apply (other_is_no_symbol sum f_amount (Charts.of_type "Buy" df)).
      intros k Hk. rewrite <- abs_series_fst.
      change (In k (map fst allocation)).
      eapply Permutation_in; [apply Permutation_map; exact Hperm|].
      rewrite map_app. apply in_or_app. now left. }
    rewrite (set_label_new _ _ _ Hother).
    split; [reflexivity|]. rewrite length_app, Hlen. cbn [length]. lia.
Qed.

Variable sort_values_desc : list (string * Q) -> list (string * Q).
Hypothesis sort_values_desc_perm : forall s, Permutation (sort_values_desc s) s.

(** X21: the pie of the dividend sources is drawn when some row is a
    Dividend, whatever the additions of [sum] round to.  It shows at most
    eight stocks, and Other is what [sum] gives over the stocks it does not
    show: every stock with a dividend row is either shown or one of those
    that Other is formed of, and none is both. *)
Theorem dividend_pie_partitions (df : list FrameRow) :
  (Charts.top_dividend_stocks sum sort_values_desc df = None
   <-> Charts.of_type "Dividend" df = [])
  /\ forall pie,
       Charts.top_dividend_stocks sum sort_values_desc df = Some pie ->
       exists shown rest,
         Permutation (shown ++ rest)
           (Pandas.groupby_sum_doubles sum Dashboard.Stock f_amount
              (Charts.of_type "Dividend" df))
         /\ (length shown <= 8)%nat
         /\ (rest <> [] -> length shown = 8%nat)
         /\ pie = match rest with
                  | [] => shown
                  | _ => shown ++ [("Other", sum (map snd rest))]
                  end.
Proof.
  unfold Charts.top_dividend_stocks.
  set (types := map _ df).
  assert (Hguard : py_in "Dividend" types = false <-> Charts.of_type "Dividend" df = []).
  { subst types. unfold Charts.of_type, py_in.
    induction df as [|r df IH]; [split; reflexivity|].
    cbn [map existsb List.filter]. rewrite (String.eqb_sym "Dividend").
    destruct (String.eqb _ "Dividend"); cbn [orb]; [split; discriminate | exact IH]. }
  destruct (py_in "Dividend" types).
  2:{ split; [split; [intros _; now apply Hguard | reflexivity] | discriminate]. }
  split.
  { split; [discriminate|]. intros H. apply Hguard in H. discriminate. }
  intros pie [= <-].
  set (series := Charts.dividend_by_stock sum sort_values_desc df).
  exists (firstn 8 series), (skipn 8 series).
  split; [rewrite firstn_skipn; apply sort_values_desc_perm|].
  split; [rewrite length_firstn; lia|].
  destruct (8 <? length series)%nat eqn:E.
  - apply Nat.ltb_lt in E. split; [intros _; rewrite length_firstn; lia|].
    assert (Hother : ~ In "Other" (map fst (firstn 8 series))).
    { apply (other_is_no_symbol sum f_amount (Charts.of_type "Dividend" df)).
      intros k Hk.
      eapply Permutation_in;
        [apply Permutation_map; apply (sort_values_desc_perm _)|].
      fold (Charts.dividend_by_stock sum sort_values_desc df). fold series.
      rewrite <- (firstn_skipn 8 series), map_app. apply in_or_app. now left. }
    rewrite (set_label_new _ _ _ Hother).
    destruct (skipn 8 series) as [|e rest] eqn:Hrest; [|reflexivity].
    exfalso. apply (f_equal (@length _)) in Hrest.
    rewrite length_skipn in Hrest. cbn [length] in Hrest. lia.
  - apply Nat.ltb_ge in E. rewrite skipn_all2 by exact E.
    split; [congruence | reflexivity].
Qed.

End Pies.

Section PieWitnesses.

Local Open Scope Q_scope.

Lemma sample_insert_sorted (e : string * Q) (s : list (string * Q)) :
  StronglySorted (fun a b => snd a <= snd b) s ->
  StronglySorted (fun a b => snd a <= snd b) (SampleSort.insert e s).
Proof.
  induction 1 as [|x s Hs IH Hx]; cbn [SampleSort.insert].
  - constructor; constructor.
  - destruct (Qle_bool (snd e) (snd x)) eqn:E.
    + apply Qle_bool_iff in E. constructor; [now constructor|].
      constructor; [exact E|].
      rewrite List.Forall_forall in Hx |- *. intros y Hy.
      eapply Qle_trans; [exact E | now apply Hx].
    + assert (Hxe : snd x <= snd e).
      { apply Qlt_le_weak, Qnot_le_lt. intros Hle.
        apply Qle_bool_iff in Hle. congruence. }
      constructor; [exact IH|].
      rewrite List.Forall_forall in Hx |- *. intros y Hy.
      assert (Hy' : In y (e :: s)).
      { eapply Permutation_in; [|exact Hy].
        clear. induction s as [|z s IHs]; [reflexivity|]. cbn [SampleSort.insert].
        destruct (Qle_bool (snd e) (snd z)); [reflexivity|].
        rewrite IHs. apply perm_swap. }
      destruct Hy' as [<-|Hy']; [exact Hxe | now apply Hx].
Qed.

Lemma sample_sort_sorted (s : list (string * Q)) :
  StronglySorted (fun a b => snd a <= snd b) (SampleSort.sort_values s).
Proof.
  unfold SampleSort.sort_values. induction s as [|e s IH]; [constructor|].
  cbn [fold_right]. now apply sample_insert_sorted.
Qed.

Lemma sorted_split_le (l1 l2 : list (string * Q)) :
  StronglySorted (fun a b => snd a <= snd b) (l1 ++ l2) ->
  forall a b, In a l1 -> In b l2 -> snd a <= snd b.
Proof.
  induction l1 as [|x l1 IH]; intros Hs a b Ha Hb; [contradiction|].
  cbn [app] in Hs. inversion Hs as [|? ? Hs' Hx]; subst.
  destruct Ha as [<-|Ha].
  - rewrite List.Forall_forall in Hx. apply Hx, in_or_app. now right.
  - now apply IH.
Qed.

Lemma sample_nlargest_ok : nlargest_spec sample_nlargest.
Proof.
  intros n s. unfold sample_nlargest.
  exists (skipn n (SampleSort.sort_values_desc s)). split; [|split].
  - rewrite firstn_skipn. apply sample_sort_desc_perm.
  - rewrite length_firstn.
    now rewrite (Permutation_length (sample_sort_desc_perm s)).
  - intros t r Ht Hr.
    apply (sorted_split_le (rev (skipn n (SampleSort.sort_values_desc s)))
                           (rev (firstn n (SampleSort.sort_values_desc s)))).
    + rewrite <- rev_app_distr, firstn_skipn.
      unfold SampleSort.sort_values_desc. rewrite rev_involutive.
      apply sample_sort_sorted.
    + now apply in_rev in Hr.
    + now apply in_rev in Ht.
Qed.

Lemma stock_pie_other_slice_witness :
  Permutation (Charts.top_stocks Pandas.Qsum sample_nlargest SampleFrame.df)
              (Charts.stock_allocation Pandas.Qsum SampleFrame.df).
Proof.
  apply (stock_pie_other_slice Pandas.Qsum sample_nlargest sample_nlargest_ok
           SampleFrame.df).
  vm_compute. lia.
Defined.

Lemma dividend_pie_partitions_witness :
  exists shown rest,
    Permutation (shown ++ rest)
      (Pandas.groupby_sum_doubles Pandas.Qsum Dashboard.Stock f_amount
         (Charts.of_type "Dividend" SampleFrame.df))
    /\ (length shown <= 8)%nat
    /\ (rest <> [] -> length shown = 8%nat)
    /\ [("AAPL", 12 # 1)]
       = match rest with
         | [] => shown
         | _ => shown ++ [("Other", Pandas.Qsum (map snd rest))]
         end.
Proof.
  apply (dividend_pie_partitions Pandas.Qsum SampleSort.sort_values_desc
           sample_sort_desc_perm SampleFrame.df).
  vm_compute. reflexivity.
Defined.

End PieWitnesses.

Lemma create_worksheets_only_adds_witness :
  Spreadsheet.create_worksheets ∅ !! "Categories"
  = Some Tracker.default_categories_sheet.
Proof.
  apply (create_worksheets_only_adds ∅). reflexivity.
Defined.

(** ** What the allocation pies show *)

Section AllocationSlices.

Local Open Scope Q_scope.

Lemma Qsum_negative (l : list Q) :
  l <> [] -> (forall x, In x l -> x < 0) -> Pandas.Qsum l < 0.
Proof.
  intros Hne H. destruct l as [|x l]; [congruence|]. rewrite Qsum_cons.
  apply Qle_lt_trans with (x + 0).
  - apply Qplus_le_compat; [apply Qle_refl|].
    apply Qsum_nonpositive. intros y Hy. apply Qlt_le_weak, H. now right.
  - rewrite Qplus_0_r. apply H. now left.
Qed.

Lemma of_type_In (t : string) (df : list FrameRow) (r : FrameRow) :
  In r (Charts.of_type t df)
  <-> In r df
      /\ Visualizer.identify_transaction_type (f_description r) (f_amount r) = t.
Proof.
  unfold Charts.of_type. rewrite filter_In, String.eqb_eq. reflexivity.
Qed.

Variable sum : list Q -> Q.
Hypothesis sum_negative :
  forall l, l <> [] -> (forall x, In x l -> x < 0) -> sum l < 0.

Context (key : FrameRow -> option string).

Lemma groupby_sum_doubles_In (df : list FrameRow) (k : string) (v : Q) :
  In (k, v) (Pandas.groupby_sum_doubles sum key f_amount df) ->
  (exists r, In r df /\ key r = Some k)
  /\ v = sum (map f_amount (List.filter (Pandas.has_key key k) df)).
Proof.
  unfold Pandas.groupby_sum_doubles. intros H.
  apply in_map_iff in H as (k' & [= <- <-] & Hk).
  split; [|reflexivity]. now apply sorted_unique_In, present_keys_In in Hk.
Qed.

(** A group of purchases: its sum is negative. *)
Lemma buy_group_negative (df : list FrameRow) (k : string) (v : Q) :
  In (k, v) (Pandas.groupby_sum_doubles sum key f_amount (Charts.of_type "Buy" df)) ->
  v < 0 /\ v = sum (map f_amount (purchases_of key k df)).
Proof.
  intros H. apply groupby_sum_doubles_In in H as [(r & Hr & Hk) ->]. split.
  - apply sum_negative.
    + intros E. apply map_eq_nil in E.
      assert (Hin : In r (List.filter (Pandas.has_key key k) (Charts.of_type "Buy" df))).
      { apply filter_In. split; [exact Hr|]. unfold Pandas.has_key.
        rewrite Hk. apply String.eqb_refl. }
      rewrite E in Hin. contradiction.
    + intros x Hx. apply in_map_iff in Hx as (r' & <- & Hr').
      apply filter_In in Hr' as [Hr' _]. apply of_type_In in Hr' as [_ Hr'].
      eapply type_negative; [left; reflexivity | exact Hr'].
  - unfold purchases_of, Charts.of_type. now rewrite filter_andb.
Qed.

Lemma abs_series_In (s : list (string * Q)) (k : string) (v : Q) :
  In (k, v) (Charts.abs_series s) -> exists x, In (k, x) s /\ v = Qabs x.
Proof.
  unfold Charts.abs_series. intros H.
  apply in_map_iff in H as ([k' x] & [= <- <-] & Hin). now exists x.
Qed.

Lemma buy_slices (df : list FrameRow) (k : string) (v : Q) :
  In (k, v) (Charts.abs_series
               (Pandas.groupby_sum_doubles sum key f_amount (Charts.of_type "Buy" df))) ->
  0 < v /\ v == - sum (map f_amount (purchases_of key k df)).
Proof.
  intros H. apply abs_series_In in H as (x & Hx & ->).
  apply buy_group_negative in Hx as [Hneg Hx].
  rewrite (Qabs_neg x) by now apply Qlt_le_weak.
  split.
  - apply (Qopp_lt_compat x 0), Hneg.
  - now rewrite Hx.
Qed.

End AllocationSlices.

Section AllocationPies.

Local Open Scope Q_scope.

Variable sum : list Q -> Q.
Hypothesis sum_negative :
  forall l, l <> [] -> (forall x, In x l -> x < 0) -> sum l < 0.

(** X22: the allocation pies show purchases.  A slice is formed of the
    rows of type Buy of its fund, or of its stock, and of no other row;
    these rows have negative amounts, so, when [sum] over negative amounts
    is negative, as it is however the additions round, the slice, the
    absolute value of their sum, is positive and is that sum with the sign
    changed. *)
Theorem allocation_slices_are_purchases (df : list FrameRow) :
  (forall fund v,
      In (fund, v) (Charts.fund_allocation sum df) ->
      0 < v /\ v == - sum (map f_amount (purchases_of Dashboard.Account fund df)))
  /\ (forall stock v,
      In (stock, v) (Charts.stock_allocation sum df) ->
      0 < v /\ v == - sum (map f_amount (purchases_of Dashboard.Stock stock df))).
Proof.
  split.
  - intros fund v H. exact (buy_slices sum sum_negative Dashboard.Account df fund v H).
  - intros stock v H. exact (buy_slices sum sum_negative Dashboard.Stock df stock v H).
Qed.

End AllocationPies.

Lemma allocation_slices_are_purchases_witness :
  (0 < 1200 # 1
   /\ 1200 # 1
      == - Pandas.Qsum
             (map f_amount
                (purchases_of Dashboard.Account "Growth Fund" SampleFrame.df)))%Q.
Proof.
  apply (proj1 (allocation_slices_are_purchases Pandas.Qsum Qsum_negative
                  SampleFrame.df)).
  vm_compute. left. reflexivity.
Defined.
